(** * VibedAstiBot trading engine: a shallow embedding of [tradingEngine.js]

    The development follows the server-side trading engine of the
    repository (the module whose header comment reads "tradingEngine.js -
    Trading Logic Module"): the simple moving average [calculateSMA] and
    the class [TradingEngine] with its methods [executeTick],
    [_executeSellLogic], [_executeBuyLogic], [start], [stop] and
    [updateSettings].  After the engine come the code around it: the
    state update of [server.js], the historical candles of
    [coinbaseService.js], the granularity helper, the headless
    simulation of [simulationService.ts] and the search for the best
    settings of [App.tsx].

    Conventions of the embedding.
    - A JavaScript number that carries a price, a balance or a percentage
      is an exact rational ([Q]); counters, indices and lengths are [nat];
      integer quantities (periods, time stamps, milliseconds) are [Z].
      IEEE rounding, NaN and the infinities are outside the model: a
      division by zero follows [Qdiv] (it yields 0), and every statement
      whose content depends on a division says which divisor it needs to
      be non-zero.
    - [undefined] and [null] are [None].  JavaScript truthiness of a
      possibly undefined number is [truthy].
    - The engine object is a record; its methods are functions from the
      engine to a result that holds the engine after the call, the
      effects the call performed on its collaborators, in order, and
      whether the call completed normally or threw.
    - The two inputs a call cannot compute, the value the price provider
      resolves to (or its rejection) and the wall clock, are parameters. *)

From Stdlib Require Import String QArith Qround ZArith List Bool Lia Sorted.
From Stdlib Require Import Permutation Lqa DecimalString.
Import ListNotations.
Open Scope Q_scope.

(** * Part I: the program *)

(** ** Numbers *)

Module Num.

(** [a < b] on numbers, as a boolean. *)
Definition Qlt_bool (a b : Q) : bool := negb (Qle_bool b a).

(** Truthiness of a possibly undefined number: [undefined] and [0] are
    falsy. *)
Definition truthy (o : option Q) : bool :=
  match o with
  | Some q => negb (Qeq_bool q 0)
  | None => false
  end.

(** [Math.round]: the nearest integer, halves towards plus infinity. *)
Definition round (q : Q) : Z := Qfloor (q + (1 # 2)).

(** Equality of possibly undefined numbers, up to the value of the
    fraction. *)
Definition optQeq (a b : option Q) : Prop :=
  match a, b with
  | Some x, Some y => x == y
  | None, None => True
  | _, _ => False
  end.

End Num.
Export Num.

(** ** Arrays *)

Module Arr.

(** [l.slice(start)]: a negative [start] counts from the end, and the
    bounds are clamped. *)
Definition slice {A : Type} (start : Z) (l : list A) : list A :=
  let len := Z.of_nat (length l) in
  let k := if (start <? 0)%Z then Z.max (len + start) 0 else Z.min start len in
  skipn (Z.to_nat k) l.

(** [l.splice(i, 1)], as to what is left in [l]. *)
Definition splice1 {A : Type} (i : nat) (l : list A) : list A :=
  firstn i l ++ skipn (S i) l.

(** The last [n] elements of [l], in the words of the specification. *)
Definition lastElements {A : Type} (n : nat) (l : list A) : list A :=
  rev (firstn n (rev l)).

End Arr.
Export Arr.

(** ** Indicator: the simple moving average *)

Module Indicator.

(** [slice.reduce((acc, val) => acc + val, 0)] *)
Definition sum (l : list Q) : Q := fold_left Qplus l 0.

(** [calculateSMA(data, period, minPoints)] *)
Definition calculateSMA (data : list Q) (period minPoints : Z) : option Q :=
  if (Z.of_nat (length data) <? minPoints)%Z then None
  else
    let slice := slice (- period) data in
    let sum := sum slice in
    Some (sum / inject_Z (Z.of_nat (length slice))).

(** [calculateSMA(data, period)]: [minPoints] defaults to [period]. *)
Definition calculateSMA_default (data : list Q) (period : Z) : option Q :=
  calculateSMA data period period.

(** The arithmetic mean of a series, in the words of the specification:
    the sum of the elements over their number. *)
Definition arithmeticMean (l : list Q) : Q :=
  fold_right Qplus 0 l / inject_Z (Z.of_nat (length l)).

End Indicator.
Export Indicator.

(** ** Data model *)

(** [ChartDataPoint]: a price sample, with the indicators of its tick
    when they were available.  The replay series is a list of them, of
    which the engine reads [time] and [price]. *)
Module ChartDataPoint.
Record t := mk {
  time : Z;
  price : Q;
  fastMA : option Q;
  slowMA : option Q;
  riskLine : option Q
}.
End ChartDataPoint.

Inductive TradeType := BUY | SELL.

(** [Trade]: an entry of the trade log; a BUY entry is also the record
    of the position it opened. *)
Module Trade.
Record t := mk {
  id : nat;
  type : TradeType;
  price : Q;
  time : Z;
  amount : Q;
  reason : string
}.
End Trade.

Module Account.
Record t := mk {
  base : Q;
  quote : Q
}.
End Account.

Module TelegramSettings.
Record t := mk {
  botToken : string;
  chatId : string;
  isTested : bool;
  enablePeriodicMessages : bool;
  periodicMessageInterval : string;
  enableErrorNotifications : bool;
  enableBuyNotifications : bool;
  enableSellNotifications : bool
}.
End TelegramSettings.

(** [TradingSettings], with the two fields the engine reads under
    optional access: [granularity] (seconds) and [telegramSettings].
    The capacity [maxConcurrentPositions] is whatever number the
    settings carry, an integer or not. *)
Module TradingSettings.
Record t := mk {
  tradingPair : string;
  dipsSensitivity : Q;
  riskLevel : Q;
  stopLossPercentage : Q;
  sellTriggerPercentage : Q;
  initialBalance : Q;
  tradeAmountPercentage : Q;
  maxConcurrentPositions : Q;
  backtestSpeed : Z;
  granularity : option Z;
  telegramSettings : option TelegramSettings.t
}.

(** The argument of [updateSettings]: an object holding some of the
    fields. *)
Record patch := mkPatch {
  p_tradingPair : option string;
  p_dipsSensitivity : option Q;
  p_riskLevel : option Q;
  p_stopLossPercentage : option Q;
  p_sellTriggerPercentage : option Q;
  p_initialBalance : option Q;
  p_tradeAmountPercentage : option Q;
  p_maxConcurrentPositions : option Q;
  p_backtestSpeed : option Z;
  p_granularity : option Z;
  p_telegramSettings : option TelegramSettings.t
}.

Definition over {A : Type} (new : option A) (old : A) : A :=
  match new with
  | Some v => v
  | None => old
  end.

Definition overOpt {A : Type} (new : option A) (old : option A) : option A :=
  match new with
  | Some v => Some v
  | None => old
  end.

(** [{ ...old, ...new }] *)
Definition merge (old : t) (new : patch) : t :=
  {| tradingPair := over (p_tradingPair new) (tradingPair old);
     dipsSensitivity := over (p_dipsSensitivity new) (dipsSensitivity old);
     riskLevel := over (p_riskLevel new) (riskLevel old);
     stopLossPercentage := over (p_stopLossPercentage new) (stopLossPercentage old);
     sellTriggerPercentage :=
       over (p_sellTriggerPercentage new) (sellTriggerPercentage old);
     initialBalance := over (p_initialBalance new) (initialBalance old);
     tradeAmountPercentage :=
       over (p_tradeAmountPercentage new) (tradeAmountPercentage old);
     maxConcurrentPositions :=
       over (p_maxConcurrentPositions new) (maxConcurrentPositions old);
     backtestSpeed := over (p_backtestSpeed new) (backtestSpeed old);
     granularity := overOpt (p_granularity new) (granularity old);
     telegramSettings := overOpt (p_telegramSettings new) (telegramSettings old) |}.

(** The patch that changes nothing. *)
Definition noPatch : patch :=
  mkPatch None None None None None None None None None None None.

End TradingSettings.

(** ** The engine object *)

Module Engine.

(** [this.state] *)
Record State := mkState {
  isRunning : bool;
  settings : option TradingSettings.t;
  account : option Account.t;
  trades : list Trade.t;
  openPositions : list Trade.t;
  currentPrice : Q;
  chartData : list ChartDataPoint.t;
  backtestData : option (list ChartDataPoint.t);
  backtestIndex : nat;
  tradeIdCounter : nat;
  startPrice : Q;
  lowestAccountValue : Q;
  highestAccountValue : Q;
  isLive : bool;
  isProcessingTick : bool
}.

(** The engine: its state, its two timer handles (a handle is
    represented by the period its timer was set with) and whether an
    update callback is installed. *)
Record TradingEngine := mkEngine {
  state : State;
  tradingInterval : option Z;
  periodicTelegramInterval : option Z;
  updateCallback : bool
}.

(** [new TradingEngine()] *)
Definition constructor : TradingEngine :=
  {| state :=
       {| isRunning := false; settings := None; account := None;
          trades := []; openPositions := []; currentPrice := 0;
          chartData := []; backtestData := None; backtestIndex := 0;
          tradeIdCounter := 0; startPrice := 0; lowestAccountValue := 0;
          highestAccountValue := 0; isLive := false;
          isProcessingTick := false |};
     tradingInterval := None;
     periodicTelegramInterval := None;
     updateCallback := false |}.

(** Assignments to single fields of [this.state]. *)

Definition set_isRunning (v : bool) (s : State) : State :=
  mkState v (settings s) (account s) (trades s) (openPositions s)
    (currentPrice s) (chartData s) (backtestData s) (backtestIndex s)
    (tradeIdCounter s) (startPrice s) (lowestAccountValue s)
    (highestAccountValue s) (isLive s) (isProcessingTick s).

Definition set_settings (v : option TradingSettings.t) (s : State) : State :=
  mkState (isRunning s) v (account s) (trades s) (openPositions s)
    (currentPrice s) (chartData s) (backtestData s) (backtestIndex s)
    (tradeIdCounter s) (startPrice s) (lowestAccountValue s)
    (highestAccountValue s) (isLive s) (isProcessingTick s).

Definition set_account (v : option Account.t) (s : State) : State :=
  mkState (isRunning s) (settings s) v (trades s) (openPositions s)
    (currentPrice s) (chartData s) (backtestData s) (backtestIndex s)
    (tradeIdCounter s) (startPrice s) (lowestAccountValue s)
    (highestAccountValue s) (isLive s) (isProcessingTick s).

Definition set_trades (v : list Trade.t) (s : State) : State :=
  mkState (isRunning s) (settings s) (account s) v (openPositions s)
    (currentPrice s) (chartData s) (backtestData s) (backtestIndex s)
    (tradeIdCounter s) (startPrice s) (lowestAccountValue s)
    (highestAccountValue s) (isLive s) (isProcessingTick s).

Definition set_openPositions (v : list Trade.t) (s : State) : State :=
  mkState (isRunning s) (settings s) (account s) (trades s) v
    (currentPrice s) (chartData s) (backtestData s) (backtestIndex s)
    (tradeIdCounter s) (startPrice s) (lowestAccountValue s)
    (highestAccountValue s) (isLive s) (isProcessingTick s).

Definition set_currentPrice (v : Q) (s : State) : State :=
  mkState (isRunning s) (settings s) (account s) (trades s) (openPositions s)
    v (chartData s) (backtestData s) (backtestIndex s)
    (tradeIdCounter s) (startPrice s) (lowestAccountValue s)
    (highestAccountValue s) (isLive s) (isProcessingTick s).

Definition set_chartData (v : list ChartDataPoint.t) (s : State) : State :=
  mkState (isRunning s) (settings s) (account s) (trades s) (openPositions s)
    (currentPrice s) v (backtestData s) (backtestIndex s)
    (tradeIdCounter s) (startPrice s) (lowestAccountValue s)
    (highestAccountValue s) (isLive s) (isProcessingTick s).

Definition set_backtestIndex (v : nat) (s : State) : State :=
  mkState (isRunning s) (settings s) (account s) (trades s) (openPositions s)
    (currentPrice s) (chartData s) (backtestData s) v
    (tradeIdCounter s) (startPrice s) (lowestAccountValue s)
    (highestAccountValue s) (isLive s) (isProcessingTick s).

Definition set_tradeIdCounter (v : nat) (s : State) : State :=
  mkState (isRunning s) (settings s) (account s) (trades s) (openPositions s)
    (currentPrice s) (chartData s) (backtestData s) (backtestIndex s)
    v (startPrice s) (lowestAccountValue s)
    (highestAccountValue s) (isLive s) (isProcessingTick s).

Definition set_startPrice (v : Q) (s : State) : State :=
  mkState (isRunning s) (settings s) (account s) (trades s) (openPositions s)
    (currentPrice s) (chartData s) (backtestData s) (backtestIndex s)
    (tradeIdCounter s) v (lowestAccountValue s)
    (highestAccountValue s) (isLive s) (isProcessingTick s).

Definition set_lowestAccountValue (v : Q) (s : State) : State :=
  mkState (isRunning s) (settings s) (account s) (trades s) (openPositions s)
    (currentPrice s) (chartData s) (backtestData s) (backtestIndex s)
    (tradeIdCounter s) (startPrice s) v
    (highestAccountValue s) (isLive s) (isProcessingTick s).

Definition set_highestAccountValue (v : Q) (s : State) : State :=
  mkState (isRunning s) (settings s) (account s) (trades s) (openPositions s)
    (currentPrice s) (chartData s) (backtestData s) (backtestIndex s)
    (tradeIdCounter s) (startPrice s) (lowestAccountValue s)
    v (isLive s) (isProcessingTick s).

Definition set_isLive (v : bool) (s : State) : State :=
  mkState (isRunning s) (settings s) (account s) (trades s) (openPositions s)
    (currentPrice s) (chartData s) (backtestData s) (backtestIndex s)
    (tradeIdCounter s) (startPrice s) (lowestAccountValue s)
    (highestAccountValue s) v (isProcessingTick s).

Definition set_isProcessingTick (v : bool) (s : State) : State :=
  mkState (isRunning s) (settings s) (account s) (trades s) (openPositions s)
    (currentPrice s) (chartData s) (backtestData s) (backtestIndex s)
    (tradeIdCounter s) (startPrice s) (lowestAccountValue s)
    (highestAccountValue s) (isLive s) v.

(** [this.state.f = v] on the engine. *)
Definition onState (f : State -> State) (e : TradingEngine) : TradingEngine :=
  mkEngine (f (state e)) (tradingInterval e) (periodicTelegramInterval e)
    (updateCallback e).

End Engine.
Export Engine.

(** ** Effects and results of a method call *)

Module Effects.

(** The text of a trade notification is determined by the figures it
    prints. *)
Inductive Message :=
| SaleExecuted (price amount : Q) (reason : string)
| PurchaseExecuted (price amount : Q).

(** What a call does to the collaborators of the engine. *)
Inductive Effect :=
| GetPrice (pair : string)
    (** [coinbaseService.getPrice(pair)] was called *)
| PlaceOrder (pair side : string) (size : Q)
    (** [coinbaseService.placeOrder(pair, side, size)] was called *)
| SendTelegram (chatId : string) (message : Message)
    (** the message was posted to the chats listed in [chatId] *)
| NotifyUpdate
    (** [updateCallback(this.state)] was called *)
| ConsoleError (what : string)
| SetInterval (ms : Z)
| ClearInterval (handle : Z).

Inductive Completion := Normal | Throw.

Record Res := mkRes {
  after : TradingEngine;
  effects : list Effect;
  completion : Completion
}.

(** The call returns, having done nothing. *)
Definition ret (e : TradingEngine) : Res := mkRes e [] Normal.

(** The call returns after the effects [fx]. *)
Definition done (e : TradingEngine) (fx : list Effect) : Res := mkRes e fx Normal.

(** A [TypeError] leaves the call, after the effects [fx]. *)
Definition throw (e : TradingEngine) (fx : list Effect) : Res := mkRes e fx Throw.

(** Sequencing inside one call: what follows a throwing step is not
    run. *)
Definition andThen (r : Res) (k : TradingEngine -> Res) : Res :=
  match completion r with
  | Throw => r
  | Normal =>
      let r' := k (after r) in
      mkRes (after r') (effects r ++ effects r') (completion r')
  end.

(** Effects done before a step. *)
Definition prefixed (fx : list Effect) (r : Res) : Res :=
  mkRes (after r) (fx ++ effects r) (completion r).

End Effects.
Export Effects.

(** ** The methods of [TradingEngine] *)

Module Methods.

Import TradingSettings.

(** [setUpdateCallback(callback)] *)
Definition setUpdateCallback (e : TradingEngine) : TradingEngine :=
  mkEngine (state e) (tradingInterval e) (periodicTelegramInterval e) true.

(** [_notifyUpdate()] *)
Definition _notifyUpdate (e : TradingEngine) : list Effect :=
  if updateCallback e then [NotifyUpdate] else [].

(** [_sendTelegramNotification(settings, message)], given the
    [telegramSettings] of [settings] that it destructures.  The loop
    over the comma-separated ids of [chatId], which catches the failure
    of each post, is one effect. *)
Definition _sendTelegramNotification
  (ts : TelegramSettings.t) (message : Message) : list Effect :=
  if (TelegramSettings.botToken ts =? "")%string
     || (TelegramSettings.chatId ts =? "")%string
  then []
  else [SendTelegram (TelegramSettings.chatId ts) message].

(** [stop()] *)
Definition stop (e : TradingEngine) : Res :=
  if negb (isRunning (state e)) then ret e
  else
    let fxTrading :=
      match tradingInterval e with
      | Some h => [ClearInterval h]
      | None => []
      end in
    let fxPeriodic :=
      match periodicTelegramInterval e with
      | Some h => [ClearInterval h]
      | None => []
      end in
    let e' := mkEngine (set_isRunning false (state e)) None None (updateCallback e) in
    done e' (fxTrading ++ fxPeriodic ++ _notifyUpdate e').

(** [updateSettings(newSettings)].  A running engine always has
    settings ([start] assigns them before it sets [isRunning]); the
    spread of the [null] settings of an engine that was never started
    would leave an object with the fields of [newSettings] only, which
    [TradingSettings.t] cannot hold, and is left as it is. *)
Definition updateSettings (newSettings : patch) (e : TradingEngine) : TradingEngine :=
  if isRunning (state e) then
    match settings (state e) with
    | Some old => onState (set_settings (Some (merge old newSettings))) e
    | None => e
    end
  else e.

(** The selection made by [_executeSellLogic]. *)
Record Sale := mkSale {
  positionToSell : Trade.t;
  reasonForSale : string;
  positionIndex : nat
}.

(** The loop over [openPositions] of [_executeSellLogic], from index
    [i] on, [positions] being the positions from [i] on. *)
Fixpoint scanPositions (settings : TradingSettings.t) (newPrice : Q)
  (i : nat) (positions : list Trade.t) : option Sale :=
  match positions with
  | [] => None
  | pos :: rest =>
      let stopLossPrice :=
        Trade.price pos * (1 - stopLossPercentage settings / 100) in
      let sellTriggerPrice :=
        Trade.price pos * (1 + sellTriggerPercentage settings / 100) in
      if Qle_bool newPrice stopLossPrice then
        Some (mkSale pos "Stop Loss" i)
      else if Qlt_bool 0 (sellTriggerPercentage settings)
              && Qle_bool sellTriggerPrice newPrice then
        Some (mkSale pos "Sell Trigger" i)
      else scanPositions settings newPrice (S i) rest
  end.

(** The selection of [_executeSellLogic]: the loop, then the MACD
    crossover check. *)
Definition selectSale (settings : TradingSettings.t)
  (newPrice fastMA slowMA prevFastMA prevSlowMA : Q)
  (positions : list Trade.t) : option Sale :=
  match scanPositions settings newPrice 0 positions with
  | Some sale => Some sale
  | None =>
      if Qlt_bool fastMA slowMA && Qle_bool prevSlowMA prevFastMA then
        match positions with
        | first :: _ => Some (mkSale first "MACD Crossover" 0)
        | [] => None
        end
      else None
  end.

(** [_executeSellLogic(newPrice, newTime, fastMA, slowMA, prevFastMA,
    prevSlowMA)].  With [null] settings the loop throws at the first
    position it reads; with a [null] account the sale throws before it
    changes anything. *)
Definition _executeSellLogic (newPrice : Q) (newTime : Z)
  (fastMA slowMA prevFastMA prevSlowMA : Q) (e : TradingEngine) : Res :=
  let s := state e in
  match settings s with
  | None =>
      match openPositions s with
      | [] => ret e
      | _ :: _ => throw e []
      end
  | Some settings =>
      match selectSale settings newPrice fastMA slowMA prevFastMA prevSlowMA
              (openPositions s) with
      | None => ret e
      | Some sale =>
          match account s with
          | None => throw e []
          | Some acc =>
              let sellAmount := Trade.amount (positionToSell sale) in
              let account' :=
                Account.mk (Account.base acc - sellAmount)
                           (Account.quote acc + sellAmount * newPrice) in
              let sellTrade :=
                Trade.mk (tradeIdCounter s) SELL newPrice newTime sellAmount
                         (reasonForSale sale) in
              let s' :=
                set_openPositions (splice1 (positionIndex sale) (openPositions s))
                  (set_trades (trades s ++ [sellTrade])
                     (set_tradeIdCounter (S (tradeIdCounter s))
                        (set_account (Some account') s))) in
              let fxTelegram :=
                match telegramSettings settings with
                | Some ts =>
                    if TelegramSettings.enableSellNotifications ts
                       && TelegramSettings.isTested ts
                    then _sendTelegramNotification ts
                           (SaleExecuted newPrice sellAmount (reasonForSale sale))
                    else []
                | None => []
                end in
              let fxOrder :=
                if isLive s then [PlaceOrder (tradingPair settings) "sell" sellAmount]
                else [] in
              done (onState (fun _ => s') e) (fxTelegram ++ fxOrder)
          end
      end
  end.

(** [riskLine && newPrice < riskLine] *)
Definition underRiskLine (newPrice : Q) (riskLine : option Q) : bool :=
  match riskLine with
  | Some line => negb (Qeq_bool line 0) && Qlt_bool newPrice line
  | None => false
  end.

(** [_executeBuyLogic(newPrice, newTime, fastMA, slowMA, prevFastMA,
    prevSlowMA, riskLine)].  With [null] settings the capacity test
    throws once the crossover holds.  The amount bought is the quotient
    by [newPrice]: it is the amount of the source when the price is not
    zero (at zero the source has [Infinity], the model the 0 of
    [Qdiv]). *)
Definition _executeBuyLogic (newPrice : Q) (newTime : Z)
  (fastMA slowMA prevFastMA prevSlowMA : Q) (riskLine : option Q)
  (e : TradingEngine) : Res :=
  let s := state e in
  let crossover := Qlt_bool slowMA fastMA && Qle_bool prevFastMA prevSlowMA in
  match settings s with
  | None => if crossover then throw e [] else ret e
  | Some settings =>
      if crossover
         && Qlt_bool (inject_Z (Z.of_nat (length (openPositions s))))
              (maxConcurrentPositions settings)
      then
        if underRiskLine newPrice riskLine then
          match account s with
          | None => throw e []
          | Some acc =>
              let tradeAmountQuote :=
                Account.quote acc * (tradeAmountPercentage settings / 100) in
              if Qle_bool tradeAmountQuote (Account.quote acc)
                 && Qlt_bool 1 tradeAmountQuote
              then
                let buyAmount := tradeAmountQuote / newPrice in
                let account' :=
                  Account.mk (Account.base acc + buyAmount)
                             (Account.quote acc - tradeAmountQuote) in
                let buyTrade :=
                  Trade.mk (tradeIdCounter s) BUY newPrice newTime buyAmount
                           "MACD Crossover" in
                let s' :=
                  set_trades (trades s ++ [buyTrade])
                    (set_openPositions (openPositions s ++ [buyTrade])
                       (set_tradeIdCounter (S (tradeIdCounter s))
                          (set_account (Some account') s))) in
                let fxTelegram :=
                  match telegramSettings settings with
                  | Some ts =>
                      if TelegramSettings.enableBuyNotifications ts
                         && TelegramSettings.isTested ts
                      then _sendTelegramNotification ts
                             (PurchaseExecuted newPrice buyAmount)
                      else []
                  | None => []
                  end in
                let fxOrder :=
                  if isLive s then [PlaceOrder (tradingPair settings) "buy" buyAmount]
                  else [] in
                done (onState (fun _ => s') e) (fxTelegram ++ fxOrder)
              else ret e
          end
        else ret e
      else ret e
  end.

End Methods.
Export Methods.

(** ** The tick and the start of a session *)

Module Tick.

Import TradingSettings.

(** The indicators of a tick, computed from the chart history and the
    new price. *)
Record Indicators := mkIndicators {
  i_fastMA : option Q;
  i_slowMA : option Q;
  i_riskLine : option Q;
  i_prevFastMA : option Q;
  i_prevSlowMA : option Q
}.

Definition fastPeriod (settings : TradingSettings.t) : Z :=
  round (5 + (100 - dipsSensitivity settings) * (45 # 100)).

Definition slowPeriod (settings : TradingSettings.t) : Z :=
  round (15 + (100 - dipsSensitivity settings) * (85 # 100)).

Definition riskPeriod : Z := 50.

(** [chartData.length > 1 ? chartData[chartData.length - 2].f : undefined] *)
Definition secondToLast (f : ChartDataPoint.t -> option Q)
  (chartData : list ChartDataPoint.t) : option Q :=
  if (1 <? length chartData)%nat then
    match nth_error chartData (length chartData - 2) with
    | Some point => f point
    | None => None
    end
  else None.

Definition indicators (settings : TradingSettings.t)
  (chartData : list ChartDataPoint.t) (newPrice : Q) : Indicators :=
  let priceHistory := map ChartDataPoint.price chartData ++ [newPrice] in
  let fastMA := calculateSMA_default priceHistory (fastPeriod settings) in
  let slowMA := calculateSMA_default priceHistory (slowPeriod settings) in
  let marketAverage := calculateSMA priceHistory riskPeriod 10 in
  let riskLine :=
    match marketAverage with
    | Some average =>
        if negb (Qeq_bool average 0)
        then Some (average * (1 + (riskLevel settings - 50) / 200))
        else None
    | None => None
    end in
  mkIndicators fastMA slowMA riskLine
    (secondToLast ChartDataPoint.fastMA chartData)
    (secondToLast ChartDataPoint.slowMA chartData).

(** The update of the low and high watermarks of the account value. *)
Definition trackAccountValue (accountValue : Q) (s : State) : State :=
  let s1 :=
    if Qlt_bool accountValue (lowestAccountValue s)
    then set_lowestAccountValue accountValue s else s in
  if Qlt_bool (highestAccountValue s1) accountValue
  then set_highestAccountValue accountValue s1 else s1.

(** [executeTick] from "Calculate indicators" on: [settings] and
    [backtestData] are the values read at the top of the call, [e] is
    the engine once the price has been obtained. *)
Definition processPrice (settings : TradingSettings.t)
  (backtestData : option (list ChartDataPoint.t))
  (newPrice : Q) (newTime : Z) (e : TradingEngine) : Res :=
  let ind := indicators settings (chartData (state e)) newPrice in
  let newPoint :=
    ChartDataPoint.mk newTime newPrice (i_fastMA ind) (i_slowMA ind)
      (i_riskLine ind) in
  let e1 :=
    onState (fun s =>
      set_currentPrice newPrice
        (set_chartData (slice (-500) (chartData s ++ [newPoint])) s)) e in
  if negb (truthy (i_fastMA ind)) || negb (truthy (i_slowMA ind))
     || negb (truthy (i_prevFastMA ind)) || negb (truthy (i_prevSlowMA ind))
  then done e1 (_notifyUpdate e1)
  else
    match i_fastMA ind, i_slowMA ind, i_prevFastMA ind, i_prevSlowMA ind with
    | Some fastMA, Some slowMA, Some prevFastMA, Some prevSlowMA =>
        andThen
          (_executeSellLogic newPrice newTime fastMA slowMA prevFastMA prevSlowMA e1)
          (fun e2 =>
        andThen
          (_executeBuyLogic newPrice newTime fastMA slowMA prevFastMA prevSlowMA
             (i_riskLine ind) e2)
          (fun e3 =>
        match account (state e3) with
        | None => throw e3 []
        | Some acc =>
            let accountValue := Account.quote acc + Account.base acc * newPrice in
            let e4 := onState (trackAccountValue accountValue) e3 in
            let e5 :=
              match backtestData with
              | None => onState (set_isProcessingTick false) e4
              | Some _ => e4
              end in
            done e5 (_notifyUpdate e4)
        end))
    | _, _, _, _ =>
        (* not reached: a truthy indicator is a defined number *)
        done e1 (_notifyUpdate e1)
    end.

(** [executeTick()].  [fetched] is what [coinbaseService.getPrice]
    resolves to should the call ask for it ([None]: it rejects), [now] is
    the reading of [Date.now()]. *)
Definition executeTick (fetched : option Q) (now : Z) (e : TradingEngine) : Res :=
  let s := state e in
  if negb (isRunning s) then ret e
  else
    match settings s with
    | None => ret e
    | Some settings =>
        let backtestData := backtestData s in
        let backtestIndex := backtestIndex s in
        match backtestData with
        | Some ((_ :: _) as data) =>
            if (length data <=? backtestIndex)%nat then stop e
            else
              match nth_error data backtestIndex with
              | None => throw e []
              | Some point =>
                  processPrice settings backtestData
                    (ChartDataPoint.price point) (ChartDataPoint.time point)
                    (onState (set_backtestIndex (backtestIndex + 1)) e)
              end
        | _ =>
            if isProcessingTick s then ret e
            else
              let e1 := onState (set_isProcessingTick true) e in
              match fetched with
              | Some newPrice =>
                  prefixed [GetPrice (tradingPair settings)]
                    (processPrice settings backtestData newPrice now e1)
              | None =>
                  done (onState (set_isProcessingTick false) e1)
                    [GetPrice (tradingPair settings);
                     ConsoleError "Error fetching price:"]
              end
        end
    end.

(** The period of the status messages: [intervalMap[key] || 60 * 60 * 1000]. *)
Definition periodicInterval (key : string) : Z :=
  if (key =? "30m")%string then 30 * 60 * 1000
  else if (key =? "1h")%string then 60 * 60 * 1000
  else if (key =? "12h")%string then 12 * 60 * 60 * 1000
  else if (key =? "24h")%string then 24 * 60 * 60 * 1000
  else if (key =? "48h")%string then 48 * 60 * 60 * 1000
  else 60 * 60 * 1000.

(** The period of the tick timer. *)
Definition tickInterval (settings : TradingSettings.t)
  (backtestData : option (list ChartDataPoint.t)) : Z :=
  match backtestData with
  | Some _ =>
      if (backtestSpeed settings =? 0)%Z then 50 else backtestSpeed settings
  | None =>
      match granularity settings with
      | Some g => if (g =? 0)%Z then 60000 else g * 1000
      | None => 60000
      end
  end.

(** The state once [start] has reset it, before the initial price. *)
Definition resetState (settings : TradingSettings.t)
  (backtestData : option (list ChartDataPoint.t)) (s : State) : State :=
  {| isRunning := isRunning s;
     settings := Some settings;
     account := Some (Account.mk 0 (initialBalance settings));
     trades := [];
     openPositions := [];
     currentPrice := currentPrice s;
     chartData := chartData s;
     backtestData := backtestData;
     backtestIndex := 0;
     tradeIdCounter := 0;
     startPrice := startPrice s;
     lowestAccountValue := initialBalance settings;
     highestAccountValue := initialBalance settings;
     isLive := isLive s;
     isProcessingTick := isProcessingTick s |}.

(** [start] from [this.state.isRunning = true] on. *)
Definition launch (settings : TradingSettings.t)
  (backtestData : option (list ChartDataPoint.t)) (isLive : bool)
  (fx : list Effect) (e : TradingEngine) : Res :=
  let s := set_isLive isLive (set_isRunning true (state e)) in
  let interval := tickInterval settings backtestData in
  let periodic :=
    match telegramSettings settings with
    | Some ts =>
        if TelegramSettings.enablePeriodicMessages ts && TelegramSettings.isTested ts
        then Some (periodicInterval (TelegramSettings.periodicMessageInterval ts))
        else periodicTelegramInterval e
    | None => periodicTelegramInterval e
    end in
  let fxPeriodic :=
    match telegramSettings settings with
    | Some ts =>
        if TelegramSettings.enablePeriodicMessages ts && TelegramSettings.isTested ts
        then [SetInterval (periodicInterval (TelegramSettings.periodicMessageInterval ts))]
        else []
    | None => []
    end in
  let e' := mkEngine s (Some interval) periodic (updateCallback e) in
  done e' (fx ++ [SetInterval interval] ++ fxPeriodic ++ _notifyUpdate e').

(** [start(settings, backtestData, isLive)], with the inputs [fetched]
    and [now] of [executeTick].  The call is taken as a whole, from the
    call to the settlement of its promise: a live [start] waits for the
    price between its test of [isRunning] and [isRunning = true], and a
    call made on the engine during that wait is not a call of a session
    (see [run]). *)
Definition start (settings : TradingSettings.t)
  (backtestData : option (list ChartDataPoint.t)) (isLive : bool)
  (fetched : option Q) (now : Z) (e : TradingEngine) : Res :=
  if isRunning (state e) then ret e
  else
    let e1 := onState (resetState settings backtestData) e in
    match backtestData with
    | Some (first :: _) =>
        let e2 :=
          onState (fun s =>
            set_chartData []
              (set_startPrice (ChartDataPoint.price first)
                 (set_currentPrice (ChartDataPoint.price first) s))) e1 in
        launch settings backtestData isLive [] e2
    | _ =>
        match fetched with
        | Some price =>
            let e2 :=
              onState (fun s =>
                set_chartData [ChartDataPoint.mk now price None None None]
                  (set_startPrice price (set_currentPrice price s))) e1 in
            launch settings backtestData isLive [GetPrice (tradingPair settings)] e2
        | None =>
            done e1
              [GetPrice (tradingPair settings);
               ConsoleError "Failed to start: Could not fetch initial price"]
        end
    end.

End Tick.
Export Tick.

(** ** Sessions: sequences of calls on one engine *)

Module Session.

(** A call on the engine, with the inputs it may consume. *)
Inductive Command :=
| Start (settings : TradingSettings.t)
    (backtestData : option (list ChartDataPoint.t)) (isLive : bool)
    (fetched : option Q) (now : Z)
| ExecuteTick (fetched : option Q) (now : Z)
| Stop
| UpdateSettings (newSettings : TradingSettings.patch)
| SetUpdateCallback.

Definition exec (c : Command) (e : TradingEngine) : Res :=
  match c with
  | Start settings backtestData isLive fetched now =>
      start settings backtestData isLive fetched now e
  | ExecuteTick fetched now => executeTick fetched now e
  | Stop => stop e
  | UpdateSettings newSettings => ret (updateSettings newSettings e)
  | SetUpdateCallback => ret (setUpdateCallback e)
  end.

(** The engine after the calls [cs], made one after the other.  A call
    that throws rejects its own promise only; the calls after it are
    made all the same. *)
Fixpoint run (cs : list Command) (e : TradingEngine) : TradingEngine :=
  match cs with
  | [] => e
  | c :: rest => run rest (after (exec c e))
  end.

(** The effects of the calls [cs], in order. *)
Fixpoint runEffects (cs : list Command) (e : TradingEngine) : list Effect :=
  match cs with
  | [] => []
  | c :: rest => effects (exec c e) ++ runEffects rest (after (exec c e))
  end.

(** Whether every call of [cs] completes normally. *)
Fixpoint runNormal (cs : list Command) (e : TradingEngine) : bool :=
  match cs with
  | [] => true
  | c :: rest =>
      match completion (exec c e) with
      | Normal => runNormal rest (after (exec c e))
      | Throw => false
      end
  end.

(** The trades a call creates: what it appends to the trade log.  Only
    a tick creates trades. *)
Definition createdBy (c : Command) (e : TradingEngine) : list Trade.t :=
  match c with
  | ExecuteTick _ _ =>
      skipn (length (trades (state e))) (trades (state (after (exec c e))))
  | _ => []
  end.

(** Every trade created during the calls [cs], in order of creation. *)
Fixpoint created (cs : list Command) (e : TradingEngine) : list Trade.t :=
  match cs with
  | [] => []
  | c :: rest => createdBy c e ++ created rest (after (exec c e))
  end.

(** [n] ticks of a replay: a replay tick consumes neither input. *)
Definition replayTicks (n : nat) : list Command :=
  repeat (ExecuteTick None 0%Z) n.

Definition isGetPrice (fx : Effect) : bool :=
  match fx with
  | GetPrice _ => true
  | _ => false
  end.

End Session.
Export Session.

(** ** Sample sessions *)

Module Samples.

Import TradingSettings.

(** Settings with the shortest averages (periods 5 and 15), a risk line
    a quarter above the market average, a tenth of the quote balance per
    trade, and the stop loss and the sell trigger given. *)
Definition sampleSettings (stopLoss sellTrigger maxPositions : Q)
  : TradingSettings.t :=
  {| tradingPair := "BTC-USD";
     dipsSensitivity := 100;
     riskLevel := 100;
     stopLossPercentage := stopLoss;
     sellTriggerPercentage := sellTrigger;
     initialBalance := 1000;
     tradeAmountPercentage := 10;
     maxConcurrentPositions := maxPositions;
     backtestSpeed := 50;
     granularity := None;
     telegramSettings := None |}.

Definition point (time : Z) (price : Q) : ChartDataPoint.t :=
  ChartDataPoint.mk time price None None None.

(** Points at times [t0], [t0 + 1], ... with the prices given. *)
Fixpoint series (t0 : Z) (prices : list Q) : list ChartDataPoint.t :=
  match prices with
  | [] => []
  | p :: rest => point t0 p :: series (t0 + 1) rest
  end.

(** Sixteen samples at 100, then a rise to 110 and 112, then 111. *)
Definition risingPrices : list Q :=
  repeat 100 16 ++ [110; 112; 111].

Definition risingSeries : list ChartDataPoint.t := series 1 risingPrices.

Definition replay (settings : TradingSettings.t) (data : list ChartDataPoint.t)
  (ticks : nat) : list Command :=
  Start settings (Some data) false None 0%Z :: replayTicks ticks.

End Samples.

(** ** Notions used to state the properties *)

Module Notions.

Import TradingSettings.

(** The stop-loss condition of a position, in the words of the
    specification: [price * (1 - stopLossPercentage / 100) >= newPrice]. *)
Definition stopLossHit (settings : TradingSettings.t) (newPrice : Q)
  (pos : Trade.t) : bool :=
  Qle_bool newPrice (Trade.price pos * (1 - stopLossPercentage settings / 100)).

(** The sell-trigger condition of a position, in the words of the
    specification: [sellTriggerPercentage > 0] and
    [price * (1 + sellTriggerPercentage / 100) <= newPrice]. *)
Definition sellTriggerHit (settings : TradingSettings.t) (newPrice : Q)
  (pos : Trade.t) : bool :=
  Qlt_bool 0 (sellTriggerPercentage settings)
  && Qle_bool (Trade.price pos * (1 + sellTriggerPercentage settings / 100)) newPrice.

(** The time and the price of a chart point. *)
Definition sample (p : ChartDataPoint.t) : Z * Q :=
  (ChartDataPoint.time p, ChartDataPoint.price p).

(** Ticks with the inputs given, one tick per input. *)
Definition ticksWith (inputs : list (option Q * Z)) : list Command :=
  map (fun i => ExecuteTick (fst i) (snd i)) inputs.

(** The mark-to-market value of an account at a price. *)
Definition valueAt (price : Q) (acc : Account.t) : Q :=
  Account.quote acc + Account.base acc * price.

(** The engine with another replay series, all else equal. *)
Definition withBacktestData (d : option (list ChartDataPoint.t))
  (e : TradingEngine) : TradingEngine :=
  onState (fun s =>
    mkState (isRunning s) (settings s) (account s) (trades s) (openPositions s)
      (currentPrice s) (chartData s) d (backtestIndex s)
      (tradeIdCounter s) (startPrice s) (lowestAccountValue s)
      (highestAccountValue s) (isLive s) (isProcessingTick s)) e.

(** The calls [cs], made on [e], keep the capacity: a [start] that takes
    effect gives a capacity that is not negative, and an [updateSettings]
    that takes effect gives a capacity that is not below the number of
    positions open at that moment. *)
Fixpoint keepsCapacity (cs : list Command) (e : TradingEngine) : bool :=
  match cs with
  | [] => true
  | c :: rest =>
      match c with
      | Start settings _ _ _ _ =>
          isRunning (state e) || Qle_bool 0 (maxConcurrentPositions settings)
      | UpdateSettings newSettings =>
          match p_maxConcurrentPositions newSettings with
          | Some capacity =>
              negb (isRunning (state e))
              || Qle_bool
                   (inject_Z (Z.of_nat (length (openPositions (state e)))))
                   capacity
          | None => true
          end
      | _ => true
      end
      && keepsCapacity rest (after (exec c e))
  end.

(** What a sale does to the state. *)
Definition soldState (newPrice : Q) (newTime : Z) (acc : Account.t)
  (sale : Sale) (s : State) : State :=
  set_openPositions (splice1 (positionIndex sale) (openPositions s))
    (set_trades
       (trades s
        ++ [Trade.mk (tradeIdCounter s) SELL newPrice newTime
              (Trade.amount (positionToSell sale)) (reasonForSale sale)])
       (set_tradeIdCounter (S (tradeIdCounter s))
          (set_account
             (Some (Account.mk
                      (Account.base acc - Trade.amount (positionToSell sale))
                      (Account.quote acc
                       + Trade.amount (positionToSell sale) * newPrice)))
             s))).

(** What a purchase of [spent] units of quote does to the state. *)
Definition boughtState (newPrice : Q) (newTime : Z) (acc : Account.t)
  (spent : Q) (s : State) : State :=
  set_trades
    (trades s
     ++ [Trade.mk (tradeIdCounter s) BUY newPrice newTime (spent / newPrice)
           "MACD Crossover"])
    (set_openPositions
       (openPositions s
        ++ [Trade.mk (tradeIdCounter s) BUY newPrice newTime (spent / newPrice)
              "MACD Crossover"])
       (set_tradeIdCounter (S (tradeIdCounter s))
          (set_account
             (Some (Account.mk (Account.base acc + spent / newPrice)
                               (Account.quote acc - spent)))
             s))).

(** The change of the two balances that a trade stands for. *)
Definition quoteDelta (t : Trade.t) : Q :=
  match Trade.type t with
  | BUY => - (Trade.amount t * Trade.price t)
  | SELL => Trade.amount t * Trade.price t
  end.

Definition baseDelta (t : Trade.t) : Q :=
  match Trade.type t with
  | BUY => Trade.amount t
  | SELL => - Trade.amount t
  end.

(** Between [before] and [after], one trade of the type given was
    executed at [newPrice]: it was appended to the trade log, the two
    balances moved by its deltas, and the value of the account at the
    price of the trade is what it was. *)
Definition executes (type : TradeType) (newPrice : Q) (before after : State)
  : Prop :=
  exists t acc acc',
    trades after = trades before ++ [t]
    /\ Trade.type t = type
    /\ Trade.price t = newPrice
    /\ account before = Some acc
    /\ account after = Some acc'
    /\ Account.quote acc' == Account.quote acc + quoteDelta t
    /\ Account.base acc' == Account.base acc + baseDelta t
    /\ valueAt (Trade.price t) acc' == valueAt (Trade.price t) acc.

(** Between [before] and [after], no trade was executed. *)
Definition untouched (before after : State) : Prop :=
  trades after = trades before /\ account after = account before.

(** A stated priority of the stop loss over all open positions: if the
    loop selects a sale while some open position meets the stop loss,
    the sale is a stop loss and no position before it meets the stop
    loss. *)
Definition stopLossFirst (settings : TradingSettings.t) (newPrice : Q)
  (positions : list Trade.t) : Prop :=
  forall sale,
    scanPositions settings newPrice 0 positions = Some sale ->
    (exists pos, In pos positions /\ stopLossHit settings newPrice pos = true) ->
    reasonForSale sale = "Stop Loss"%string
    /\ stopLossHit settings newPrice (positionToSell sale) = true
    /\ (forall j pos,
          (j < positionIndex sale)%nat ->
          nth_error positions j = Some pos ->
          stopLossHit settings newPrice pos = false).

(** The engine once a tick has recorded its price and its indicators in
    the chart: the first state change of [processPrice]. *)
Definition withNewPoint (settings : TradingSettings.t) (newPrice : Q)
  (newTime : Z) (e : TradingEngine) : TradingEngine :=
  let ind := indicators settings (chartData (state e)) newPrice in
  onState (fun s =>
    set_currentPrice newPrice
      (set_chartData
         (slice (-500)
            (chartData s
             ++ [ChartDataPoint.mk newTime newPrice (i_fastMA ind)
                   (i_slowMA ind) (i_riskLine ind)])) s)) e.

(** Two engines with the same settings and the same ledger: account,
    trade log, open positions and id counter. *)
Definition sameLedger (e e' : TradingEngine) : Prop :=
  settings (state e') = settings (state e)
  /\ account (state e') = account (state e)
  /\ trades (state e') = trades (state e)
  /\ openPositions (state e') = openPositions (state e)
  /\ tradeIdCounter (state e') = tradeIdCounter (state e).

(** A property of the engine that depends on the settings and the
    ledger only. *)
Definition ofLedger (P : TradingEngine -> Prop) : Prop :=
  forall e e', sameLedger e e' -> P e -> P e'.

(** No effect of the list is a call of the price provider. *)
Definition noFetch (fx : list Effect) : Prop :=
  Forall (fun x => isGetPrice x = false) fx.

(** The ids of the trade log are 0, 1, 2, ... in the order of the log,
    and the counter is the next one. *)
Definition idsInOrder (e : TradingEngine) : Prop :=
  map Trade.id (trades (state e)) = seq 0 (length (trades (state e)))
  /\ tradeIdCounter (state e) = length (trades (state e)).

(** The open positions are no more than the capacity of the current
    settings, rounded up; so for a capacity that is an integer they are
    no more than the capacity. *)
Definition withinCapacity (e : TradingEngine) : Prop :=
  forall settings,
    Engine.settings (state e) = Some settings ->
    (Z.of_nat (length (openPositions (state e)))
     <= Qceiling (TradingSettings.maxConcurrentPositions settings))%Z
    /\ forall n : Z,
         TradingSettings.maxConcurrentPositions settings == inject_Z n ->
         (Z.of_nat (length (openPositions (state e))) <= n)%Z.

(** A replay of [data] under [settings] that has consumed [k] points:
    the engine runs, its index is [k], it has an account, and its chart
    holds the times and prices of the last 500 of the first [k] points,
    in order. *)
Definition replaying (settings : TradingSettings.t)
  (data : list ChartDataPoint.t) (k : nat) (e : TradingEngine) : Prop :=
  isRunning (state e) = true
  /\ Engine.settings (state e) = Some settings
  /\ backtestData (state e) = Some data
  /\ backtestIndex (state e) = k
  /\ account (state e) <> None
  /\ map sample (chartData (state e)) = slice (-500) (map sample (firstn k data)).

End Notions.
Export Notions.

(** ** More sample sessions *)

Module Scenarios.

Import TradingSettings Samples.

(** The patch that sets the capacity. *)
Definition capacityPatch (capacity : Q) : patch :=
  mkPatch None None None None None None None (Some capacity) None None None.

(** The patch that sets the stop loss and the sell trigger. *)
Definition exitPatch (stopLoss sellTrigger : Q) : patch :=
  mkPatch None None None (Some stopLoss) (Some sellTrigger) None None None
    None None None.

(** A replay of the rising series, with a capacity of five, no sell
    trigger and a stop loss far away: after eighteen ticks two positions
    are open, entered at 110 and at 112. *)
Definition twoPositions : TradingEngine :=
  run (replay (sampleSettings 50 0 5) risingSeries 18) constructor.

(** The same session once the stop loss and the sell trigger have been
    set to half a percent. *)
Definition tightExits : TradingEngine :=
  run [UpdateSettings (exitPatch (1 # 2) (1 # 2))] twoPositions.

(** The same session once the capacity has been lowered to one, and a
    tick has been processed. *)
Definition loweredCapacity : TradingEngine :=
  run [UpdateSettings (capacityPatch 1); ExecuteTick None 0%Z] twoPositions.

(** A replay of the rising series with a sell trigger of one percent,
    seventeen ticks in: one position is open, entered at 110, and the
    next sample is 112. *)
Definition beforeTrigger : TradingEngine :=
  run (replay (sampleSettings 50 1 5) risingSeries 17) constructor.

(** Two replays of the rising series on the same engine, seventeen ticks
    each, with a [stop] in between. *)
Definition twoRuns : list Command :=
  replay (sampleSettings 50 0 5) risingSeries 17
  ++ [Stop]
  ++ replay (sampleSettings 50 0 5) risingSeries 17.

(** A live session just started, the provider having answered 100. *)
Definition liveStarted : TradingEngine :=
  after (start (sampleSettings 50 0 5) None false (Some 100) 0%Z constructor).

End Scenarios.


(** ** Notions about the position ledger *)

Module Ledger.

(** The base currency held by the open positions. *)
Definition openAmount (positions : list Trade.t) : Q :=
  fold_right (fun t total => Trade.amount t + total) 0 positions.

(** The base balance is what the open positions hold. *)
Definition baseBacked (e : TradingEngine) : Prop :=
  forall acc,
    account (state e) = Some acc ->
    Account.base acc == openAmount (openPositions (state e)).

Definition isType (type : TradeType) (t : Trade.t) : bool :=
  match type, Trade.type t with
  | BUY, BUY => true
  | SELL, SELL => true
  | _, _ => false
  end.

(** The number of trades of a type in a log. *)
Definition countType (type : TradeType) (log : list Trade.t) : nat :=
  length (filter (isType type) log).

(** Every purchase of the log that no sale has closed is open, in
    numbers: open positions plus sales are the purchases. *)
Definition balancedLog (e : TradingEngine) : Prop :=
  (length (openPositions (state e)) + countType SELL (trades (state e))
   = countType BUY (trades (state e)))%nat.

(** The open positions are purchases of the trade log, in the order of
    their ids, which is the order in which they were opened. *)
Definition positionsLogged (e : TradingEngine) : Prop :=
  Forall (fun t => In t (trades (state e)) /\ Trade.type t = BUY
                   /\ (Trade.id t < tradeIdCounter (state e))%nat)
    (openPositions (state e))
  /\ StronglySorted (fun a b => (Trade.id a < Trade.id b)%nat)
       (openPositions (state e)).

(** The ledger right after the reset of [start]. *)
Definition freshLedger (e : TradingEngine) : Prop :=
  exists settings,
    Engine.settings (state e) = Some settings
    /\ account (state e)
       = Some (Account.mk 0 (TradingSettings.initialBalance settings))
    /\ trades (state e) = []
    /\ openPositions (state e) = []
    /\ tradeIdCounter (state e) = 0%nat.

End Ledger.
Export Ledger.

(** ** Notions about the rest of the engine *)

Module Rest.

(** Two engines that differ in the ledger at most: account, trade log,
    open positions and id counter. *)
Definition sameRest (e e' : TradingEngine) : Prop :=
  isRunning (state e') = isRunning (state e)
  /\ settings (state e') = settings (state e)
  /\ currentPrice (state e') = currentPrice (state e)
  /\ chartData (state e') = chartData (state e)
  /\ backtestData (state e') = backtestData (state e)
  /\ backtestIndex (state e') = backtestIndex (state e)
  /\ startPrice (state e') = startPrice (state e)
  /\ lowestAccountValue (state e') = lowestAccountValue (state e)
  /\ highestAccountValue (state e') = highestAccountValue (state e)
  /\ isLive (state e') = isLive (state e)
  /\ isProcessingTick (state e') = isProcessingTick (state e)
  /\ tradingInterval e' = tradingInterval e
  /\ periodicTelegramInterval e' = periodicTelegramInterval e
  /\ updateCallback e' = updateCallback e.

(** A property of the engine that does not depend on the ledger. *)
Definition ofRest (P : TradingEngine -> Prop) : Prop :=
  forall e e', sameRest e e' -> P e -> P e'.

(** The engine as [stop] leaves it when it was running. *)
Definition stopped (e : TradingEngine) : TradingEngine :=
  mkEngine (set_isRunning false (state e)) None None (updateCallback e).


(** What every method relies on: a running engine has settings, and an
    engine with settings has an account. *)
Definition equipped (e : TradingEngine) : Prop :=
  (isRunning (state e) = true -> settings (state e) <> None)
  /\ (settings (state e) <> None -> account (state e) <> None).

(** The replay index is within the replay series. *)
Definition indexInSeries (e : TradingEngine) : Prop :=
  forall data,
    backtestData (state e) = Some data ->
    (backtestIndex (state e) <= length data)%nat.

End Rest.
Export Rest.

(** ** Notions about one tick *)

Module OneTick.

(** The trades of one type that one tick can create at a price and a
    time: none, or one. *)
Definition tickTrades (type : TradeType) (newPrice : Q) (newTime : Z)
  (l : list Trade.t) : Prop :=
  l = []
  \/ exists t,
       l = [t] /\ Trade.type t = type /\ Trade.price t = newPrice
       /\ Trade.time t = newTime.

(** The engine takes its prices from the price provider: it has no
    replay series, or an empty one. *)
Definition livePath (e : TradingEngine) : Prop :=
  backtestData (state e) = None \/ backtestData (state e) = Some [].

(** No position of the list meets the stop loss or the sell trigger. *)
Definition noExit (settings : TradingSettings.t) (newPrice : Q)
  (positions : list Trade.t) : Prop :=
  forall pos, In pos positions ->
    stopLossHit settings newPrice pos = false
    /\ sellTriggerHit settings newPrice pos = false.

End OneTick.
Export OneTick.

(** ** Notions about the warm-up *)

Module WarmUp.

(** A replay of [data] under [settings] that has not traded: the ledger
    is as [start] left it, and the chart is no longer than the part of
    the series consumed. *)
Definition untraded (settings : TradingSettings.t)
  (data : list ChartDataPoint.t) (e : TradingEngine) : Prop :=
  trades (state e) = []
  /\ openPositions (state e) = []
  /\ account (state e)
     = Some (Account.mk 0 (TradingSettings.initialBalance settings))
  /\ Engine.settings (state e) = Some settings
  /\ backtestData (state e) = Some data
  /\ (length (chartData (state e)) <= backtestIndex (state e))%nat.

End WarmUp.
Export WarmUp.

(** ** Notions about solvency *)

Module Solvency.

(** The prices of a replay series are not negative. *)
Definition pricesNonNegative (data : option (list ChartDataPoint.t)) : bool :=
  match data with
  | Some points => forallb (fun p => Qle_bool 0 (ChartDataPoint.price p)) points
  | None => true
  end.

(** An answer of the price provider is not negative. *)
Definition answerNonNegative (fetched : option Q) : bool :=
  match fetched with
  | Some price => Qle_bool 0 price
  | None => true
  end.

(** The inputs of a call are not negative: the initial balance, the
    prices of the replay series and the answer of the price provider. *)
Definition inputsNonNegative (c : Command) : bool :=
  match c with
  | Start settings backtestData _ fetched _ =>
      Qle_bool 0 (TradingSettings.initialBalance settings)
      && pricesNonNegative backtestData
      && answerNonNegative fetched
  | ExecuteTick fetched _ => answerNonNegative fetched
  | _ => true
  end.

(** The quote balance and the amounts of the open positions are not
    negative, and neither are the prices still to be replayed. *)
Definition solvent (e : TradingEngine) : Prop :=
  (forall acc, account (state e) = Some acc -> 0 <= Account.quote acc)
  /\ Forall (fun t => 0 <= Trade.amount t) (openPositions (state e))
  /\ pricesNonNegative (backtestData (state e)) = true.

End Solvency.
Export Solvency.

(** ** Notions about the account over a tick *)

Module Accounting.

(** The sums of the changes that the trades of a list stand for. *)
Definition totalQuoteDelta (l : list Trade.t) : Q :=
  fold_right (fun t total => quoteDelta t + total) 0 l.

Definition totalBaseDelta (l : list Trade.t) : Q :=
  fold_right (fun t total => baseDelta t + total) 0 l.

(** From an account [acc] and a trade log [log], the engine has come to
    a log that extends [log] and to an account that differs from [acc]
    by the deltas of the trades appended. *)
Definition accountedFor (acc : Account.t) (log : list Trade.t)
  (e : TradingEngine) : Prop :=
  exists new acc',
    trades (state e) = log ++ new
    /\ account (state e) = Some acc'
    /\ Account.quote acc' == Account.quote acc + totalQuoteDelta new
    /\ Account.base acc' == Account.base acc + totalBaseDelta new.

(** No price the tick can take is zero: neither the answer of the price
    provider nor a price of the replay series. *)
Definition pricesNonZero (fetched : option Q) (e : TradingEngine) : Prop :=
  (forall p, fetched = Some p -> ~ p == 0)
  /\ (forall data point,
        backtestData (state e) = Some data -> In point data ->
        ~ ChartDataPoint.price point == 0).

End Accounting.
Export Accounting.

(** ** The prices a session divides by *)

(** A purchase divides by its price: [tradeAmountQuote / newPrice] is an
    amount only when the price is not zero.  At a price of zero the
    source books [Infinity], and [NaN] at the sale of that position,
    which no rational stands for: a statement about amounts and balances
    holds of sessions none of whose tick prices is zero. *)
Module Divisors.

(** No price of a replay series is zero. *)
Definition seriesNonZero (data : option (list ChartDataPoint.t)) : bool :=
  match data with
  | Some points =>
      forallb (fun p => negb (Qeq_bool (ChartDataPoint.price p) 0)) points
  | None => true
  end.

(** An answer of the price provider is not zero. *)
Definition answerNonZero (fetched : option Q) : bool :=
  match fetched with
  | Some price => negb (Qeq_bool price 0)
  | None => true
  end.

(** No price that a tick after the call can take is zero: neither a
    price of the series a [start] installs nor the answer of the price
    provider to a tick. *)
Definition divisorsNonZero (c : Command) : bool :=
  match c with
  | Start _ backtestData _ _ _ => seriesNonZero backtestData
  | ExecuteTick fetched _ => answerNonZero fetched
  | _ => true
  end.

End Divisors.
Export Divisors.

(** * The server: the state update sent to the clients *)

(** [broadcastUpdate] of [server.js], the update callback of the
    engine. *)
Module Server.

(** The [data] of a state update.  [profit] is a number or [NaN], which
    is [None]. *)
Record Update := mkUpdate {
  u_isRunning : bool;
  u_account : option Account.t;
  u_currentPrice : Q;
  u_trades : list Trade.t;
  u_chartData : list ChartDataPoint.t;
  u_profit : option Q;
  u_backtestProgress : Q
}.

(** [state.account ? (state.account.quote + state.account.base *
    state.currentPrice - state.settings?.initialBalance) : 0]: with
    [null] settings the subtraction of [undefined] gives [NaN]. *)
Definition profit (s : State) : option Q :=
  match account s with
  | Some acc =>
      match settings s with
      | Some settings =>
          Some (Account.quote acc + Account.base acc * currentPrice s
                - TradingSettings.initialBalance settings)
      | None => None
      end
  | None => Some 0
  end.

(** [state.backtestData && state.backtestData.length > 0 ?
    (state.backtestIndex / state.backtestData.length) * 100 : 0] *)
Definition backtestProgress (s : State) : Q :=
  match backtestData s with
  | Some ((_ :: _) as data) =>
      (inject_Z (Z.of_nat (backtestIndex s))
       / inject_Z (Z.of_nat (length data))) * 100
  | _ => 0
  end.

Definition update (s : State) : Update :=
  {| u_isRunning := isRunning s;
     u_account := account s;
     u_currentPrice := currentPrice s;
     u_trades := trades s;
     u_chartData := chartData s;
     u_profit := profit s;
     u_backtestProgress := backtestProgress s |}.

(** [broadcastUpdate(state)]: the update is sent to every client whose
    [readyState] is 1 (open); [clients] lists the [readyState] of the
    clients, and the result lists what is sent, client by client. *)
Definition broadcastUpdate (s : State) (clients : list nat)
  : list (nat * Update) :=
  map (fun i => (i, update s))
    (filter (fun i => (nth i clients 0 =? 1)%nat) (seq 0 (length clients))).

(** The replay, if any, has come to its end. *)
Definition exhausted (s : State) : Prop :=
  exists data,
    backtestData s = Some data /\ data <> [] /\ backtestIndex s = length data.

End Server.

(** * The exchange client: historical candles *)

(** [getHistoricalData] of [coinbaseService.js] (the paginating one). *)
Module Coinbase.

(** [Math.ceil(a / b)] on integers, [b] not zero. *)
Definition ceilDiv (a b : Z) : Z := (- ((- a) / b))%Z.

(** A candle as the exchange returns it, the array
    [[time, low, high, open, close, volume]], [time] in seconds. *)
Record RawCandle := mkRaw {
  r_time : Z;
  r_low : Q;
  r_high : Q;
  r_open : Q;
  r_close : Q;
  r_volume : Q
}.

(** A candle as [getHistoricalData] returns it, [time] in
    milliseconds. *)
Record Candle := mkCandle {
  time : Z;
  low : Q;
  high : Q;
  open : Q;
  close : Q;
  volume : Q
}.

(** The answer to one request: not ok, or a JSON value, which is an
    array of candles or something else. *)
Inductive Response :=
| NotOk (status : Z) (text : string)
| Json (chunk : option (list RawCandle)).

(** The exchange: the answer to the [n]-th request of a call, for the
    candles between [start] and [end], in milliseconds. *)
Definition Exchange := nat -> Z -> Z -> Response.

(** How the loop ends: with the candles of all chunks, or by the
    [throw] on an answer that is not ok. *)
Inductive Fetched :=
| Candles (allCandles : list RawCandle)
| Thrown.

(** The [while (currentStart < endDate)] loop, with the requests it
    makes.  [None]: the loop is still running after [fuel] rounds.  The
    model follows the loop as long as its dates are dates: with a chunk
    duration that is not negative they lie between the start and the
    end; with a negative one they walk back until they leave the range
    of [Date], where [toISOString] throws, which is not modelled. *)
Fixpoint fetchChunks (fuel : nat) (exchange : Exchange) (n : nat)
  (chunkDurationMs endMs currentStart : Z) (allCandles : list RawCandle)
  : option (list (Z * Z) * Fetched) :=
  if (currentStart <? endMs)%Z then
    match fuel with
    | O => None
    | S fuel' =>
        let currentEnd := Z.min endMs (currentStart + chunkDurationMs) in
        match exchange n currentStart currentEnd with
        | NotOk _ _ => Some ([(currentStart, currentEnd)], Thrown)
        | Json chunk =>
            let allCandles' :=
              match chunk with
              | Some candles => allCandles ++ candles
              | None => allCandles
              end in
            match fetchChunks fuel' exchange (S n) chunkDurationMs endMs
                    currentEnd allCandles' with
            | Some (requests, fetched) =>
                Some ((currentStart, currentEnd) :: requests, fetched)
            | None => None
            end
        end
    end
  else Some ([], Candles allCandles).

(** [map.set(key, value)] on the entries of a [Map], in insertion
    order: a key that is present keeps its place and takes the value. *)
Fixpoint mapSet {V : Type} (key : Z) (value : V) (entries : list (Z * V))
  : list (Z * V) :=
  match entries with
  | [] => [(key, value)]
  | (k, v) :: rest =>
      if (key =? k)%Z then (k, value) :: rest
      else (k, v) :: mapSet key value rest
  end.

(** [new Map(items.map(item => [item[0], item]))] *)
Definition mapOf (items : list RawCandle) : list (Z * RawCandle) :=
  fold_left (fun entries item => mapSet (r_time item) item entries) items [].

(** [[...map.values()]] *)
Definition values {V : Type} (entries : list (Z * V)) : list V :=
  map snd entries.

Definition convert (candle : RawCandle) : Candle :=
  {| time := r_time candle * 1000;
     low := r_low candle;
     high := r_high candle;
     open := r_open candle;
     close := r_close candle;
     volume := r_volume candle |}.

(** [sort((a, b) => a.time - b.time)]: the sort is stable, so its result
    is that of the insertion of the elements, one after the other, each
    behind the elements that are not later than it. *)
Fixpoint insert (c : Candle) (sorted : list Candle) : list Candle :=
  match sorted with
  | [] => [c]
  | h :: rest =>
      if (time c <? time h)%Z then c :: sorted else h :: insert c rest
  end.

Definition sort (l : list Candle) : list Candle :=
  fold_left (fun sorted c => insert c sorted) l [].

(** [getHistoricalData(pair, start, end, granularity)], [start] and
    [end] being the times of the two dates in milliseconds: the requests
    made and the candles returned.  [None]: the loop is still running
    after [fuel] rounds. *)
Definition getHistoricalData (fuel : nat) (exchange : Exchange)
  (startMs endMs granularity : Z) : option (list (Z * Z) * list Candle) :=
  let maxCandlesPerRequest := 300%Z in
  let chunkDurationMs := (maxCandlesPerRequest * granularity * 1000)%Z in
  match fetchChunks fuel exchange 0 chunkDurationMs endMs startMs [] with
  | None => None
  | Some (requests, Thrown) => Some (requests, [])
  | Some (requests, Candles allCandles) =>
      let uniqueCandles := values (mapOf allCandles) in
      Some (requests, sort (map convert uniqueCandles))
  end.

(** The requests go from [startMs] to [endMs], each from where the one
    before ended, each over a range that is not empty and not longer
    than a chunk. *)
Fixpoint chained (chunkDurationMs startMs endMs : Z) (requests : list (Z * Z))
  : Prop :=
  match requests with
  | [] => startMs = endMs
  | (a, b) :: rest =>
      a = startMs /\ (a < b)%Z /\ (b - a <= chunkDurationMs)%Z
      /\ (b <= endMs)%Z
      /\ chained chunkDurationMs b endMs rest
  end.

(** The exchange answers every request, with JSON. *)
Definition answering (exchange : Exchange) : Prop :=
  forall n a b, exists chunk, exchange n a b = Json chunk.

(** The last candle of a list that has the time [t]. *)
Definition lastWithTime (t : Z) (candles : list RawCandle) : option RawCandle :=
  find (fun c => (r_time c =? t)%Z) (rev candles).

(** The candles of the answers to the requests, the first of which is
    the [n]-th of the call, in the order of the requests. *)
Fixpoint answered (exchange : Exchange) (n : nat) (requests : list (Z * Z))
  : list RawCandle :=
  match requests with
  | [] => []
  | (a, b) :: rest =>
      match exchange n a b with
      | Json (Some candles) => candles
      | _ => []
      end ++ answered exchange (S n) rest
  end.

End Coinbase.

(** ** Notions and samples for the historical candles *)

Module CoinbaseNotions.

Import Coinbase.

(** The value of a key in the entries of a [Map]. *)
Definition lookup {V : Type} (key : Z) (entries : list (Z * V)) : option V :=
  option_map snd (find (fun entry => (fst entry =? key)%Z) entries).

(** The key of every entry is the time of its candle. *)
Definition keyedByTime (entries : list (Z * RawCandle)) : Prop :=
  Forall (fun entry => fst entry = r_time (snd entry)) entries.

(** Every request of the list was answered with JSON. *)
Definition allAnswered (exchange : Exchange) (requests : list (Z * Z)) : Prop :=
  forall i a b,
    nth_error requests i = Some (a, b) ->
    exists chunk, exchange i a b = Json chunk.

(** An exchange that answers every request with one candle, at the
    start of the range asked for. *)
Definition sampleExchange : Exchange :=
  fun _ a _ => Json (Some [mkRaw (a / 1000) 1 3 2 2 10]).


(** An exchange that answers every request with the same two candles. *)
Definition repeatingExchange : Exchange :=
  fun n _ _ =>
    Json (Some [mkRaw 120 1 3 2 2 (inject_Z (Z.of_nat n));
                mkRaw 60 1 3 2 2 (inject_Z (Z.of_nat n))]).

End CoinbaseNotions.

(** * The granularity helper *)

(** [granularityHelper.ts].  A [Date] is its time value, an integer
    number of milliseconds; a granularity is an integer number of
    seconds.  On time values and on the granularities of the exchange
    the quotients and their comparisons are exact in the source, as they
    are here. *)
Module Granularity.

Import Coinbase.

(** [COINBASE_GRANULARITIES] *)
Definition ONE_MINUTE : Z := 60.
Definition FIVE_MINUTES : Z := 300.
Definition FIFTEEN_MINUTES : Z := 900.
Definition ONE_HOUR : Z := 3600.
Definition SIX_HOURS : Z := 21600.
Definition ONE_DAY : Z := 86400.

Record GranularityOption := mkOption {
  value : Z;
  label : string;
  maxDurationDays : Z
}.

(** [getGranularityLabel(seconds)] *)
Definition getGranularityLabel (seconds : Z) : string :=
  if (seconds =? ONE_MINUTE)%Z then "1 Minute"
  else if (seconds =? FIVE_MINUTES)%Z then "5 Minuten"
  else if (seconds =? FIFTEEN_MINUTES)%Z then "15 Minuten"
  else if (seconds =? ONE_HOUR)%Z then "1 Stunde"
  else if (seconds =? SIX_HOURS)%Z then "6 Stunden"
  else if (seconds =? ONE_DAY)%Z then "1 Tag"
  else (NilZero.string_of_int (Z.to_int seconds) ++ "s")%string.

(** [getAllGranularities()] *)
Definition getAllGranularities : list GranularityOption :=
  [ mkOption ONE_MINUTE (getGranularityLabel ONE_MINUTE) 1;
    mkOption FIVE_MINUTES (getGranularityLabel FIVE_MINUTES) 5;
    mkOption FIFTEEN_MINUTES (getGranularityLabel FIFTEEN_MINUTES) 15;
    mkOption ONE_HOUR (getGranularityLabel ONE_HOUR) 60;
    mkOption SIX_HOURS (getGranularityLabel SIX_HOURS) 180;
    mkOption ONE_DAY (getGranularityLabel ONE_DAY) 365 ].

(** [calculateTotalCandles(startDate, endDate, granularity)] *)
Definition calculateTotalCandles (startDate endDate granularity : Z) : Z :=
  let durationMs := (endDate - startDate)%Z in
  let granularityMs := (granularity * 1000)%Z in
  ceilDiv durationMs granularityMs.

(** [calculateRequiredRequests(startDate, endDate, granularity)] *)
Definition calculateRequiredRequests (startDate endDate granularity : Z) : Z :=
  let totalCandles := calculateTotalCandles startDate endDate granularity in
  ceilDiv totalCandles 300.

(** [durationMs / (1000 * 60 * 60 * 24)] *)
Definition durationDays (startDate endDate : Z) : Q :=
  let durationMs := (endDate - startDate)%Z in
  inject_Z durationMs / (1000 * 60 * 60 * 24).

(** [getAvailableGranularities(startDate, endDate)] *)
Definition getAvailableGranularities (startDate endDate : Z)
  : list GranularityOption :=
  let durationDays := durationDays startDate endDate in
  let allGranularities := getAllGranularities in
  filter
    (fun g =>
       let totalCandles := calculateTotalCandles startDate endDate (value g) in
       (totalCandles <=? 10000)%Z
       && Qle_bool durationDays (inject_Z (maxDurationDays g) * (3 # 2)))
    allGranularities.

(** [getRecommendedGranularity(startDate, endDate)] *)
Definition getRecommendedGranularity (startDate endDate : Z) : Z :=
  let durationDays := durationDays startDate endDate in
  if Qle_bool durationDays 1 then ONE_MINUTE
  else if Qle_bool durationDays 7 then FIVE_MINUTES
  else if Qle_bool durationDays 30 then FIFTEEN_MINUTES
  else if Qle_bool durationDays 90 then ONE_HOUR
  else if Qle_bool durationDays 180 then SIX_HOURS
  else ONE_DAY.

(** A number of days, in milliseconds. *)
Definition days (n : Q) : Q := n * 86400000.

End Granularity.

(** * The headless simulation *)

(** [runHeadlessSimulation] of [simulationService.ts]: the strategy of
    the engine, run over a whole series at once.  Its moving average,
    its periods and the selection of the position to sell are, word for
    word, those of the engine, which are used here. *)
Module Simulation.

Import TradingSettings.

(** The variables of the loop. *)
Record Loop := mkLoop {
  account : Account.t;
  openPositions : list Trade.t;
  tradeIdCounter : nat;
  priceHistory : list Q;
  fastMAHistory : list (option Q);
  slowMAHistory : list (option Q)
}.

(** The variables before the loop. *)
Definition initial (settings : TradingSettings.t) : Loop :=
  {| account := Account.mk 0 (initialBalance settings);
     openPositions := [];
     tradeIdCounter := 0;
     priceHistory := [];
     fastMAHistory := [];
     slowMAHistory := [] |}.

(** [l.push(x)] and [l.shift()], as to what is in [l] afterwards. *)
Definition push {A : Type} (x : A) (l : list A) : list A := l ++ [x].
Definition shift {A : Type} (l : list A) : list A := tl l.

(** [history.length > 0 ? history[history.length - 1] : undefined] *)
Definition lastOf (history : list (option Q)) : option Q :=
  last history None.

(** [marketAverage ? marketAverage * (1 + (settings.riskLevel - 50) / 200)
    : undefined] *)
Definition riskLineOf (settings : TradingSettings.t) (marketAverage : option Q)
  : option Q :=
  match marketAverage with
  | Some average =>
      if negb (Qeq_bool average 0)
      then Some (average * (1 + (riskLevel settings - 50) / 200))
      else None
  | None => None
  end.

(** The body of the loop, for one point of the series.  As in the
    engine, the amount bought is that of the source when the price is
    not zero. *)
Definition step (settings : TradingSettings.t) (l : Loop)
  (point : ChartDataPoint.t) : Loop :=
  let newPrice := ChartDataPoint.price point in
  let priceHistory := push newPrice (priceHistory l) in
  let priceHistory :=
    if (Tick.riskPeriod + 500 <? Z.of_nat (length priceHistory))%Z
    then shift priceHistory else priceHistory in
  let fastMA := calculateSMA_default priceHistory (Tick.fastPeriod settings) in
  let slowMA := calculateSMA_default priceHistory (Tick.slowPeriod settings) in
  let prevFastMA := lastOf (fastMAHistory l) in
  let prevSlowMA := lastOf (slowMAHistory l) in
  let fastMAHistory := push fastMA (fastMAHistory l) in
  let slowMAHistory := push slowMA (slowMAHistory l) in
  let shifted := (1 <? length fastMAHistory)%nat in
  let fastMAHistory := if shifted then shift fastMAHistory else fastMAHistory in
  let slowMAHistory := if shifted then shift slowMAHistory else slowMAHistory in
  let marketAverage := calculateSMA priceHistory Tick.riskPeriod 10 in
  let riskLine := riskLineOf settings marketAverage in
  let continue :=
    mkLoop (account l) (openPositions l) (tradeIdCounter l)
      priceHistory fastMAHistory slowMAHistory in
  if negb (truthy fastMA) || negb (truthy slowMA)
     || negb (truthy prevFastMA) || negb (truthy prevSlowMA)
  then continue
  else
    match fastMA, slowMA, prevFastMA, prevSlowMA with
    | Some fastMA, Some slowMA, Some prevFastMA, Some prevSlowMA =>
        match selectSale settings newPrice fastMA slowMA prevFastMA prevSlowMA
                (openPositions l) with
        | Some sale =>
            let sellAmount := Trade.amount (positionToSell sale) in
            mkLoop
              (Account.mk (Account.base (account l) - sellAmount)
                          (Account.quote (account l) + sellAmount * newPrice))
              (splice1 (positionIndex sale) (openPositions l))
              (tradeIdCounter l)
              priceHistory fastMAHistory slowMAHistory
        | None =>
            if Qlt_bool slowMA fastMA && Qle_bool prevFastMA prevSlowMA
               && Qlt_bool (inject_Z (Z.of_nat (length (openPositions l))))
                    (maxConcurrentPositions settings)
            then
              if underRiskLine newPrice riskLine then
                let tradeAmountQuote :=
                  Account.quote (account l)
                  * (tradeAmountPercentage settings / 100) in
                if Qle_bool tradeAmountQuote (Account.quote (account l))
                   && Qlt_bool 1 tradeAmountQuote
                then
                  let buyAmount := tradeAmountQuote / newPrice in
                  let buyTrade :=
                    Trade.mk (tradeIdCounter l) BUY newPrice
                      (ChartDataPoint.time point) buyAmount "MACD Crossover" in
                  mkLoop
                    (Account.mk (Account.base (account l) + buyAmount)
                                (Account.quote (account l) - tradeAmountQuote))
                    (push buyTrade (openPositions l))
                    (S (tradeIdCounter l))
                    priceHistory fastMAHistory slowMAHistory
                else continue
              else continue
            else continue
        end
    | _, _, _, _ =>
        (* not reached: a truthy indicator is a defined number *)
        continue
    end.

(** The variables after the loop over the series. *)
Definition simulate (settings : TradingSettings.t)
  (backtestData : list ChartDataPoint.t) : Loop :=
  fold_left (step settings) backtestData (initial settings).

(** [backtestData[backtestData.length - 1]?.price || 0] *)
Definition lastPrice (backtestData : list ChartDataPoint.t) : Q :=
  match last (map Some backtestData) None with
  | Some point =>
      if negb (Qeq_bool (ChartDataPoint.price point) 0)
      then ChartDataPoint.price point else 0
  | None => 0
  end.

(** [runHeadlessSimulation(settings, backtestData)]; [None] is a series
    that is [null] or [undefined]. *)
Definition runHeadlessSimulation (settings : TradingSettings.t)
  (backtestData : option (list ChartDataPoint.t)) : Q :=
  match backtestData with
  | None | Some [] => 0
  | Some ((_ :: _) as backtestData) =>
      let l := simulate settings backtestData in
      let finalValue :=
        Account.quote (account l)
        + Account.base (account l) * lastPrice backtestData in
      let profit := finalValue - initialBalance settings in
      profit
  end.

(** The prices of the series are positive. *)
Definition pricesPositive (backtestData : list ChartDataPoint.t) : Prop :=
  Forall (fun point => 0 < ChartDataPoint.price point) backtestData.

(** The ledger of the loop is in order: no more open positions than the
    settings allow, the base balance is what the open positions hold,
    and the open positions are in the order of their ids, all below the
    counter. *)
Definition orderly (settings : TradingSettings.t) (l : Loop) : Prop :=
  (Z.of_nat (length (openPositions l))
   <= Z.max 0 (Qceiling (maxConcurrentPositions settings)))%Z
  /\ Account.base (account l) == openAmount (openPositions l)
  /\ Forall (fun t => (Trade.id t < tradeIdCounter l)%nat) (openPositions l)
  /\ StronglySorted (fun a b => (Trade.id a < Trade.id b)%nat) (openPositions l).

End Simulation.

(** * The search for the best settings *)

(** [findOptimalSettings] of [App.tsx], as to what it computes: the
    result it hands to [setOptimizationResult] and the number of
    simulations it has counted. *)
Module Optimizer.

Import TradingSettings Simulation.

(** The four settings the search varies. *)
Record OptimalSettings := mkOptimal {
  riskLevel : Q;
  dipsSensitivity : Q;
  stopLossPercentage : Q;
  sellTriggerPercentage : Q
}.

Definition riskLevels : list Q := [10; 20; 30; 40; 50; 60; 70; 80; 90].
Definition sensitivities : list Q := [10; 20; 30; 40; 50; 60; 70; 80; 90].
Definition stopLosses : list Q := [2; 5; 10; 15].
Definition sellTriggers : list Q := [0; 2; 5; 10; 15].

Definition totalSimulations : nat :=
  (length riskLevels * length sensitivities * length stopLosses
   * length sellTriggers)%nat.

(** The candidates of the four nested loops, in the order in which the
    loops reach them. *)
Definition candidates : list OptimalSettings :=
  flat_map (fun riskLevel =>
    flat_map (fun dipsSensitivity =>
      flat_map (fun stopLossPercentage =>
        map (fun sellTriggerPercentage =>
               mkOptimal riskLevel dipsSensitivity stopLossPercentage
                 sellTriggerPercentage)
            sellTriggers)
        stopLosses)
      sensitivities)
    riskLevels.

(** [{ ...settings, riskLevel, dipsSensitivity, stopLossPercentage,
    sellTriggerPercentage }] *)
Definition tempSettings (settings : TradingSettings.t) (c : OptimalSettings)
  : TradingSettings.t :=
  {| tradingPair := tradingPair settings;
     TradingSettings.dipsSensitivity := dipsSensitivity c;
     TradingSettings.riskLevel := riskLevel c;
     TradingSettings.stopLossPercentage := stopLossPercentage c;
     TradingSettings.sellTriggerPercentage := sellTriggerPercentage c;
     initialBalance := initialBalance settings;
     tradeAmountPercentage := tradeAmountPercentage settings;
     maxConcurrentPositions := maxConcurrentPositions settings;
     backtestSpeed := backtestSpeed settings;
     granularity := granularity settings;
     telegramSettings := telegramSettings settings |}.

(** The variables of the search; a [bestProfit] of [None] is
    [-Infinity]. *)
Record Search := mkSearch {
  bestProfit : option Q;
  optimalSettings : OptimalSettings;
  completedSimulations : nat
}.

(** [profit > bestProfit] *)
Definition exceeds (profit : Q) (bestProfit : option Q) : bool :=
  match bestProfit with
  | None => true
  | Some best => Qlt_bool best profit
  end.

(** The profit of a candidate. *)
Definition profitOf (settings : TradingSettings.t)
  (sortedData : list ChartDataPoint.t) (c : OptimalSettings) : Q :=
  let tempSettings := tempSettings settings c in
  runHeadlessSimulation tempSettings (Some sortedData).

(** The body of the innermost loop. *)
Definition visit (settings : TradingSettings.t)
  (sortedData : list ChartDataPoint.t) (s : Search) (c : OptimalSettings)
  : Search :=
  let profit := profitOf settings sortedData c in
  let s' :=
    if exceeds profit (bestProfit s)
    then mkSearch (Some profit) c (completedSimulations s)
    else s in
  mkSearch (bestProfit s') (optimalSettings s') (S (completedSimulations s')).

(** [[...data].sort((a, b) => a.time - b.time)]: a stable sort by
    time. *)
Fixpoint insertByTime (point : ChartDataPoint.t)
  (sorted : list ChartDataPoint.t) : list ChartDataPoint.t :=
  match sorted with
  | [] => [point]
  | first :: rest =>
      if (ChartDataPoint.time point <=? ChartDataPoint.time first)%Z
      then point :: sorted
      else first :: insertByTime point rest
  end.

Definition sortByTime (data : list ChartDataPoint.t) : list ChartDataPoint.t :=
  fold_right insertByTime [] data.

(** The argument of [setOptimizationResult]. *)
Record OptimizationResult := mkResult {
  r_bestProfit : option Q;
  r_optimalSettings : OptimalSettings;
  r_buyAndHoldProfit : Q
}.

(** The search, from the variables before the loops to those after
    them. *)
Definition search (settings : TradingSettings.t)
  (sortedData : list ChartDataPoint.t) : Search :=
  fold_left (visit settings sortedData) candidates
    (mkSearch None
       (mkOptimal (TradingSettings.riskLevel settings)
          (TradingSettings.dipsSensitivity settings)
          (TradingSettings.stopLossPercentage settings)
          (TradingSettings.sellTriggerPercentage settings))
       0).

(** [findOptimalSettings()], on the settings and the series of the
    component: the result and the simulations counted, or [None] when
    it returns at once. *)
Definition findOptimalSettings (settings : TradingSettings.t)
  (backtestData : option (list ChartDataPoint.t))
  : option (OptimizationResult * nat) :=
  match backtestData with
  | None => None
  | Some data =>
      if (length data <? 2)%nat then None
      else
        let sortedData := sortByTime data in
        let startPrice :=
          match sortedData with
          | first :: _ => ChartDataPoint.price first
          | [] => 0
          end in
        let endPrice :=
          match last (map Some sortedData) None with
          | Some point => ChartDataPoint.price point
          | None => 0
          end in
        let amountBought := initialBalance settings / startPrice in
        let finalValue := amountBought * endPrice in
        let buyAndHoldProfit := finalValue - initialBalance settings in
        let s := search settings sortedData in
        Some (mkResult (bestProfit s) (optimalSettings s) buyAndHoldProfit,
              completedSimulations s)
  end.

(** The search has visited the candidates [visited]: it has counted
    them, and its best profit is that of its optimal settings, which
    are the first of the candidates visited to reach it. *)
Definition firstBest (profit : OptimalSettings -> Q)
  (visited : list OptimalSettings) (s : Search) : Prop :=
  completedSimulations s = length visited
  /\ match bestProfit s with
     | None => visited = []
     | Some best =>
         exists before after,
           visited = before ++ optimalSettings s :: after
           /\ best = profit (optimalSettings s)
           /\ (forall c, In c before -> profit c < best)
           /\ (forall c, In c after -> profit c <= best)
     end.

End Optimizer.

(** * The chart of a replay *)

(** What a replay records in the chart, tick after tick, and the
    averages its crossover tests compare. *)
Module Chart.

(** The chart after [k] ticks of a replay of [data]: each tick computes
    its indicators from the chart before it and appends its point. *)
Fixpoint chartOf (settings : TradingSettings.t)
  (data : list ChartDataPoint.t) (k : nat) : list ChartDataPoint.t :=
  match k with
  | O => []
  | S k' =>
      let chart := chartOf settings data k' in
      match nth_error data k' with
      | Some point =>
          let ind := indicators settings chart (ChartDataPoint.price point) in
          slice (-500)
            (chart
             ++ [ChartDataPoint.mk (ChartDataPoint.time point)
                   (ChartDataPoint.price point) (i_fastMA ind) (i_slowMA ind)
                   (i_riskLine ind)])
      | None => chart
      end
  end.

(** The prices of the first [k] points of a series. *)
Definition pricesUpTo (data : list ChartDataPoint.t) (k : nat) : list Q :=
  map ChartDataPoint.price (firstn k data).

(** The engine replays [data], has consumed [k] points of it and holds
    their chart. *)
Definition charted (settings : TradingSettings.t)
  (data : list ChartDataPoint.t) (k : nat) (e : TradingEngine) : Prop :=
  replaying settings data k e
  /\ chartData (state e) = chartOf settings data k.

(** Both periods are at least one and fit in the price history of a
    tick, which holds 501 prices at most. *)
Definition periodsFit (settings : TradingSettings.t) : Prop :=
  (1 <= fastPeriod settings <= 501)%Z /\ (1 <= slowPeriod settings <= 501)%Z.

End Chart.

(** * Two starts that overlap *)

(** A live [start] waits for the price of the provider between its test
    of [isRunning] and [isRunning = true].  Its two parts, before and
    after the wait, and what two calls make of the engine when the
    second is made during the wait of the first. *)
Module Overlap.

Import TradingSettings.

(** The series makes the start a live one: there is none, or it is
    empty. *)
Definition live (backtestData : option (list ChartDataPoint.t)) : bool :=
  match backtestData with
  | Some (_ :: _) => false
  | _ => true
  end.

(** A live [start] up to its wait: the test of [isRunning], the reset
    and the call of the price provider.  [None]: the call has returned
    at the test. *)
Definition startBegin (settings : TradingSettings.t)
  (backtestData : option (list ChartDataPoint.t)) (e : TradingEngine)
  : option Res :=
  if isRunning (state e) then None
  else
    Some (done (onState (resetState settings backtestData) e)
            [GetPrice (tradingPair settings)]).

(** A live [start] from its wait on, on the engine as it is when the
    provider has answered. *)
Definition startResume (settings : TradingSettings.t)
  (backtestData : option (list ChartDataPoint.t)) (isLive : bool)
  (fetched : option Q) (now : Z) (e : TradingEngine) : Res :=
  match fetched with
  | Some price =>
      let e2 :=
        onState (fun s =>
          set_chartData [ChartDataPoint.mk now price None None None]
            (set_startPrice price (set_currentPrice price s))) e in
      launch settings backtestData isLive [] e2
  | None =>
      done e [ConsoleError "Failed to start: Could not fetch initial price"]
  end.





End Overlap.
(** * Part II: properties *)

(** ** Numbers and arrays *)

Lemma Qlt_bool_iff (a b : Q) : Qlt_bool a b = true <-> a < b.
Proof.
  unfold Qlt_bool. rewrite negb_true_iff.
  split; intro H.
  - apply Qnot_le_lt. intro Hle. apply Qle_bool_iff in Hle. congruence.
  - destruct (Qle_bool b a) eqn:E; [|reflexivity].
    apply Qle_bool_iff in E. exfalso. exact (Qlt_not_le _ _ H E).
Qed.

Lemma Qlt_bool_asym (a b : Q) :
  Qlt_bool a b = true -> Qlt_bool b a = false.
Proof.
  intro H. destruct (Qlt_bool b a) eqn:E; [|reflexivity].
  apply Qlt_bool_iff in H. apply Qlt_bool_iff in E.
  exfalso. exact (Qlt_irrefl _ (Qlt_trans _ _ _ H E)).
Qed.

Section ArrayFacts.
Context {A : Type}.

Lemma lastElements_skipn (n : nat) (l : list A) :
  lastElements n l = skipn (length l - n) l.
Proof.
  unfold lastElements.
  rewrite firstn_rev, rev_involutive. reflexivity.
Qed.

Lemma slice_neg_skipn (p : Z) (l : list A) :
  (0 < p)%Z -> slice (- p) l = skipn (length l - Z.to_nat p) l.
Proof.
  intro Hp. unfold slice.
  replace (- p <? 0)%Z with true by (symmetry; apply Z.ltb_lt; lia).
  f_equal. lia.
Qed.

Lemma slice_neg_lastElements (p : Z) (l : list A) :
  (0 < p)%Z -> slice (- p) l = lastElements (Z.to_nat p) l.
Proof.
  intro Hp. rewrite lastElements_skipn. now apply slice_neg_skipn.
Qed.

Lemma slice_neg_all (p : Z) (l : list A) :
  (Z.of_nat (length l) <= p)%Z -> slice (- p) l = l.
Proof.
  intro H. unfold slice.
  destruct (- p <? 0)%Z eqn:E.
  - replace (Z.to_nat (Z.max (Z.of_nat (length l) + - p) 0)) with 0%nat by lia.
    reflexivity.
  - apply Z.ltb_ge in E.
    replace (Z.to_nat (Z.min (- p) (Z.of_nat (length l)))) with 0%nat by lia.
    reflexivity.
Qed.

(** A window that slides: keeping the last [p] elements at every append
    keeps the last [p] elements of everything appended. *)
Lemma slice_neg_snoc (p : Z) (l : list A) (x : A) :
  (0 < p)%Z -> slice (- p) (slice (- p) l ++ [x]) = slice (- p) (l ++ [x]).
Proof.
  intro Hp. rewrite !slice_neg_skipn by assumption.
  destruct (Nat.le_gt_cases (length l) (Z.to_nat p)) as [Hle|Hgt].
  - replace (length l - Z.to_nat p)%nat with 0%nat by lia. reflexivity.
  - remember (length l - Z.to_nat p)%nat as a eqn:Ha.
    assert (Hlen : length (skipn a l) = Z.to_nat p)
      by (rewrite length_skipn; lia).
    rewrite !length_app, Hlen. simpl length.
    replace (Z.to_nat p + 1 - Z.to_nat p)%nat with 1%nat by lia.
    replace (length l + 1 - Z.to_nat p)%nat with (S a) by lia.
    rewrite !skipn_app, Hlen.
    replace (1 - Z.to_nat p)%nat with 0%nat by lia.
    replace (S a - length l)%nat with 0%nat by lia.
    rewrite skipn_skipn. reflexivity.
Qed.

Lemma splice1_length (i : nat) (l : list A) :
  (i < length l)%nat -> S (length (splice1 i l)) = length l.
Proof.
  intro Hi. unfold splice1.
  rewrite length_app, length_firstn, length_skipn. lia.
Qed.

Lemma splice1_length_le (i : nat) (l : list A) :
  (length (splice1 i l) <= length l)%nat.
Proof.
  unfold splice1.
  rewrite length_app, length_firstn, length_skipn. lia.
Qed.

End ArrayFacts.

Lemma map_slice {A B : Type} (f : A -> B) (start : Z) (l : list A) :
  map f (slice start l) = slice start (map f l).
Proof.
  unfold slice. rewrite length_map. symmetry. apply skipn_map.
Qed.

(** ** The simple moving average *)

Lemma fold_left_Qplus_acc (l : list Q) (a : Q) :
  fold_left Qplus l a == a + fold_right Qplus 0 l.
Proof.
  revert a. induction l as [|x l IH]; intro a; simpl.
  - ring.
  - rewrite IH. ring.
Qed.

Lemma sum_fold_right (l : list Q) : sum l == fold_right Qplus 0 l.
Proof. unfold sum. rewrite fold_left_Qplus_acc. ring. Qed.

Lemma calculateSMA_absent (series : list Q) (period minPoints : Z) :
  calculateSMA series period minPoints = None
  <-> (Z.of_nat (length series) < minPoints)%Z.
Proof.
  unfold calculateSMA.
  destruct (Z.of_nat (length series) <? minPoints)%Z eqn:E.
  - apply Z.ltb_lt in E. tauto.
  - apply Z.ltb_ge in E. split; [discriminate | lia].
Qed.

Lemma calculateSMA_mean (series : list Q) (period minPoints : Z) :
  (minPoints <= Z.of_nat (length series))%Z ->
  (0 < period)%Z ->
  exists m,
    calculateSMA series period minPoints = Some m
    /\ m == arithmeticMean (lastElements (Z.to_nat period) series).
Proof.
  intros Hmin Hp. unfold calculateSMA.
  replace (Z.of_nat (length series) <? minPoints)%Z with false
    by (symmetry; apply Z.ltb_ge; exact Hmin).
  eexists. split; [reflexivity|].
  cbv zeta. rewrite slice_neg_lastElements by assumption.
  unfold arithmeticMean. rewrite sum_fold_right. reflexivity.
Qed.

(** C3. [calculateSMA] returns absent exactly when the series has fewer
    than [minPoints] elements; otherwise, for a period of at least one,
    it returns the arithmetic mean of the last [period] elements, which
    is the mean of the whole series while the series is shorter than the
    period.  In particular [sma([1,2,3,4,5], 3) = 4],
    [sma([1,2], 3)] is absent and [sma([1,2], 3, minPoints=2) = 1.5]. *)
Theorem C3_sma_contract (series : list Q) (period minPoints : Z) :
  (calculateSMA series period minPoints = None
   <-> (Z.of_nat (length series) < minPoints)%Z)
  /\ ((minPoints <= Z.of_nat (length series))%Z ->
      (0 < period)%Z ->
      exists m,
        calculateSMA series period minPoints = Some m
        /\ m == arithmeticMean (lastElements (Z.to_nat period) series))
  /\ ((minPoints <= Z.of_nat (length series))%Z ->
      (Z.of_nat (length series) < period)%Z ->
      exists m,
        calculateSMA series period minPoints = Some m
        /\ m == arithmeticMean series)
  /\ optQeq (calculateSMA_default [1; 2; 3; 4; 5] 3) (Some 4)
  /\ calculateSMA_default [1; 2] 3 = None
  /\ optQeq (calculateSMA [1; 2] 3 2) (Some (3 # 2)).
Proof.
  split; [apply calculateSMA_absent|].
  split; [apply calculateSMA_mean|].
  split.
  - intros Hmin Hlt.
    destruct (calculateSMA_mean series period minPoints Hmin) as (m & Hm & Hmean);
      [lia|].
    exists m. split; [exact Hm|].
    rewrite Hmean.
    rewrite <- slice_neg_lastElements by lia.
    rewrite slice_neg_all by lia. reflexivity.
  - repeat split; reflexivity.
Qed.

Lemma C3_sma_contract_witness :
  (exists m,
     calculateSMA [1; 2; 3; 4; 5] 3 3 = Some m
     /\ m == arithmeticMean (lastElements (Z.to_nat 3) [1; 2; 3; 4; 5]))
  /\ (exists m,
        calculateSMA [1; 2] 3 2 = Some m /\ m == arithmeticMean [1; 2]).
Proof.
  split.
  - apply (proj1 (proj2 (C3_sma_contract [1; 2; 3; 4; 5] 3 3))).
    + simpl. lia.
    + lia.
  - apply (proj1 (proj2 (proj2 (C3_sma_contract [1; 2] 3 2)))).
    + simpl. lia.
    + simpl. lia.
Defined.

(** ** [stop] *)

Lemma stop_idle (e : TradingEngine) :
  isRunning (state e) = false -> stop e = ret e.
Proof. intro H. unfold stop. rewrite H. reflexivity. Qed.

Lemma stop_not_running (e : TradingEngine) :
  isRunning (state (after (stop e))) = false.
Proof.
  unfold stop. destruct (isRunning (state e)) eqn:E; simpl.
  - reflexivity.
  - exact E.
Qed.

Lemma stop_normal (e : TradingEngine) : completion (stop e) = Normal.
Proof. unfold stop. destruct (isRunning (state e)); reflexivity. Qed.

(** C10. [stop] is idempotent: a second [stop] in a row returns at once,
    with no effect, and leaves the engine exactly as the first left it;
    and [stop] on an engine that is not running does nothing to it. *)
Theorem C10_stop_idempotent (e : TradingEngine) :
  stop (after (stop e)) = ret (after (stop e))
  /\ after (stop (after (stop e))) = after (stop e)
  /\ isRunning (state (after (stop e))) = false
  /\ (isRunning (state e) = false -> stop e = ret e /\ after (stop e) = e).
Proof.
  assert (H : stop (after (stop e)) = ret (after (stop e)))
    by (apply stop_idle, stop_not_running).
  split; [exact H|].
  split; [rewrite H; reflexivity|].
  split; [apply stop_not_running|].
  intro Hidle. rewrite (stop_idle e Hidle). split; reflexivity.
Qed.

Lemma C10_stop_idempotent_witness :
  stop constructor = ret constructor /\ after (stop constructor) = constructor.
Proof.
  apply (proj2 (proj2 (proj2 (C10_stop_idempotent constructor)))).
  reflexivity.
Defined.

(** ** The sell and buy logic *)

Section SellScan.
Variable settings : TradingSettings.t.
Variable newPrice : Q.

(** The loop returns the first position, in the order of the array, that
    meets the stop loss or the sell trigger; the reason is the stop loss
    when that position meets it. *)
Lemma scanPositions_found (positions : list Trade.t) :
  forall (i : nat) (sale : Sale),
    scanPositions settings newPrice i positions = Some sale ->
    (i <= positionIndex sale)%nat
    /\ nth_error positions (positionIndex sale - i) = Some (positionToSell sale)
    /\ (forall j pos,
          (j < positionIndex sale - i)%nat ->
          nth_error positions j = Some pos ->
          stopLossHit settings newPrice pos = false
          /\ sellTriggerHit settings newPrice pos = false)
    /\ (stopLossHit settings newPrice (positionToSell sale) = true
        /\ reasonForSale sale = "Stop Loss"%string
        \/ stopLossHit settings newPrice (positionToSell sale) = false
           /\ sellTriggerHit settings newPrice (positionToSell sale) = true
           /\ reasonForSale sale = "Sell Trigger"%string).
Proof.
  induction positions as [|pos rest IH]; intros i sale H; simpl in H.
  - discriminate.
  - fold (stopLossHit settings newPrice pos) in H.
    fold (sellTriggerHit settings newPrice pos) in H.
    destruct (stopLossHit settings newPrice pos) eqn:Hstop.
    + injection H as <-. simpl. rewrite Nat.sub_diag. simpl.
      repeat split; auto; intros; lia.
    + destruct (sellTriggerHit settings newPrice pos) eqn:Htrig.
      * injection H as <-. simpl. rewrite Nat.sub_diag. simpl.
        repeat split; auto; intros; lia.
      * destruct (IH _ _ H) as (Hi & Hnth & Hbefore & Hreason).
        split; [lia|].
        replace (positionIndex sale - i)%nat
          with (S (positionIndex sale - S i)) by lia.
        split; [exact Hnth|].
        split; [|exact Hreason].
        intros [|j] p Hj Hp; simpl in Hp.
        -- injection Hp as <-. auto.
        -- apply (Hbefore j p); [lia | exact Hp].
Qed.

Lemma scanPositions_none (positions : list Trade.t) :
  forall (i : nat),
    scanPositions settings newPrice i positions = None ->
    forall pos, In pos positions ->
      stopLossHit settings newPrice pos = false
      /\ sellTriggerHit settings newPrice pos = false.
Proof.
  induction positions as [|p rest IH]; intros i H pos Hin; simpl in H.
  - contradiction.
  - fold (stopLossHit settings newPrice p) in H.
    fold (sellTriggerHit settings newPrice p) in H.
    destruct (stopLossHit settings newPrice p) eqn:Hstop; [discriminate|].
    destruct (sellTriggerHit settings newPrice p) eqn:Htrig; [discriminate|].
    destruct Hin as [<-|Hin]; [auto|].
    exact (IH _ H pos Hin).
Qed.

Lemma scanPositions_index (positions : list Trade.t) (i : nat) (sale : Sale) :
  scanPositions settings newPrice i positions = Some sale ->
  (positionIndex sale - i < length positions)%nat.
Proof.
  intro H. destruct (scanPositions_found _ _ _ H) as (_ & Hnth & _).
  apply nth_error_Some. congruence.
Qed.

End SellScan.

Lemma selectSale_index (settings : TradingSettings.t)
  (newPrice fastMA slowMA prevFastMA prevSlowMA : Q)
  (positions : list Trade.t) (sale : Sale) :
  selectSale settings newPrice fastMA slowMA prevFastMA prevSlowMA positions
    = Some sale ->
  (positionIndex sale < length positions)%nat.
Proof.
  unfold selectSale. intro H.
  destruct (scanPositions settings newPrice 0 positions) as [found|] eqn:Hscan.
  - injection H as <-. apply scanPositions_index in Hscan. lia.
  - destruct (Qlt_bool fastMA slowMA && Qle_bool prevSlowMA prevFastMA);
      [|discriminate].
    destruct positions; [discriminate|].
    injection H as <-. simpl. lia.
Qed.

(** [_executeSellLogic] either leaves the engine as it is, or closes the
    position it selected. *)
Lemma sell_cases (newPrice : Q) (newTime : Z)
  (fastMA slowMA prevFastMA prevSlowMA : Q) (e : TradingEngine) :
  let r := _executeSellLogic newPrice newTime fastMA slowMA prevFastMA
             prevSlowMA e in
  after r = e
  \/ exists settings acc sale,
       Engine.settings (state e) = Some settings
       /\ account (state e) = Some acc
       /\ selectSale settings newPrice fastMA slowMA prevFastMA prevSlowMA
            (openPositions (state e)) = Some sale
       /\ completion r = Normal
       /\ after r = onState (soldState newPrice newTime acc sale) e.
Proof.
  unfold _executeSellLogic.
  destruct (settings (state e)) as [settings|] eqn:Hs.
  - destruct (selectSale settings newPrice fastMA slowMA prevFastMA prevSlowMA
                (openPositions (state e))) as [sale|] eqn:Hsel.
    + destruct (account (state e)) as [acc|] eqn:Hacc.
      * right. exists settings, acc, sale. simpl. auto.
      * left. reflexivity.
    + left. reflexivity.
  - left. destruct (openPositions (state e)); reflexivity.
Qed.

(** [_executeBuyLogic] either leaves the engine as it is, or opens a
    position, which it does only below the capacity. *)
Lemma buy_cases (newPrice : Q) (newTime : Z)
  (fastMA slowMA prevFastMA prevSlowMA : Q) (riskLine : option Q)
  (e : TradingEngine) :
  let r := _executeBuyLogic newPrice newTime fastMA slowMA prevFastMA
             prevSlowMA riskLine e in
  after r = e
  \/ exists settings acc,
       Engine.settings (state e) = Some settings
       /\ account (state e) = Some acc
       /\ Qlt_bool slowMA fastMA = true
       /\ inject_Z (Z.of_nat (length (openPositions (state e))))
          < TradingSettings.maxConcurrentPositions settings
       /\ completion r = Normal
       /\ after r =
          onState
            (boughtState newPrice newTime acc
               (Account.quote acc
                * (TradingSettings.tradeAmountPercentage settings / 100))) e.
Proof.
  unfold _executeBuyLogic.
  destruct (settings (state e)) as [settings|] eqn:Hs.
  - destruct (Qlt_bool slowMA fastMA) eqn:Hup;
      [|left; reflexivity].
    destruct (Qle_bool prevFastMA prevSlowMA);
      [|left; reflexivity].
    destruct (Qlt_bool (inject_Z (Z.of_nat (length (openPositions (state e)))))
                (TradingSettings.maxConcurrentPositions settings)) eqn:Hcap;
      [|left; reflexivity].
    cbn [andb].
    destruct (underRiskLine newPrice riskLine); [|left; reflexivity].
    destruct (account (state e)) as [acc|] eqn:Hacc; [|left; reflexivity].
    match goal with
    | |- context [if ?c then _ else _] => destruct c
    end; [|left; reflexivity].
    right. exists settings, acc.
    apply Qlt_bool_iff in Hcap. cbn [after completion done]. auto 7.
  - left.
    destruct (Qlt_bool slowMA fastMA && Qle_bool prevFastMA prevSlowMA);
      reflexivity.
Qed.

(** With settings and an account, neither throws. *)
Lemma sell_normal (newPrice : Q) (newTime : Z)
  (fastMA slowMA prevFastMA prevSlowMA : Q) (e : TradingEngine) :
  settings (state e) <> None ->
  account (state e) <> None ->
  completion (_executeSellLogic newPrice newTime fastMA slowMA prevFastMA
                prevSlowMA e) = Normal.
Proof.
  intros Hs Hacc. unfold _executeSellLogic.
  destruct (settings (state e)) as [settings|]; [|congruence].
  destruct (selectSale settings newPrice fastMA slowMA prevFastMA prevSlowMA
              (openPositions (state e))); [|reflexivity].
  destruct (account (state e)); [reflexivity|congruence].
Qed.

Lemma buy_normal (newPrice : Q) (newTime : Z)
  (fastMA slowMA prevFastMA prevSlowMA : Q) (riskLine : option Q)
  (e : TradingEngine) :
  settings (state e) <> None ->
  account (state e) <> None ->
  completion (_executeBuyLogic newPrice newTime fastMA slowMA prevFastMA
                prevSlowMA riskLine e) = Normal.
Proof.
  intros Hs Hacc. unfold _executeBuyLogic.
  destruct (settings (state e)) as [settings|]; [|congruence].
  destruct (account (state e)); [|congruence].
  repeat match goal with
         | |- context [if ?c then _ else _] => destruct c
         end; reflexivity.
Qed.

(** C7. Every executed SELL appends one SELL trade at the price of the
    tick and moves quote by [+ amount * price] and base by [- amount];
    every executed BUY, at a price that is not zero, appends one BUY
    trade and moves quote by [- amount * price] and base by [+ amount];
    in both cases the value of the account at the price of the trade is
    unchanged.  A call that executes nothing changes neither the trade
    log nor the account. *)
Theorem C7_trade_conservation (newPrice : Q) (newTime : Z)
  (fastMA slowMA prevFastMA prevSlowMA : Q) (riskLine : option Q)
  (e : TradingEngine) :
  (let r := _executeSellLogic newPrice newTime fastMA slowMA prevFastMA
              prevSlowMA e in
   untouched (state e) (state (after r))
   \/ executes SELL newPrice (state e) (state (after r)))
  /\ (~ newPrice == 0 ->
      let r := _executeBuyLogic newPrice newTime fastMA slowMA prevFastMA
                 prevSlowMA riskLine e in
      untouched (state e) (state (after r))
      \/ executes BUY newPrice (state e) (state (after r))).
Proof.
  split.
  - destruct (sell_cases newPrice newTime fastMA slowMA prevFastMA prevSlowMA e)
      as [Hsame | (settings & acc & sale & Hs & Hacc & Hsel & Hnormal & Hafter)];
      cbv zeta.
    + left. rewrite Hsame. split; reflexivity.
    + right. rewrite Hafter.
      eexists _, acc, _. simpl.
      split; [reflexivity|].
      split; [reflexivity|].
      split; [reflexivity|].
      split; [exact Hacc|].
      split; [reflexivity|].
      unfold quoteDelta, baseDelta, valueAt. simpl.
      repeat split; ring.
  - intro Hprice.
    destruct (buy_cases newPrice newTime fastMA slowMA prevFastMA prevSlowMA
                riskLine e)
      as [Hsame | (settings & acc & Hs & Hacc & Hup & Hcap & Hnormal & Hafter)];
      cbv zeta.
    + left. rewrite Hsame. split; reflexivity.
    + right. rewrite Hafter.
      eexists _, acc, _. simpl.
      split; [reflexivity|].
      split; [reflexivity|].
      split; [reflexivity|].
      split; [exact Hacc|].
      split; [reflexivity|].
      unfold quoteDelta, baseDelta, valueAt. simpl.
      repeat split; field; exact Hprice.
Qed.

Lemma C7_trade_conservation_witness :
  ~ 110 == 0
  /\ (untouched (state Scenarios.liveStarted)
        (state (after (_executeBuyLogic 110 17 102 101 100 100 (Some 125)
                         Scenarios.liveStarted)))
      \/ executes BUY 110 (state Scenarios.liveStarted)
           (state (after (_executeBuyLogic 110 17 102 101 100 100 (Some 125)
                            Scenarios.liveStarted)))).
Proof.
  assert (H : ~ 110 == 0) by (intro H; discriminate H).
  split; [exact H|].
  exact (proj2 (C7_trade_conservation 110 17 102 101 100 100 (Some 125)
                  Scenarios.liveStarted) H).
Defined.

(** A bearish crossover, the one sale that is decided by the averages,
    leaves no room for a purchase in the same tick. *)
Lemma buy_needs_bullish (newPrice : Q) (newTime : Z)
  (fastMA slowMA prevFastMA prevSlowMA : Q) (riskLine : option Q)
  (e : TradingEngine) :
  Qlt_bool fastMA slowMA = true ->
  settings (state e) <> None ->
  _executeBuyLogic newPrice newTime fastMA slowMA prevFastMA prevSlowMA
    riskLine e = ret e.
Proof.
  intros Hdown Hs. unfold _executeBuyLogic.
  rewrite (Qlt_bool_asym _ _ Hdown).
  destruct (settings (state e)); [reflexivity|congruence].
Qed.

(** C2, as amended.  The loop of the sell logic closes the first
    position, in FIFO order, that meets the stop loss or the sell
    trigger: no position before it meets either, the reason recorded is
    "Stop Loss" when that position meets the stop loss and "Sell
    Trigger" otherwise; and when the loop selects nothing, no open
    position meets either condition. *)
Theorem C2_first_qualifying_position (newPrice : Q) (newTime : Z)
  (fastMA slowMA prevFastMA prevSlowMA : Q) (e : TradingEngine)
  (settings : TradingSettings.t) (acc : Account.t) :
  Engine.settings (state e) = Some settings ->
  account (state e) = Some acc ->
  let positions := openPositions (state e) in
  let r := _executeSellLogic newPrice newTime fastMA slowMA prevFastMA
             prevSlowMA e in
  match scanPositions settings newPrice 0 positions with
  | Some sale =>
      nth_error positions (positionIndex sale) = Some (positionToSell sale)
      /\ (forall j pos,
            (j < positionIndex sale)%nat ->
            nth_error positions j = Some pos ->
            stopLossHit settings newPrice pos = false
            /\ sellTriggerHit settings newPrice pos = false)
      /\ (stopLossHit settings newPrice (positionToSell sale) = true
          /\ reasonForSale sale = "Stop Loss"%string
          \/ stopLossHit settings newPrice (positionToSell sale) = false
             /\ sellTriggerHit settings newPrice (positionToSell sale) = true
             /\ reasonForSale sale = "Sell Trigger"%string)
      /\ openPositions (state (after r)) = splice1 (positionIndex sale) positions
      /\ trades (state (after r)) =
         trades (state e)
         ++ [Trade.mk (tradeIdCounter (state e)) SELL newPrice newTime
               (Trade.amount (positionToSell sale)) (reasonForSale sale)]
  | None =>
      forall pos, In pos positions ->
        stopLossHit settings newPrice pos = false
        /\ sellTriggerHit settings newPrice pos = false
  end.
Proof.
  intros Hs Hacc positions r.
  destruct (scanPositions settings newPrice 0 positions) as [sale|] eqn:Hscan.
  - destruct (scanPositions_found _ _ _ _ _ Hscan)
      as (_ & Hnth & Hbefore & Hreason).
    rewrite Nat.sub_0_r in Hnth.
    split; [exact Hnth|].
    split.
    { intros j pos Hj. apply Hbefore. lia. }
    split; [exact Hreason|].
    subst r positions. unfold _executeSellLogic, selectSale.
    rewrite Hs, Hscan, Hacc. simpl. split; reflexivity.
  - exact (scanPositions_none _ _ _ _ Hscan).
Qed.

Lemma C2_first_qualifying_position_witness :
  let e := Scenarios.tightExits in
  let settings :=
    TradingSettings.merge (Samples.sampleSettings 50 0 5)
      (Scenarios.exitPatch (1 # 2) (1 # 2)) in
  let positions := openPositions (state e) in
  let r := _executeSellLogic 111 19 1 2 2 1 e in
  Engine.settings (state e) = Some settings
  /\ account (state e) <> None
  /\ match scanPositions settings 111 0 positions with
     | Some sale =>
         nth_error positions (positionIndex sale) = Some (positionToSell sale)
         /\ (forall j pos,
               (j < positionIndex sale)%nat ->
               nth_error positions j = Some pos ->
               stopLossHit settings 111 pos = false
               /\ sellTriggerHit settings 111 pos = false)
         /\ (stopLossHit settings 111 (positionToSell sale) = true
             /\ reasonForSale sale = "Stop Loss"%string
             \/ stopLossHit settings 111 (positionToSell sale) = false
                /\ sellTriggerHit settings 111 (positionToSell sale) = true
                /\ reasonForSale sale = "Sell Trigger"%string)
         /\ openPositions (state (after r)) = splice1 (positionIndex sale) positions
         /\ trades (state (after r)) =
            trades (state e)
            ++ [Trade.mk (tradeIdCounter (state e)) SELL 111 19
                  (Trade.amount (positionToSell sale)) (reasonForSale sale)]
     | None =>
         forall pos, In pos positions ->
           stopLossHit settings 111 pos = false
           /\ sellTriggerHit settings 111 pos = false
     end.
Proof.
  intros e settings positions r.
  split; [reflexivity|].
  destruct (account (state e)) as [acc|] eqn:Hacc;
    [|vm_compute in Hacc; discriminate Hacc].
  split; [discriminate|].
  exact (C2_first_qualifying_position 111 19 1 2 2 1 e settings acc eq_refl Hacc).
Defined.

(** C2, as stated, fails.  With positions entered at 110 and at 112 and
    both exits at half a percent, a price of 111 meets the sell trigger
    of the first position and the stop loss of the second: the tick
    closes the first position, with reason "Sell Trigger", and leaves
    the second open. *)
Lemma C2_counterexample :
  let e := Scenarios.tightExits in
  let settings :=
    TradingSettings.merge (Samples.sampleSettings 50 0 5)
      (Scenarios.exitPatch (1 # 2) (1 # 2)) in
  Engine.settings (state e) = Some settings
  /\ map Trade.id (openPositions (state e)) = [0%nat; 1%nat]
  /\ ~ stopLossFirst settings 111 (openPositions (state e))
  /\ map (fun t => (Trade.type t, Trade.price t, Trade.reason t))
       (createdBy (ExecuteTick None 0%Z) e)
     = [(SELL, 111, "Sell Trigger"%string)]
  /\ map Trade.id (openPositions (state (after (executeTick None 0%Z e))))
     = [1%nat].
Proof.
  intros e settings.
  assert (Hscan : exists pos,
             scanPositions settings 111 0 (openPositions (state e))
             = Some (mkSale pos "Sell Trigger" 0)).
  { vm_compute. eexists. reflexivity. }
  assert (Hsecond : exists pos,
             nth_error (openPositions (state e)) 1 = Some pos
             /\ stopLossHit settings 111 pos = true).
  { vm_compute. eexists. split; reflexivity. }
  split; [vm_compute; reflexivity|].
  split; [vm_compute; reflexivity|].
  split.
  - intro H.
    destruct Hscan as (first & Hscan).
    destruct Hsecond as (second & Hnth & Hhit).
    destruct (H _ Hscan) as (Hreason & _).
    + exists second. split; [|exact Hhit].
      eapply nth_error_In. exact Hnth.
    + discriminate Hreason.
  - split; vm_compute; reflexivity.
Qed.

(** ** The tick: concrete sessions *)

(** C1 fails on the engine.  In the replay of the rising series with a
    sell trigger of one percent, the eighteenth tick (price 112) closes
    the position entered at 110 by its sell trigger and, the bullish
    crossover still holding, opens a new position in the same tick. *)
Lemma C1_sell_and_buy_in_one_tick :
  let e := Scenarios.beforeTrigger in
  map Trade.type (openPositions (state e)) = [BUY]
  /\ map (fun t => (Trade.type t, Trade.price t, Trade.reason t))
       (createdBy (ExecuteTick None 0%Z) e)
     = [(SELL, 112, "Sell Trigger"%string);
        (BUY, 112, "MACD Crossover"%string)]
  /\ completion (executeTick None 0%Z e) = Normal.
Proof. vm_compute. repeat split. Qed.

(** C6 fails on the engine.  The first tick of a live session returns at
    the warm-up gate (the chart holds one point, so no previous average
    exists) with [isProcessingTick] still set, and the next tick is
    skipped by the guard although no fetch is outstanding. *)
Lemma C6_flag_stays_set_at_warmup_gate :
  let e := Scenarios.liveStarted in
  let r := executeTick (Some 101) 1%Z e in
  isRunning (state e) = true
  /\ isProcessingTick (state e) = false
  /\ completion r = Normal
  /\ effects r = [GetPrice "BTC-USD"]
  /\ isProcessingTick (state (after r)) = true
  /\ executeTick (Some 102) 2%Z (after r) = ret (after r).
Proof. vm_compute. repeat split. Qed.

(** C9, as stated, fails.  [start] with an empty replay series asks the
    price provider for the initial price, and when the provider fails
    the start fails: the engine is not running and no timer is set. *)
Lemma C9_counterexample :
  let r := start (Samples.sampleSettings 50 0 5) (Some []) false None 0%Z
             constructor in
  effects r = [GetPrice "BTC-USD";
               ConsoleError "Failed to start: Could not fetch initial price"]
  /\ isRunning (state (after r)) = false
  /\ tradingInterval (after r) = None.
Proof. vm_compute. repeat split. Qed.

(** ** The in-flight flag in live mode *)

(** A chart of at most one point has no previous averages, so the tick
    returns at the warm-up gate. *)
Lemma processPrice_gate_short_chart (settings : TradingSettings.t)
  (backtestData : option (list ChartDataPoint.t)) (newPrice : Q) (newTime : Z)
  (e : TradingEngine) :
  (length (chartData (state e)) <= 1)%nat ->
  isProcessingTick (state (after (processPrice settings backtestData newPrice
                                    newTime e)))
  = isProcessingTick (state e)
  /\ completion (processPrice settings backtestData newPrice newTime e) = Normal.
Proof.
  intro Hlen. unfold processPrice.
  assert (Hprev : i_prevFastMA (indicators settings (chartData (state e)) newPrice)
                  = None).
  { unfold indicators, secondToLast. simpl.
    replace (1 <? length (chartData (state e)))%nat with false
      by (symmetry; apply Nat.ltb_ge; exact Hlen).
    reflexivity. }
  rewrite Hprev. simpl truthy. simpl negb.
  rewrite orb_true_r. simpl. split; reflexivity.
Qed.

(** Whatever the settings and the prices, the first tick of a live
    session leaves the flag set, and from then on every tick is skipped:
    the session never processes a second price. *)
Lemma live_session_stalls (settings : TradingSettings.t) (isLive : bool)
  (first : Q) (now0 : Z) (e0 : TradingEngine) (second : Q) (now1 : Z) :
  isRunning (state e0) = false ->
  isProcessingTick (state e0) = false ->
  let e1 := after (start settings None isLive (Some first) now0 e0) in
  let e2 := after (executeTick (Some second) now1 e1) in
  isProcessingTick (state e2) = true
  /\ forall inputs, run (ticksWith inputs) e2 = e2.
Proof.
  intros Hidle Hflag e1 e2.
  assert (Hrun : isRunning (state e1) = true).
  { subst e1. unfold start. rewrite Hidle. reflexivity. }
  assert (Hset : Engine.settings (state e1) = Some settings).
  { subst e1. unfold start. rewrite Hidle. reflexivity. }
  assert (Hdata : backtestData (state e1) = None).
  { subst e1. unfold start. rewrite Hidle. reflexivity. }
  assert (Hchart : length (chartData (state e1)) = 1%nat).
  { subst e1. unfold start. rewrite Hidle. reflexivity. }
  assert (Hflag1 : isProcessingTick (state e1) = false).
  { subst e1. unfold start. rewrite Hidle. simpl. exact Hflag. }
  assert (Hstuck : isProcessingTick (state e2) = true
                   /\ isRunning (state e2) = true
                   /\ backtestData (state e2) = None
                   /\ Engine.settings (state e2) = Some settings).
  { subst e2. unfold executeTick.
    rewrite Hrun, Hset, Hdata, Hflag1. simpl negb. cbv iota.
    unfold prefixed. cbn [after].
    unfold processPrice.
    assert (Hprev : i_prevFastMA
                      (indicators settings
                         (chartData (state (onState (set_isProcessingTick true) e1)))
                         second) = None).
    { unfold indicators, secondToLast. simpl. rewrite Hchart. reflexivity. }
    rewrite Hprev. simpl truthy. simpl negb. rewrite orb_true_r. simpl.
    auto. }
  destruct Hstuck as (Hp & Hr & Hd & Hs).
  split; [exact Hp|].
  induction inputs as [|i rest IH]; [reflexivity|].
  simpl. unfold executeTick at 1.
  rewrite Hr, Hs, Hd, Hp. simpl. exact IH.
Qed.

(** The two paths on which the flag is released: a failed fetch, and a
    tick of a session without replay data that runs to its end. *)
Lemma live_fetch_failure_releases (now : Z) (e : TradingEngine)
  (settings : TradingSettings.t) :
  isRunning (state e) = true ->
  Engine.settings (state e) = Some settings ->
  backtestData (state e) = None ->
  isProcessingTick (state e) = false ->
  isProcessingTick (state (after (executeTick None now e))) = false.
Proof.
  intros Hr Hs Hd Hp. unfold executeTick.
  rewrite Hr, Hs, Hd, Hp. reflexivity.
Qed.

(** ** [start] with an empty replay series *)

(** C9, as amended.  [start] with an empty replay series takes the live
    path: it asks the price provider for the initial price; when the
    provider fails the start fails (the engine stays idle and no timer
    is set); when it answers, the engine runs with the chart seeded from
    the answer and no trades, exactly in the state that a start without
    replay data gives, but for the [backtestData] field; and a tick of
    such a session that is not skipped by the in-flight guard asks the
    price provider for its price. *)
Theorem C9_empty_series_is_live (settings : TradingSettings.t) (isLive : bool)
  (fetched : option Q) (now : Z) (e : TradingEngine) :
  isRunning (state e) = false ->
  let r := start settings (Some []) isLive fetched now e in
  hd_error (effects r) = Some (GetPrice (TradingSettings.tradingPair settings))
  /\ completion r = Normal
  /\ (fetched = None ->
      isRunning (state (after r)) = false
      /\ tradingInterval (after r) = tradingInterval e)
  /\ (forall price, fetched = Some price ->
      isRunning (state (after r)) = true
      /\ chartData (state (after r)) = [ChartDataPoint.mk now price None None None]
      /\ trades (state (after r)) = []
      /\ openPositions (state (after r)) = [])
  /\ state (after r)
     = state (withBacktestData (Some [])
                (after (start settings None isLive fetched now e)))
  /\ (forall fetched' now',
        isRunning (state (after r)) = true ->
        isProcessingTick (state (after r)) = false ->
        hd_error (effects (executeTick fetched' now' (after r)))
        = Some (GetPrice (TradingSettings.tradingPair settings))).
Proof.
  intros Hidle r. subst r. unfold start. rewrite Hidle.
  destruct fetched as [price|]; cbn [launch done after effects completion hd_error app].
  - split; [reflexivity|].
    split; [reflexivity|].
    split; [discriminate|].
    split.
    { intros p Hp. injection Hp as <-. repeat split; reflexivity. }
    split; [reflexivity|].
    intros fetched' now' _ Hflag.
    unfold executeTick. simpl in Hflag |- *. rewrite Hflag.
    destruct fetched'; reflexivity.
  - split; [reflexivity|].
    split; [reflexivity|].
    split.
    { intros _. split; [simpl; exact Hidle | reflexivity]. }
    split; [discriminate|].
    split; [reflexivity|].
    intros fetched' now' Hrun _. simpl in Hrun. congruence.
Qed.

Lemma C9_empty_series_is_live_witness :
  isRunning (state constructor) = false
  /\ hd_error (effects (start (Samples.sampleSettings 50 0 5) (Some []) false
                          (Some 100) 0%Z constructor))
     = Some (GetPrice "BTC-USD")
  /\ isRunning
       (state (after (start (Samples.sampleSettings 50 0 5) (Some []) false
                        (Some 100) 0%Z constructor))) = true.
Proof.
  split; [reflexivity|].
  pose proof (C9_empty_series_is_live (Samples.sampleSettings 50 0 5) false
                (Some 100) 0%Z constructor eq_refl) as H.
  cbv zeta in H.
  destruct H as (Hfx & _ & _ & Hsome & _).
  split; [exact Hfx|].
  exact (proj1 (Hsome 100 eq_refl)).
Defined.

(** ** The tick: what it preserves *)

Lemma after_andThen (P : TradingEngine -> Prop) (r : Res)
  (k : TradingEngine -> Res) :
  P (after r) ->
  (forall e, P e -> P (after (k e))) ->
  P (after (andThen r k)).
Proof.
  intros Hr Hk. unfold andThen.
  destruct (completion r); [|exact Hr].
  simpl. apply Hk, Hr.
Qed.

Lemma completion_andThen (r : Res) (k : TradingEngine -> Res) :
  completion r = Normal ->
  completion (k (after r)) = Normal ->
  completion (andThen r k) = Normal.
Proof.
  intros Hr Hk. unfold andThen. rewrite Hr. simpl. exact Hk.
Qed.

Lemma effects_andThen (ok : Effect -> Prop) (r : Res)
  (k : TradingEngine -> Res) :
  Forall ok (effects r) ->
  (forall e, Forall ok (effects (k e))) ->
  Forall ok (effects (andThen r k)).
Proof.
  intros Hr Hk. unfold andThen.
  destruct (completion r); [|exact Hr].
  simpl. apply Forall_app. split; [exact Hr | apply Hk].
Qed.

(** A property established when the tick has recorded its price, and
    kept by the sell logic, the buy logic, the tracking of the account
    value and the release of the flag, holds when the tick is over. *)
Lemma processPrice_after (P : TradingEngine -> Prop)
  (settings : TradingSettings.t)
  (backtestData : option (list ChartDataPoint.t)) (newPrice : Q) (newTime : Z)
  (e : TradingEngine) :
  P (withNewPoint settings newPrice newTime e) ->
  (forall f s pf ps e', P e' ->
     P (after (_executeSellLogic newPrice newTime f s pf ps e'))) ->
  (forall f s pf ps line e', P e' ->
     P (after (_executeBuyLogic newPrice newTime f s pf ps line e'))) ->
  (forall v e', P e' -> P (onState (trackAccountValue v) e')) ->
  (forall e', P e' -> P (onState (set_isProcessingTick false) e')) ->
  P (after (processPrice settings backtestData newPrice newTime e)).
Proof.
  intros H1 Hsell Hbuy Htrack Hflag.
  unfold processPrice. fold (withNewPoint settings newPrice newTime e).
  match goal with
  | |- context [if ?c then _ else _] => destruct c
  end; [exact H1|].
  destruct (i_fastMA _) as [fastMA|]; [|exact H1].
  destruct (i_slowMA _) as [slowMA|]; [|exact H1].
  destruct (i_prevFastMA _) as [prevFastMA|]; [|exact H1].
  destruct (i_prevSlowMA _) as [prevSlowMA|]; [|exact H1].
  apply after_andThen; [apply Hsell, H1|].
  intros e2 H2.
  apply after_andThen; [apply Hbuy, H2|].
  intros e3 H3.
  destruct (account (state e3)) as [acc|]; [|exact H3].
  simpl. destruct backtestData.
  - apply Htrack, H3.
  - apply Hflag, Htrack, H3.
Qed.

Lemma sameLedger_refl (e : TradingEngine) : sameLedger e e.
Proof. repeat split. Qed.

Lemma trackAccountValue_sameLedger (v : Q) (e : TradingEngine) :
  sameLedger e (onState (trackAccountValue v) e).
Proof.
  unfold sameLedger, onState, trackAccountValue. simpl.
  destruct (Qlt_bool v (lowestAccountValue (state e))); simpl;
    match goal with
    | |- context [if ?c then _ else _] => destruct c
    end; repeat split.
Qed.

(** A property of the ledger that the sell logic and the buy logic keep
    is kept by the tick. *)
Lemma executeTick_preserves (P : TradingEngine -> Prop) :
  ofLedger P ->
  (forall np nt f s pf ps e, P e ->
     P (after (_executeSellLogic np nt f s pf ps e))) ->
  (forall np nt f s pf ps line e, P e ->
     P (after (_executeBuyLogic np nt f s pf ps line e))) ->
  forall fetched now e, P e -> P (after (executeTick fetched now e)).
Proof.
  intros Hledger Hsell Hbuy fetched now e HP.
  assert (Hprocess : forall settings bd np nt e',
            sameLedger e e' ->
            P (after (processPrice settings bd np nt e'))).
  { intros settings bd np nt e' Hsame.
    apply processPrice_after.
    - apply (Hledger e); [|exact HP].
      destruct Hsame as (H1 & H2 & H3 & H4 & H5). repeat split; assumption.
    - intros. now apply Hsell.
    - intros. now apply Hbuy.
    - intros v e'' H. apply (Hledger e''); [|exact H].
      apply trackAccountValue_sameLedger.
    - intros e'' H. apply (Hledger e''); [|exact H]. repeat split. }
  unfold executeTick.
  destruct (isRunning (state e)) eqn:Hrun; [|exact HP].
  simpl negb. cbv iota.
  destruct (settings (state e)) as [settings|] eqn:Hs; [|exact HP].
  destruct (backtestData (state e)) as [[|first rest]|] eqn:Hd.
  - destruct (isProcessingTick (state e)); [exact HP|].
    destruct fetched as [newPrice|].
    + unfold prefixed. cbn [after]. apply Hprocess. repeat split.
    + simpl. apply (Hledger e); [|exact HP]. repeat split.
  - destruct (length (first :: rest) <=? backtestIndex (state e))%nat.
    + unfold stop. rewrite Hrun. simpl.
      apply (Hledger e); [|exact HP]. repeat split.
    + destruct (nth_error (first :: rest) (backtestIndex (state e)));
        [|exact HP].
      apply Hprocess. repeat split.
  - destruct (isProcessingTick (state e)); [exact HP|].
    destruct fetched as [newPrice|].
    + unfold prefixed. cbn [after]. apply Hprocess. repeat split.
    + simpl. apply (Hledger e); [|exact HP]. repeat split.
Qed.

(** ** Trade ids *)

Lemma idsInOrder_ofLedger : ofLedger idsInOrder.
Proof.
  intros e e' (_ & _ & Ht & _ & Hc) (Hids & Hcount).
  unfold idsInOrder. rewrite Ht, Hc. split; assumption.
Qed.

Lemma idsInOrder_append (s : State) (t : Trade.t) :
  map Trade.id (trades s) = seq 0 (length (trades s)) ->
  tradeIdCounter s = length (trades s) ->
  Trade.id t = tradeIdCounter s ->
  map Trade.id (trades s ++ [t]) = seq 0 (length (trades s ++ [t]))
  /\ S (tradeIdCounter s) = length (trades s ++ [t]).
Proof.
  intros Hids Hcount Hid.
  rewrite map_app, length_app. simpl.
  rewrite Nat.add_1_r, seq_S, Hids, Hid, Hcount. split; reflexivity.
Qed.

Lemma sell_idsInOrder (np : Q) (nt : Z) (f s pf ps : Q) (e : TradingEngine) :
  idsInOrder e -> idsInOrder (after (_executeSellLogic np nt f s pf ps e)).
Proof.
  intros (Hids & Hcount).
  destruct (sell_cases np nt f s pf ps e)
    as [-> | (settings & acc & sale & _ & _ & _ & _ & ->)].
  - split; assumption.
  - unfold idsInOrder. simpl.
    apply idsInOrder_append; [assumption | assumption | reflexivity].
Qed.

Lemma buy_idsInOrder (np : Q) (nt : Z) (f s pf ps : Q) (line : option Q)
  (e : TradingEngine) :
  idsInOrder e -> idsInOrder (after (_executeBuyLogic np nt f s pf ps line e)).
Proof.
  intros (Hids & Hcount).
  destruct (buy_cases np nt f s pf ps line e)
    as [-> | (settings & acc & _ & _ & _ & _ & _ & ->)].
  - split; assumption.
  - unfold idsInOrder. simpl.
    apply idsInOrder_append; [assumption | assumption | reflexivity].
Qed.

Lemma start_idsInOrder (settings : TradingSettings.t)
  (backtestData : option (list ChartDataPoint.t)) (isLive : bool)
  (fetched : option Q) (now : Z) (e : TradingEngine) :
  idsInOrder e ->
  idsInOrder (after (start settings backtestData isLive fetched now e)).
Proof.
  intro H. unfold start.
  destruct (isRunning (state e)); [exact H|].
  destruct backtestData as [[|first rest]|]; try destruct fetched;
    split; reflexivity.
Qed.

Lemma exec_idsInOrder (c : Command) (e : TradingEngine) :
  idsInOrder e -> idsInOrder (after (exec c e)).
Proof.
  intro H. destruct c; simpl.
  - now apply start_idsInOrder.
  - apply executeTick_preserves; auto using idsInOrder_ofLedger.
    + intros. now apply sell_idsInOrder.
    + intros. now apply buy_idsInOrder.
  - unfold stop. destruct (isRunning (state e)); [|exact H].
    simpl. exact H.
  - unfold updateSettings.
    destruct (isRunning (state e)); [|exact H].
    destruct (settings (state e)); exact H.
  - exact H.
Qed.

Lemma run_idsInOrder (cs : list Command) (e : TradingEngine) :
  idsInOrder e -> idsInOrder (run cs e).
Proof.
  revert e. induction cs as [|c rest IH]; intros e H; simpl.
  - exact H.
  - apply IH, exec_idsInOrder, H.
Qed.

(** A tick appends to the trade log, and never lowers the counter. *)
Lemma executeTick_appends (fetched : option Q) (now : Z) (e : TradingEngine) :
  exists new,
    trades (state (after (executeTick fetched now e))) = trades (state e) ++ new.
Proof.
  apply (executeTick_preserves
           (fun e' => exists new, trades (state e') = trades (state e) ++ new)).
  - intros e1 e2 (_ & _ & Ht & _) (new & H). exists new. congruence.
  - intros np nt f s pf ps e1 (new & H).
    destruct (sell_cases np nt f s pf ps e1)
      as [-> | (settings & acc & sale & _ & _ & _ & _ & ->)].
    + now exists new.
    + simpl. rewrite H, <- app_assoc. eauto.
  - intros np nt f s pf ps line e1 (new & H).
    destruct (buy_cases np nt f s pf ps line e1)
      as [-> | (settings & acc & _ & _ & _ & _ & _ & ->)].
    + now exists new.
    + simpl. rewrite H, <- app_assoc. eauto.
  - exists []. now rewrite app_nil_r.
Qed.

Lemma createdBy_tick (fetched : option Q) (now : Z) (e : TradingEngine) :
  trades (state (after (executeTick fetched now e)))
  = trades (state e) ++ createdBy (ExecuteTick fetched now) e.
Proof.
  destruct (executeTick_appends fetched now e) as (new & H).
  unfold createdBy. simpl exec. rewrite H.
  rewrite skipn_app, Nat.sub_diag, skipn_all. reflexivity.
Qed.

Lemma executeTick_counter_monotone (fetched : option Q) (now : Z)
  (e : TradingEngine) :
  (tradeIdCounter (state e)
   <= tradeIdCounter (state (after (executeTick fetched now e))))%nat.
Proof.
  apply (executeTick_preserves
           (fun e' => (tradeIdCounter (state e) <= tradeIdCounter (state e'))%nat)).
  - intros e1 e2 (_ & _ & _ & _ & Hc) H. lia.
  - intros np nt f s pf ps e1 H.
    destruct (sell_cases np nt f s pf ps e1)
      as [-> | (settings & acc & sale & _ & _ & _ & _ & ->)];
      [exact H | simpl; lia].
  - intros np nt f s pf ps line e1 H.
    destruct (buy_cases np nt f s pf ps line e1)
      as [-> | (settings & acc & _ & _ & _ & _ & _ & ->)];
      [exact H | simpl; lia].
  - lia.
Qed.

(** C8, as amended.  In every state the engine can reach, the ids of the
    trade log, which holds the trades created since the last [start],
    are 0, 1, 2, ... in the order of creation, so any two trades of one
    run have distinct ids; the counter is the next id, and a tick never
    lowers it. *)
Theorem C8_ids_unique_within_run (cs : list Command) :
  let e := run cs constructor in
  map Trade.id (trades (state e)) = seq 0 (length (trades (state e)))
  /\ tradeIdCounter (state e) = length (trades (state e))
  /\ NoDup (map Trade.id (trades (state e)))
  /\ (forall fetched now,
        (tradeIdCounter (state e)
         <= tradeIdCounter (state (after (executeTick fetched now e))))%nat).
Proof.
  intro e.
  assert (H : idsInOrder e).
  { apply run_idsInOrder. split; reflexivity. }
  destruct H as (Hids & Hcount).
  split; [exact Hids|].
  split; [exact Hcount|].
  split.
  - rewrite Hids. apply seq_NoDup.
  - intros. apply executeTick_counter_monotone.
Qed.

(** C8, as stated, fails.  [start] sets the counter back to zero: the
    two replays of the rising series on one engine create one trade
    each, and both trades have id 0. *)
Lemma C8_counterexample :
  map Trade.id (created Scenarios.twoRuns constructor) = [0%nat; 0%nat]
  /\ ~ NoDup (map Trade.id (created Scenarios.twoRuns constructor)).
Proof.
  assert (H : map Trade.id (created Scenarios.twoRuns constructor)
              = [0%nat; 0%nat]) by (vm_compute; reflexivity).
  split; [exact H|].
  rewrite H. intro Hnd. inversion Hnd as [|x l Hnotin _]; subst.
  apply Hnotin. left. reflexivity.
Qed.

(** ** The capacity *)

Lemma ceiling_integer (c : Q) (n : Z) : c == inject_Z n -> Qceiling c = n.
Proof. intro H. rewrite H. apply Qceiling_Z. Qed.

Lemma ceiling_above (len : Z) (c : Q) :
  inject_Z len < c -> (len + 1 <= Qceiling c)%Z.
Proof.
  intro H.
  assert (Hlt : inject_Z len < inject_Z (Qceiling c))
    by (eapply Qlt_le_trans; [exact H | apply Qle_ceiling]).
  rewrite <- Zlt_Qlt in Hlt. lia.
Qed.

Lemma ceiling_of_bound (len : Z) (c : Q) :
  inject_Z len <= c -> (len <= Qceiling c)%Z.
Proof.
  intro H.
  assert (Hle : inject_Z len <= inject_Z (Qceiling c))
    by (eapply Qle_trans; [exact H | apply Qle_ceiling]).
  now rewrite <- Zle_Qle in Hle.
Qed.

(** The bound by the capacity rounded up carries the bound by a
    capacity that is an integer. *)
Lemma withinCapacity_ceiling (e : TradingEngine) :
  withinCapacity e
  <-> forall settings,
        Engine.settings (state e) = Some settings ->
        (Z.of_nat (length (openPositions (state e)))
         <= Qceiling (TradingSettings.maxConcurrentPositions settings))%Z.
Proof.
  split.
  - intros H settings Hs. exact (proj1 (H settings Hs)).
  - intros H settings Hs. split; [exact (H settings Hs)|].
    intros n Hn. rewrite <- (ceiling_integer _ n Hn). exact (H settings Hs).
Qed.

Lemma withinCapacity_ofLedger : ofLedger withinCapacity.
Proof.
  intros e e' (Hs & _ & _ & Hp & _) H settings Hsettings.
  rewrite Hp. apply H. congruence.
Qed.

Lemma sell_withinCapacity (np : Q) (nt : Z) (f s pf ps : Q) (e : TradingEngine) :
  withinCapacity e ->
  withinCapacity (after (_executeSellLogic np nt f s pf ps e)).
Proof.
  intro H.
  destruct (sell_cases np nt f s pf ps e)
    as [-> | (settings & acc & sale & Hs & _ & _ & _ & ->)]; [exact H|].
  apply withinCapacity_ceiling. intros settings' Hs'. simpl in Hs' |- *.
  pose proof (proj1 (H settings' Hs')) as Hle.
  pose proof (splice1_length_le (positionIndex sale) (openPositions (state e))).
  lia.
Qed.

Lemma buy_withinCapacity (np : Q) (nt : Z) (f s pf ps : Q) (line : option Q)
  (e : TradingEngine) :
  withinCapacity e ->
  withinCapacity (after (_executeBuyLogic np nt f s pf ps line e)).
Proof.
  intro H.
  destruct (buy_cases np nt f s pf ps line e)
    as [-> | (settings & acc & Hs & _ & _ & Hcap & _ & ->)]; [exact H|].
  apply withinCapacity_ceiling. intros settings' Hs'. simpl in Hs' |- *.
  assert (settings' = settings) by congruence. subst settings'.
  apply ceiling_above in Hcap.
  rewrite length_app. simpl. lia.
Qed.

Lemma executeTick_withinCapacity (fetched : option Q) (now : Z)
  (e : TradingEngine) :
  withinCapacity e -> withinCapacity (after (executeTick fetched now e)).
Proof.
  apply executeTick_preserves.
  - exact withinCapacity_ofLedger.
  - intros. now apply sell_withinCapacity.
  - intros. now apply buy_withinCapacity.
Qed.

(** Whatever the settings were before, a tick leaves at most as many
    positions open as there were, or as the capacity, rounded up,
    allows. *)
Lemma executeTick_capacity_bound (fetched : option Q) (now : Z)
  (e : TradingEngine) (settings : TradingSettings.t) :
  Engine.settings (state e) = Some settings ->
  (Z.of_nat (length (openPositions (state (after (executeTick fetched now e)))))
   <= Z.max (Z.of_nat (length (openPositions (state e))))
        (Qceiling (TradingSettings.maxConcurrentPositions settings)))%Z.
Proof.
  intro Hs.
  pose (bound := Z.max (Z.of_nat (length (openPositions (state e))))
                   (Qceiling (TradingSettings.maxConcurrentPositions settings))).
  apply (executeTick_preserves
           (fun e' =>
              Engine.settings (state e') = Some settings
              /\ (Z.of_nat (length (openPositions (state e'))) <= bound)%Z)).
  - intros e1 e2 (Hs2 & _ & _ & Hp & _) (H1 & H2).
    rewrite Hp. split; [congruence | exact H2].
  - intros np nt f s pf ps e1 (H1 & H2).
    destruct (sell_cases np nt f s pf ps e1)
      as [-> | (settings' & acc & sale & _ & _ & _ & _ & ->)]; [auto|].
    simpl. split; [exact H1|].
    pose proof (splice1_length_le (positionIndex sale) (openPositions (state e1))).
    lia.
  - intros np nt f s pf ps line e1 (H1 & H2).
    destruct (buy_cases np nt f s pf ps line e1)
      as [-> | (settings' & acc & Hs' & _ & _ & Hcap & _ & ->)]; [auto|].
    simpl. split; [exact H1|].
    assert (settings' = settings) by congruence. subst settings'.
    apply ceiling_above in Hcap.
    rewrite length_app. simpl. subst bound. lia.
  - split; [exact Hs | subst bound; lia].
Qed.

Lemma exec_withinCapacity (c : Command) (e : TradingEngine) :
  withinCapacity e ->
  keepsCapacity [c] e = true ->
  withinCapacity (after (exec c e)).
Proof.
  intros H Hkeep. simpl in Hkeep. rewrite andb_true_r in Hkeep.
  destruct c as [settings backtestData isLive fetched now
                | fetched now | | newSettings | ]; simpl.
  - unfold start. destruct (isRunning (state e)) eqn:Hrun; [exact H|].
    simpl in Hkeep. apply Qle_bool_iff in Hkeep.
    apply (ceiling_of_bound 0) in Hkeep.
    apply withinCapacity_ceiling.
    destruct backtestData as [[|first rest]|]; try destruct fetched;
      intros settings' Hs'; simpl in Hs' |- *;
      injection Hs' as <-; exact Hkeep.
  - now apply executeTick_withinCapacity.
  - unfold stop. destruct (isRunning (state e)); [|exact H].
    apply withinCapacity_ceiling. intros settings Hs. simpl in Hs |- *.
    exact (proj1 (H settings Hs)).
  - unfold updateSettings.
    destruct (isRunning (state e)) eqn:Hrun; [|exact H].
    destruct (settings (state e)) as [old|] eqn:Hold; [|exact H].
    apply withinCapacity_ceiling.
    intros settings' Hs'. simpl in Hs' |- *. injection Hs' as <-.
    simpl. pose proof (proj1 (H old Hold)) as Hle.
    destruct (TradingSettings.p_maxConcurrentPositions newSettings)
      as [capacity|]; simpl.
    + simpl in Hkeep. apply Qle_bool_iff in Hkeep.
      now apply ceiling_of_bound.
    + exact Hle.
  - exact H.
Qed.

Lemma run_withinCapacity (cs : list Command) (e : TradingEngine) :
  withinCapacity e ->
  keepsCapacity cs e = true ->
  withinCapacity (run cs e).
Proof.
  revert e. induction cs as [|c rest IH]; intros e H Hkeep.
  - exact H.
  - simpl in Hkeep. apply andb_true_iff in Hkeep. destruct Hkeep as (Hc & Hrest).
    simpl. apply IH; [|exact Hrest].
    apply exec_withinCapacity; [exact H|].
    simpl. rewrite Hc. reflexivity.
Qed.

(** C4, as amended.  The capacity is any number, and the guard of a
    purchase is [len < capacity].  In every session whose [start] calls
    give a capacity that is not negative and whose [updateSettings]
    calls never set the capacity below the number of positions open at
    that moment, the open positions are no more than the capacity of the
    current settings rounded up, after every call and so after every
    tick; for a capacity that is an integer they are no more than the
    capacity.  Without any condition on the session, a tick leaves open
    at most the larger of the number of positions open before it and the
    capacity rounded up. *)
Theorem C4_capacity_kept (cs : list Command) :
  (keepsCapacity cs constructor = true ->
   withinCapacity (run cs constructor))
  /\ (forall fetched now settings,
        Engine.settings (state (run cs constructor)) = Some settings ->
        (Z.of_nat
           (length
              (openPositions
                 (state (after (executeTick fetched now (run cs constructor))))))
         <= Z.max
              (Z.of_nat (length (openPositions (state (run cs constructor)))))
              (Qceiling (TradingSettings.maxConcurrentPositions settings)))%Z).
Proof.
  split.
  - apply run_withinCapacity. intros settings Hs. discriminate Hs.
  - intros. now apply executeTick_capacity_bound.
Qed.

Lemma C4_capacity_kept_witness :
  let cs :=
    Samples.replay (Samples.sampleSettings 50 0 5) Samples.risingSeries 19 in
  keepsCapacity cs constructor = true
  /\ withinCapacity (run cs constructor)
  /\ Engine.settings (state (run cs constructor))
     = Some (Samples.sampleSettings 50 0 5)
  /\ (Z.of_nat
        (length
           (openPositions
              (state (after (executeTick None 0%Z (run cs constructor))))))
      <= Z.max (Z.of_nat (length (openPositions (state (run cs constructor)))))
           (Qceiling
              (TradingSettings.maxConcurrentPositions
                 (Samples.sampleSettings 50 0 5))))%Z.
Proof.
  intro cs.
  assert (H : keepsCapacity cs constructor = true)
    by (vm_compute; reflexivity).
  assert (Hs : Engine.settings (state (run cs constructor))
               = Some (Samples.sampleSettings 50 0 5))
    by (vm_compute; reflexivity).
  split; [exact H|].
  split; [exact (proj1 (C4_capacity_kept cs) H)|].
  split; [exact Hs|].
  exact (proj2 (C4_capacity_kept cs) None 0%Z _ Hs).
Defined.

(** A capacity that is not an integer admits one position beyond it:
    under a capacity of one and a half the replay of the rising series
    opens its two positions, the guard of the second purchase being
    [1 < 1.5]. *)
Lemma fractional_capacity_admits_one_more :
  let cs :=
    Samples.replay (Samples.sampleSettings 50 0 (3 # 2)) Samples.risingSeries 18 in
  keepsCapacity cs constructor = true
  /\ length (openPositions (state (run cs constructor))) = 2%nat
  /\ ~ inject_Z 2 <= 3 # 2
  /\ withinCapacity (run cs constructor).
Proof.
  intro cs.
  assert (H : keepsCapacity cs constructor = true)
    by (vm_compute; reflexivity).
  split; [exact H|].
  split; [vm_compute; reflexivity|].
  split; [intro Hle; vm_compute in Hle; now apply Hle|].
  apply run_withinCapacity; [|exact H].
  intros settings Hs. discriminate Hs.
Qed.

(** C4, as stated, fails.  With two positions open under a capacity of
    five, [updateSettings] lowers the capacity to one; the next tick
    closes nothing, and two positions are open under a capacity of
    one. *)
Lemma C4_counterexample :
  let e := Scenarios.loweredCapacity in
  isRunning (state e) = true
  /\ option_map TradingSettings.maxConcurrentPositions (settings (state e))
     = Some 1
  /\ length (openPositions (state e)) = 2%nat
  /\ ~ inject_Z (Z.of_nat (length (openPositions (state e)))) <= 1
  /\ ~ withinCapacity e.
Proof.
  intro e.
  assert (Hs : exists settings,
             Engine.settings (state e) = Some settings
             /\ TradingSettings.maxConcurrentPositions settings = 1).
  { vm_compute. eexists. split; reflexivity. }
  assert (Hlen : length (openPositions (state e)) = 2%nat)
    by (vm_compute; reflexivity).
  split; [vm_compute; reflexivity|].
  split; [vm_compute; reflexivity|].
  split; [exact Hlen|].
  split; [rewrite Hlen; intro H; vm_compute in H; now apply H|].
  intro H.
  destruct Hs as (settings & Hs & Hcap).
  destruct (H settings Hs) as (Hle & _).
  rewrite Hlen, Hcap in Hle. vm_compute in Hle. now apply Hle.
Qed.

(** ** The replay of a series *)

Lemma notify_noFetch (e : TradingEngine) : noFetch (_notifyUpdate e).
Proof.
  unfold noFetch, _notifyUpdate.
  destruct (updateCallback e); repeat constructor.
Qed.

Lemma telegram_noFetch (ts : TelegramSettings.t) (m : Message) :
  noFetch (_sendTelegramNotification ts m).
Proof.
  unfold noFetch, _sendTelegramNotification.
  match goal with
  | |- context [if ?c then _ else _] => destruct c
  end; repeat constructor.
Qed.

Lemma sell_noFetch (np : Q) (nt : Z) (f s pf ps : Q) (e : TradingEngine) :
  noFetch (effects (_executeSellLogic np nt f s pf ps e)).
Proof.
  unfold _executeSellLogic.
  destruct (settings (state e)) as [settings|].
  - destruct (selectSale _ _ _ _ _ _ _) as [sale|]; [|constructor].
    destruct (account (state e)); [|constructor].
    simpl. apply Forall_app. split.
    + destruct (TradingSettings.telegramSettings settings) as [ts|];
        [|constructor].
      match goal with
      | |- context [if ?c then _ else _] => destruct c
      end; [apply telegram_noFetch | constructor].
    + destruct (isLive (state e)); repeat constructor.
  - destruct (openPositions (state e)); constructor.
Qed.

Lemma buy_noFetch (np : Q) (nt : Z) (f s pf ps : Q) (line : option Q)
  (e : TradingEngine) :
  noFetch (effects (_executeBuyLogic np nt f s pf ps line e)).
Proof.
  unfold _executeBuyLogic.
  destruct (settings (state e)) as [settings|].
  - destruct (_ && _); [|constructor].
    destruct (underRiskLine np line); [|constructor].
    destruct (account (state e)) as [acc|]; [|constructor].
    destruct (_ && _); [|constructor].
    simpl. apply Forall_app. split.
    + destruct (TradingSettings.telegramSettings settings) as [ts|];
        [|constructor].
      match goal with
      | |- context [if ?c then _ else _] => destruct c
      end; [apply telegram_noFetch | constructor].
    + destruct (isLive (state e)); repeat constructor.
  - destruct (_ && _); constructor.
Qed.

Lemma processPrice_noFetch (settings : TradingSettings.t)
  (backtestData : option (list ChartDataPoint.t)) (newPrice : Q) (newTime : Z)
  (e : TradingEngine) :
  noFetch (effects (processPrice settings backtestData newPrice newTime e)).
Proof.
  unfold processPrice.
  match goal with
  | |- context [if ?c then _ else _] => destruct c
  end; [apply notify_noFetch|].
  destruct (i_fastMA _); [|apply notify_noFetch].
  destruct (i_slowMA _); [|apply notify_noFetch].
  destruct (i_prevFastMA _); [|apply notify_noFetch].
  destruct (i_prevSlowMA _); [|apply notify_noFetch].
  apply effects_andThen; [apply sell_noFetch|].
  intro e2. apply effects_andThen; [apply buy_noFetch|].
  intro e3. destruct (account (state e3)); [|constructor].
  apply notify_noFetch.
Qed.

(** With settings and an account, the tick runs to its end. *)
Lemma processPrice_normal (settings : TradingSettings.t)
  (backtestData : option (list ChartDataPoint.t)) (newPrice : Q) (newTime : Z)
  (e : TradingEngine) :
  Engine.settings (state e) <> None ->
  account (state e) <> None ->
  completion (processPrice settings backtestData newPrice newTime e) = Normal.
Proof.
  intros Hs Hacc. unfold processPrice.
  match goal with
  | |- context [if ?c then _ else _] => destruct c
  end; [reflexivity|].
  destruct (i_fastMA _) as [f|]; [|reflexivity].
  destruct (i_slowMA _) as [s|]; [|reflexivity].
  destruct (i_prevFastMA _) as [pf|]; [|reflexivity].
  destruct (i_prevSlowMA _) as [ps|]; [|reflexivity].
  set (e1 := onState _ e).
  assert (Hs1 : Engine.settings (state e1) <> None) by exact Hs.
  assert (Hacc1 : account (state e1) <> None) by exact Hacc.
  clearbody e1.
  assert (Hsell : Engine.settings
                    (state (after (_executeSellLogic newPrice newTime f s pf ps e1)))
                  <> None
                  /\ account
                       (state (after (_executeSellLogic newPrice newTime f s pf ps e1)))
                     <> None).
  { destruct (sell_cases newPrice newTime f s pf ps e1)
      as [-> | (settings' & acc & sale & Hs' & _ & _ & _ & ->)]; [auto|].
    simpl. split; [exact Hs1 | discriminate]. }
  destruct Hsell as (Hs2 & Hacc2).
  apply completion_andThen; [now apply sell_normal|].
  set (e2 := after (_executeSellLogic newPrice newTime f s pf ps e1)) in *.
  clearbody e2.
  apply completion_andThen; [now apply buy_normal|].
  destruct (buy_cases newPrice newTime f s pf ps
              (i_riskLine (indicators settings (chartData (state e)) newPrice)) e2)
    as [-> | (settings' & acc & _ & _ & _ & _ & _ & ->)].
  - destruct (account (state e2)); [reflexivity|congruence].
  - reflexivity.
Qed.

Lemma firstn_S_nth_error {A : Type} (l : list A) (k : nat) (x : A) :
  nth_error l k = Some x -> firstn (S k) l = firstn k l ++ [x].
Proof.
  revert k. induction l as [|a l IH]; intros [|k] H; simpl in H; try discriminate.
  - injection H as <-. reflexivity.
  - simpl. f_equal. apply IH, H.
Qed.

Lemma start_replaying (settings : TradingSettings.t)
  (data : list ChartDataPoint.t) (isLive : bool) (fetched : option Q) (now : Z)
  (e : TradingEngine) :
  isRunning (state e) = false ->
  data <> [] ->
  let r := start settings (Some data) isLive fetched now e in
  replaying settings data 0 (after r)
  /\ completion r = Normal
  /\ noFetch (effects r).
Proof.
  intros Hidle Hdata r. subst r. unfold start. rewrite Hidle.
  destruct data as [|first rest]; [congruence|].
  split.
  - unfold replaying. simpl. repeat split; discriminate.
  - split; [reflexivity|].
    unfold launch. cbn [effects done app].
    constructor; [reflexivity|].
    apply Forall_app. split; [|apply notify_noFetch].
    destruct (TradingSettings.telegramSettings settings) as [ts|];
      [|constructor].
    match goal with
    | |- context [if ?c then _ else _] => destruct c
    end; repeat constructor.
Qed.

Lemma withNewPoint_chart (settings : TradingSettings.t) (newPrice : Q)
  (newTime : Z) (e : TradingEngine) :
  map sample (chartData (state (withNewPoint settings newPrice newTime e)))
  = slice (-500) (map sample (chartData (state e)) ++ [(newTime, newPrice)]).
Proof.
  unfold withNewPoint.
  cbn [state onState chartData set_currentPrice set_chartData].
  rewrite map_slice, map_app. reflexivity.
Qed.

(** A tick of a replay that has points left consumes the next point. *)
Lemma executeTick_replaying (settings : TradingSettings.t)
  (data : list ChartDataPoint.t) (k : nat) (fetched : option Q) (now : Z)
  (e : TradingEngine) :
  replaying settings data k e ->
  (k < length data)%nat ->
  let r := executeTick fetched now e in
  replaying settings data (S k) (after r)
  /\ completion r = Normal
  /\ noFetch (effects r).
Proof.
  intros (Hrun & Hs & Hd & Hk & Hacc & Hchart) Hlt r. subst r.
  unfold executeTick. rewrite Hrun, Hs, Hd, Hk. simpl negb. cbv iota.
  destruct data as [|first rest] eqn:Edata; [simpl in Hlt; lia|].
  rewrite <- Edata in *.
  replace (length data <=? k)%nat with false
    by (symmetry; apply Nat.leb_gt; exact Hlt).
  destruct (nth_error data k) as [point|] eqn:Hpoint;
    [|apply nth_error_None in Hpoint; lia].
  split; [|split].
  - apply processPrice_after.
    + unfold replaying.
      split; [exact Hrun|].
      split; [exact Hs|].
      split; [exact Hd|].
      split; [transitivity (k + 1)%nat; [reflexivity | lia]|].
      split; [exact Hacc|].
      rewrite withNewPoint_chart.
      change (chartData (state (onState (set_backtestIndex (k + 1)) e)))
        with (chartData (state e)).
      rewrite Hchart, (firstn_S_nth_error _ _ _ Hpoint), map_app.
      exact (slice_neg_snoc 500 (map sample (firstn k data)) (sample point)
               eq_refl).
    + intros f s pf ps e' H.
      destruct (sell_cases (ChartDataPoint.price point)
                  (ChartDataPoint.time point) f s pf ps e')
        as [-> | (settings' & acc & sale & _ & _ & _ & _ & ->)]; [exact H|].
      destruct H as (H1 & H2 & H3 & H4 & H5 & H6).
      unfold replaying. simpl. repeat split; try assumption. discriminate.
    + intros f s pf ps line e' H.
      destruct (buy_cases (ChartDataPoint.price point)
                  (ChartDataPoint.time point) f s pf ps line e')
        as [-> | (settings' & acc & _ & _ & _ & _ & _ & ->)]; [exact H|].
      destruct H as (H1 & H2 & H3 & H4 & H5 & H6).
      unfold replaying. simpl. repeat split; try assumption. discriminate.
    + intros v e' H. unfold replaying, trackAccountValue. simpl.
      repeat match goal with
             | |- context [if ?c then _ else _] => destruct c
             end; exact H.
    + intros e' H. exact H.
  - apply processPrice_normal; simpl; [congruence | exact Hacc].
  - apply processPrice_noFetch.
Qed.

(** A tick of a replay that has no points left is a [stop]. *)
Lemma executeTick_exhausted (settings : TradingSettings.t)
  (data : list ChartDataPoint.t) (fetched : option Q) (now : Z)
  (e : TradingEngine) :
  data <> [] ->
  replaying settings data (length data) e ->
  executeTick fetched now e = stop e
  /\ stop e
     = done (mkEngine (set_isRunning false (state e)) None None (updateCallback e))
         (match tradingInterval e with
          | Some h => [ClearInterval h]
          | None => []
          end
          ++ match periodicTelegramInterval e with
             | Some h => [ClearInterval h]
             | None => []
             end
          ++ (if updateCallback e then [NotifyUpdate] else [])).
Proof.
  intros Hdata (Hrun & Hs & Hd & Hk & _).
  split.
  - unfold executeTick. rewrite Hrun, Hs, Hd, Hk. simpl negb. cbv iota.
    destruct data as [|first rest]; [congruence|].
    rewrite Nat.leb_refl. reflexivity.
  - unfold stop. rewrite Hrun. reflexivity.
Qed.

Lemma ticksWith_replaying (settings : TradingSettings.t)
  (data : list ChartDataPoint.t) (inputs : list (option Q * Z)) :
  forall (k : nat) (e : TradingEngine),
    replaying settings data k e ->
    (k + length inputs <= length data)%nat ->
    replaying settings data (k + length inputs) (run (ticksWith inputs) e)
    /\ runNormal (ticksWith inputs) e = true
    /\ noFetch (runEffects (ticksWith inputs) e).
Proof.
  induction inputs as [|i rest IH]; intros k e H Hle; simpl in *.
  - rewrite Nat.add_0_r.
    split; [exact H|]. split; [reflexivity | constructor].
  - destruct (executeTick_replaying settings data k (fst i) (snd i) e H)
      as (Hnext & Hnormal & Hfx); [lia|].
    destruct (IH (S k) _ Hnext) as (Hlast & Hnormals & Hfxs); [lia|].
    rewrite Hnormal.
    replace (k + S (length rest))%nat with (S k + length rest)%nat by lia.
    split; [exact Hlast|].
    split; [exact Hnormals|].
    apply Forall_app. split; assumption.
Qed.

(** C5. A replay of a series of [N >= 1] points processes the [N] points
    in order, one per tick, without asking the price provider and
    without throwing: after [k <= N] ticks the engine runs, its index is
    [k] and its chart holds the times and prices of the (last 500 of
    the) first [k] points.  The tick after the last point is a [stop]:
    it reads no point, processes no price, completes normally, and
    leaves the state as it was but for [isRunning] and the timers. *)
Theorem C5_replay_exhaustion (settings : TradingSettings.t)
  (data : list ChartDataPoint.t) (isLive : bool)
  (fetched0 : option Q) (now0 : Z) (e0 : TradingEngine)
  (inputs : list (option Q * Z)) (fetched : option Q) (now : Z) :
  isRunning (state e0) = false ->
  data <> [] ->
  length inputs = length data ->
  let e1 := after (start settings (Some data) isLive fetched0 now0 e0) in
  let eN := run (ticksWith inputs) e1 in
  (forall k, (k <= length data)%nat ->
     let ek := run (ticksWith (firstn k inputs)) e1 in
     isRunning (state ek) = true
     /\ backtestIndex (state ek) = k
     /\ map sample (chartData (state ek))
        = slice (-500) (map sample (firstn k data)))
  /\ runNormal (ticksWith inputs) e1 = true
  /\ noFetch (effects (start settings (Some data) isLive fetched0 now0 e0)
              ++ runEffects (ticksWith inputs) e1)
  /\ executeTick fetched now eN = stop eN
  /\ completion (executeTick fetched now eN) = Normal
  /\ noFetch (effects (executeTick fetched now eN))
  /\ after (executeTick fetched now eN)
     = mkEngine (set_isRunning false (state eN)) None None (updateCallback eN).
Proof.
  intros Hidle Hdata Hlen e1 eN.
  destruct (start_replaying settings data isLive fetched0 now0 e0 Hidle Hdata)
    as (H0 & _ & Hfx0).
  fold e1 in H0.
  destruct (ticksWith_replaying settings data inputs 0 e1 H0)
    as (HN & Hnormal & Hfx); [simpl; lia|].
  simpl in HN. rewrite Hlen in HN. fold eN in HN.
  destruct (executeTick_exhausted settings data fetched now eN Hdata HN)
    as (Htick & Hstop).
  split.
  { intros k Hk ek.
    destruct (ticksWith_replaying settings data (firstn k inputs) 0 e1 H0)
      as ((Hrun & _ & _ & Hidx & _ & Hchart) & _).
    - rewrite length_firstn. simpl. lia.
    - rewrite length_firstn in Hidx, Hchart. simpl in Hidx, Hchart.
      replace (Nat.min k (length inputs)) with k in * by lia.
      repeat split; assumption. }
  split; [exact Hnormal|].
  split; [apply Forall_app; split; assumption|].
  split; [exact Htick|].
  rewrite Htick, Hstop. cbn [completion effects after done].
  split; [reflexivity|].
  split; [|reflexivity].
  apply Forall_app. split.
  - destruct (tradingInterval eN); repeat constructor.
  - apply Forall_app. split.
    + destruct (periodicTelegramInterval eN); repeat constructor.
    + destruct (updateCallback eN); repeat constructor.
Qed.

Lemma C5_replay_exhaustion_witness :
  let settings := Samples.sampleSettings 50 0 5 in
  let data := Samples.risingSeries in
  let inputs := repeat (@None Q, 0%Z) 19 in
  let e1 := after (start settings (Some data) false None 0%Z constructor) in
  let eN := run (ticksWith inputs) e1 in
  isRunning (state constructor) = false
  /\ data <> []
  /\ length inputs = length data
  /\ backtestIndex (state (run (ticksWith (firstn 19 inputs)) e1)) = 19%nat
  /\ executeTick None 0%Z eN = stop eN
  /\ completion (executeTick None 0%Z eN) = Normal.
Proof.
  intros settings data inputs e1 eN.
  assert (Hidle : isRunning (state constructor) = false) by reflexivity.
  assert (Hdata : data <> []) by (vm_compute; discriminate).
  assert (Hlen : length inputs = length data) by (vm_compute; reflexivity).
  destruct (C5_replay_exhaustion settings data false None 0%Z constructor
              inputs None 0%Z Hidle Hdata Hlen)
    as (Hticks & _ & _ & Htick & Hnormal & _).
  split; [exact Hidle|].
  split; [exact Hdata|].
  split; [exact Hlen|].
  split; [exact (proj1 (proj2 (Hticks 19%nat (Nat.le_refl _))))|].
  split; [exact Htick | exact Hnormal].
Defined.

(** * Part III: further properties of the engine *)

(** ** Invariants of the ledger over sessions *)

Lemma selectSale_nth (settings : TradingSettings.t)
  (newPrice fastMA slowMA prevFastMA prevSlowMA : Q)
  (positions : list Trade.t) (sale : Sale) :
  selectSale settings newPrice fastMA slowMA prevFastMA prevSlowMA positions
    = Some sale ->
  nth_error positions (positionIndex sale) = Some (positionToSell sale).
Proof.
  unfold selectSale. intro H.
  destruct (scanPositions settings newPrice 0 positions) as [found|] eqn:Hscan.
  - injection H as <-.
    destruct (scanPositions_found _ _ _ _ _ Hscan) as (_ & Hnth & _).
    now rewrite Nat.sub_0_r in Hnth.
  - destruct (Qlt_bool fastMA slowMA && Qle_bool prevSlowMA prevFastMA);
      [|discriminate].
    destruct positions; [discriminate|].
    injection H as <-. reflexivity.
Qed.

Lemma start_freshLedger (settings : TradingSettings.t)
  (backtestData : option (list ChartDataPoint.t)) (isLive : bool)
  (fetched : option Q) (now : Z) (e : TradingEngine) :
  isRunning (state e) = false ->
  freshLedger (after (start settings backtestData isLive fetched now e)).
Proof.
  intro Hidle. unfold start. rewrite Hidle.
  exists settings.
  destruct backtestData as [[|first rest]|]; try destruct fetched;
    repeat split.
Qed.

(** A property of the ledger that holds for the engine as constructed
    and for a fresh ledger, that does not depend on the settings, and
    that the sell logic and the buy logic keep, holds in every state a
    session can reach. *)
Lemma ledger_invariant (P : TradingEngine -> Prop) :
  ofLedger P ->
  P constructor ->
  (forall e, freshLedger e -> P e) ->
  (forall e s, P e -> P (onState (set_settings s) e)) ->
  (forall np nt f s pf ps e, P e ->
     P (after (_executeSellLogic np nt f s pf ps e))) ->
  (forall np nt f s pf ps line e, P e ->
     P (after (_executeBuyLogic np nt f s pf ps line e))) ->
  forall cs, P (run cs constructor).
Proof.
  intros Hledger Hinit Hfresh Hsettings Hsell Hbuy cs.
  generalize constructor Hinit. induction cs as [|c rest IH]; intros e HP.
  - exact HP.
  - simpl. apply IH.
    destruct c as [settings backtestData isLive fetched now
                  | fetched now | | newSettings | ]; simpl.
    + destruct (isRunning (state e)) eqn:Hrun.
      * unfold start. rewrite Hrun. exact HP.
      * apply Hfresh. now apply start_freshLedger.
    + now apply executeTick_preserves.
    + unfold stop. destruct (isRunning (state e)); [|exact HP].
      apply (Hledger e); [|exact HP]. repeat split.
    + unfold updateSettings.
      destruct (isRunning (state e)); [|exact HP].
      destruct (settings (state e)); [|exact HP].
      apply Hsettings, HP.
    + apply (Hledger e); [|exact HP]. repeat split.
Qed.

Lemma openAmount_app (l1 l2 : list Trade.t) :
  openAmount (l1 ++ l2) == openAmount l1 + openAmount l2.
Proof.
  induction l1 as [|t l1 IH]; simpl.
  - ring.
  - rewrite IH. ring.
Qed.

Lemma openAmount_splice1 (positions : list Trade.t) :
  forall (i : nat) (pos : Trade.t),
    nth_error positions i = Some pos ->
    openAmount (splice1 i positions) == openAmount positions - Trade.amount pos.
Proof.
  induction positions as [|t rest IH]; intros [|i] pos H; simpl in H;
    try discriminate.
  - injection H as <-. unfold splice1. simpl. ring.
  - unfold splice1 in *. simpl. rewrite (IH i pos H). ring.
Qed.

Lemma baseBacked_all_sessions (cs : list Command) : baseBacked (run cs constructor).
Proof.
  apply ledger_invariant.
  - intros e e' (_ & Ha & _ & Hp & _) H acc Hacc.
    rewrite Hp. apply H. congruence.
  - intros acc H. discriminate H.
  - intros e (settings & _ & Hacc & _ & Hp & _) acc H.
    rewrite Hp. rewrite Hacc in H. injection H as <-. reflexivity.
  - intros e s H. exact H.
  - intros np nt f s pf ps e H.
    destruct (sell_cases np nt f s pf ps e)
      as [-> | (settings & acc & sale & _ & Hacc & Hsel & _ & ->)]; [exact H|].
    intros acc' Hacc'. simpl in Hacc' |- *. injection Hacc' as <-. simpl.
    rewrite (openAmount_splice1 _ _ _ (selectSale_nth _ _ _ _ _ _ _ _ Hsel)).
    rewrite (H acc Hacc). reflexivity.
  - intros np nt f s pf ps line e H.
    destruct (buy_cases np nt f s pf ps line e)
      as [-> | (settings & acc & _ & Hacc & _ & _ & _ & ->)]; [exact H|].
    intros acc' Hacc'. simpl in Hacc' |- *. injection Hacc' as <-. simpl.
    rewrite openAmount_app, (H acc Hacc). simpl. ring.
Qed.

(** X1. In every state that a session none of whose tick prices is
    zero can reach, the base balance of the account is the sum of the
    amounts of the open positions. *)
Theorem base_is_open_amount (cs : list Command) (acc : Account.t) :
  forallb divisorsNonZero cs = true ->
  account (state (run cs constructor)) = Some acc ->
  Account.base acc == openAmount (openPositions (state (run cs constructor))).
Proof. intros _. apply baseBacked_all_sessions. Qed.

Lemma base_is_open_amount_witness :
  let cs :=
    Samples.replay (Samples.sampleSettings 50 0 5) Samples.risingSeries 18 in
  forallb divisorsNonZero cs = true
  /\ exists acc,
       account (state (run cs constructor)) = Some acc
       /\ Account.base acc
          == openAmount (openPositions (state (run cs constructor))).
Proof.
  intro cs.
  assert (Hcs : forallb divisorsNonZero cs = true) by (vm_compute; reflexivity).
  split; [exact Hcs|].
  destruct (account (state (run cs constructor))) as [acc|] eqn:H;
    [|vm_compute in H; discriminate H].
  exists acc. split; [reflexivity|].
  exact (base_is_open_amount cs acc Hcs H).
Defined.

Lemma countType_app (type : TradeType) (l1 l2 : list Trade.t) :
  countType type (l1 ++ l2) = (countType type l1 + countType type l2)%nat.
Proof. unfold countType. now rewrite filter_app, length_app. Qed.

Lemma balancedLog_all_sessions (cs : list Command) : balancedLog (run cs constructor).
Proof.
  apply ledger_invariant.
  - intros e e' (_ & _ & Ht & Hp & _) H. unfold balancedLog in *.
    now rewrite Ht, Hp.
  - reflexivity.
  - intros e (settings & _ & _ & Ht & Hp & _). unfold balancedLog.
    now rewrite Ht, Hp.
  - intros e s H. exact H.
  - intros np nt f s pf ps e H.
    destruct (sell_cases np nt f s pf ps e)
      as [-> | (settings & acc & sale & _ & _ & Hsel & _ & ->)]; [exact H|].
    unfold balancedLog in *. simpl.
    pose proof (splice1_length _ _ (selectSale_index _ _ _ _ _ _ _ _ Hsel)).
    rewrite !countType_app. unfold countType at 2 4. simpl. lia.
  - intros np nt f s pf ps line e H.
    destruct (buy_cases np nt f s pf ps line e)
      as [-> | (settings & acc & _ & _ & _ & _ & _ & ->)]; [exact H|].
    unfold balancedLog in *. simpl.
    rewrite !countType_app, length_app. unfold countType at 2 4. simpl. lia.
Qed.

(** X2. In every state a session can reach, the open positions and the
    sales of the trade log add up to its purchases: every purchase opens
    one position and every sale closes exactly one. *)
Theorem open_plus_sold_is_bought (cs : list Command) :
  (length (openPositions (state (run cs constructor)))
   + countType SELL (trades (state (run cs constructor)))
   = countType BUY (trades (state (run cs constructor))))%nat.
Proof. apply balancedLog_all_sessions. Qed.

Section Splice.
Context {A : Type}.

Lemma in_splice1 (l : list A) (i : nat) (x : A) :
  In x (splice1 i l) -> In x l.
Proof.
  unfold splice1. intro Hin. apply in_app_or in Hin.
  destruct Hin as [Hin|Hin].
  - rewrite <- (firstn_skipn i l). apply in_or_app. now left.
  - rewrite <- (firstn_skipn (S i) l). apply in_or_app. now right.
Qed.

Lemma Forall_splice1 (P : A -> Prop) (l : list A) (i : nat) :
  Forall P l -> Forall P (splice1 i l).
Proof.
  intro H. rewrite Forall_forall in *. intros x Hin.
  apply H. eapply in_splice1. exact Hin.
Qed.

Lemma StronglySorted_splice1 (R : A -> A -> Prop) (l : list A) :
  StronglySorted R l -> forall i, StronglySorted R (splice1 i l).
Proof.
  induction 1 as [|a l Hsorted IH Hall]; intro i.
  - unfold splice1. destruct i; constructor.
  - destruct i as [|i].
    + exact Hsorted.
    + change (splice1 (S i) (a :: l)) with (a :: splice1 i l).
      constructor; [apply IH | now apply Forall_splice1].
Qed.

Lemma StronglySorted_snoc (R : A -> A -> Prop) (l : list A) (x : A) :
  StronglySorted R l ->
  Forall (fun a => R a x) l ->
  StronglySorted R (l ++ [x]).
Proof.
  induction 1 as [|a l Hsorted IH Hall]; intro Hx; simpl.
  - repeat constructor.
  - inversion Hx as [|? ? Hax Hlx]; subst.
    constructor; [now apply IH|].
    apply Forall_app. split; [exact Hall | repeat constructor; exact Hax].
Qed.

End Splice.

Lemma positionsLogged_all_sessions (cs : list Command) :
  positionsLogged (run cs constructor).
Proof.
  apply ledger_invariant.
  - intros e e' (_ & _ & Ht & Hp & Hc) H. unfold positionsLogged in *.
    now rewrite Ht, Hp, Hc.
  - split; constructor.
  - intros e (settings & _ & _ & _ & Hp & _). unfold positionsLogged.
    rewrite Hp. split; constructor.
  - intros e s H. exact H.
  - intros np nt f s pf ps e (Hall & Hsorted).
    destruct (sell_cases np nt f s pf ps e)
      as [-> | (settings & acc & sale & _ & _ & _ & _ & ->)];
      [split; assumption|].
    unfold positionsLogged. simpl. split.
    + apply Forall_splice1.
      eapply Forall_impl; [|exact Hall].
      intros t (Hin & Htype & Hid).
      split; [apply in_or_app; now left|]. split; [exact Htype | lia].
    + now apply StronglySorted_splice1.
  - intros np nt f s pf ps line e (Hall & Hsorted).
    destruct (buy_cases np nt f s pf ps line e)
      as [-> | (settings & acc & _ & _ & _ & _ & _ & ->)];
      [split; assumption|].
    unfold positionsLogged. simpl. split.
    + apply Forall_app. split.
      * eapply Forall_impl; [|exact Hall].
        intros t (Hin & Htype & Hid).
        split; [apply in_or_app; now left|]. split; [exact Htype | lia].
      * constructor; [|constructor].
        split; [apply in_or_app; right; now left|].
        split; [reflexivity | simpl; lia].
    + apply StronglySorted_snoc; [exact Hsorted|].
      eapply Forall_impl; [|exact Hall].
      intros t (_ & _ & Hid). exact Hid.
Qed.

(** X3. In every state a session can reach, each open position is a
    purchase recorded in the trade log, and the open positions are in
    the order of their ids, the order in which they were opened: the
    head of the array is the oldest open position. *)
Theorem open_positions_are_logged_purchases (cs : list Command) :
  let e := run cs constructor in
  (forall pos, In pos (openPositions (state e)) ->
     In pos (trades (state e)) /\ Trade.type pos = BUY)
  /\ StronglySorted (fun a b => (Trade.id a < Trade.id b)%nat)
       (openPositions (state e)).
Proof.
  intro e. destruct (positionsLogged_all_sessions cs) as (Hall & Hsorted).
  split; [|exact Hsorted].
  intros pos Hin.
  rewrite Forall_forall in Hall. destruct (Hall pos Hin) as (H1 & H2 & _).
  split; assumption.
Qed.

(** ** Invariants of the rest of the engine over sessions *)

Lemma sell_sameRest (np : Q) (nt : Z) (f s pf ps : Q) (e : TradingEngine) :
  sameRest e (after (_executeSellLogic np nt f s pf ps e)).
Proof.
  destruct (sell_cases np nt f s pf ps e)
    as [-> | (settings & acc & sale & _ & _ & _ & _ & ->)];
    repeat split.
Qed.

Lemma buy_sameRest (np : Q) (nt : Z) (f s pf ps : Q) (line : option Q)
  (e : TradingEngine) :
  sameRest e (after (_executeBuyLogic np nt f s pf ps line e)).
Proof.
  destruct (buy_cases np nt f s pf ps line e)
    as [-> | (settings & acc & _ & _ & _ & _ & _ & ->)];
    repeat split.
Qed.

Lemma stop_stopped (e : TradingEngine) :
  isRunning (state e) = true -> after (stop e) = stopped e.
Proof. intro H. unfold stop. rewrite H. reflexivity. Qed.

(** The steps of a tick.  A property kept by each of them is kept by the
    tick. *)
Lemma executeTick_invariant (I : TradingEngine -> Prop) :
  (forall e, I e -> isRunning (state e) = true -> I (stopped e)) ->
  (forall e data, I e ->
     backtestData (state e) = Some data ->
     (backtestIndex (state e) < length data)%nat ->
     I (onState (set_backtestIndex (backtestIndex (state e) + 1)) e)) ->
  (forall e b, I e -> I (onState (set_isProcessingTick b) e)) ->
  (forall settings np nt e, I e -> I (withNewPoint settings np nt e)) ->
  (forall np nt f s pf ps e, I e ->
     I (after (_executeSellLogic np nt f s pf ps e))) ->
  (forall np nt f s pf ps line e, I e ->
     I (after (_executeBuyLogic np nt f s pf ps line e))) ->
  (forall v e, I e -> I (onState (trackAccountValue v) e)) ->
  forall fetched now e, I e -> I (after (executeTick fetched now e)).
Proof.
  intros Hstop Hindex Hflag Hpoint Hsell Hbuy Htrack fetched now e HI.
  assert (Hprocess : forall settings bd np nt e',
            I e' -> I (after (processPrice settings bd np nt e'))).
  { intros settings bd np nt e' H'.
    apply processPrice_after; auto. }
  unfold executeTick.
  destruct (isRunning (state e)) eqn:Hrun; [|exact HI].
  simpl negb. cbv iota.
  destruct (settings (state e)) as [settings|] eqn:Hs; [|exact HI].
  destruct (backtestData (state e)) as [[|first rest]|] eqn:Hd.
  - destruct (isProcessingTick (state e)); [exact HI|].
    destruct fetched as [newPrice|].
    + unfold prefixed. cbn [after]. apply Hprocess, Hflag, HI.
    + cbn [after done]. apply Hflag, Hflag, HI.
  - destruct (length (first :: rest) <=? backtestIndex (state e))%nat eqn:Hle.
    + rewrite (stop_stopped e Hrun). now apply Hstop.
    + apply Nat.leb_gt in Hle.
      destruct (nth_error (first :: rest) (backtestIndex (state e)));
        [|exact HI].
      apply Hprocess. now apply (Hindex e (first :: rest)).
  - destruct (isProcessingTick (state e)); [exact HI|].
    destruct fetched as [newPrice|].
    + unfold prefixed. cbn [after]. apply Hprocess, Hflag, HI.
    + cbn [after done]. apply Hflag, Hflag, HI.
Qed.

(** The calls of a session.  A property of the engine as constructed
    that every call keeps holds in every state a session can reach. *)
Lemma session_invariant (I : TradingEngine -> Prop) :
  I constructor ->
  (forall settings backtestData isLive fetched now e,
     I e -> isRunning (state e) = false ->
     I (after (start settings backtestData isLive fetched now e))) ->
  (forall fetched now e, I e -> I (after (executeTick fetched now e))) ->
  (forall e, I e -> isRunning (state e) = true -> I (stopped e)) ->
  (forall e s, I e -> isRunning (state e) = true ->
     I (onState (set_settings (Some s)) e)) ->
  (forall e, I e -> I (setUpdateCallback e)) ->
  forall cs, I (run cs constructor).
Proof.
  intros Hinit Hstart Htick Hstop Hupdate Hcallback cs.
  generalize constructor Hinit. induction cs as [|c rest IH]; intros e HI.
  - exact HI.
  - simpl. apply IH.
    destruct c as [settings backtestData isLive fetched now
                  | fetched now | | newSettings | ]; simpl.
    + destruct (isRunning (state e)) eqn:Hrun.
      * unfold start. rewrite Hrun. exact HI.
      * now apply Hstart.
    + apply Htick, HI.
    + destruct (isRunning (state e)) eqn:Hrun.
      * rewrite (stop_stopped e Hrun). now apply Hstop.
      * unfold stop. rewrite Hrun. exact HI.
    + unfold updateSettings.
      destruct (isRunning (state e)) eqn:Hrun; [|exact HI].
      destruct (settings (state e)); [|exact HI].
      now apply Hupdate.
    + apply Hcallback, HI.
Qed.

Lemma slice_neg_length_le {A : Type} (p : Z) (l : list A) :
  (0 < p)%Z -> (length (slice (- p) l) <= Z.to_nat p)%nat.
Proof.
  intro Hp. rewrite slice_neg_skipn by assumption.
  rewrite length_skipn. lia.
Qed.

(** X4. In every state a session can reach the chart holds at most 500
    points. *)
Theorem chart_holds_at_most_500_points (cs : list Command) :
  (length (chartData (state (run cs constructor))) <= 500)%nat.
Proof.
  apply (session_invariant
           (fun e => (length (chartData (state e)) <= 500)%nat)).
  - simpl. lia.
  - intros settings backtestData isLive fetched now e H Hidle.
    unfold start. rewrite Hidle.
    destruct backtestData as [[|first rest]|]; try destruct fetched;
      simpl; try lia; exact H.
  - apply executeTick_invariant; try (intros; assumption).
    + intros settings np nt e _. unfold withNewPoint.
      cbn [state onState chartData set_currentPrice set_chartData].
      exact (slice_neg_length_le 500 _ eq_refl).
    + intros np nt f s pf ps e H.
      destruct (sell_sameRest np nt f s pf ps e) as (_ & _ & _ & -> & _).
      exact H.
    + intros np nt f s pf ps line e H.
      destruct (buy_sameRest np nt f s pf ps line e) as (_ & _ & _ & -> & _).
      exact H.
    + intros v e H. unfold trackAccountValue. simpl.
      repeat match goal with
             | |- context [if ?c then _ else _] => destruct c
             end; exact H.
  - intros; assumption.
  - intros; assumption.
  - intros; assumption.
Qed.

Lemma Qlt_bool_false_le (a b : Q) : Qlt_bool a b = false -> b <= a.
Proof.
  unfold Qlt_bool. rewrite negb_false_iff. apply Qle_bool_iff.
Qed.

Lemma trackAccountValue_ordered (v : Q) (s : State) :
  lowestAccountValue s <= highestAccountValue s ->
  lowestAccountValue (trackAccountValue v s)
  <= highestAccountValue (trackAccountValue v s).
Proof.
  intro H. unfold trackAccountValue.
  destruct (Qlt_bool v (lowestAccountValue s)) eqn:Hlow.
  - apply Qlt_bool_iff in Hlow. simpl.
    destruct (Qlt_bool (highestAccountValue s) v) eqn:Hhigh; simpl.
    + apply Qle_refl.
    + apply Qlt_le_weak. eapply Qlt_le_trans; eassumption.
  - apply Qlt_bool_false_le in Hlow.
    destruct (Qlt_bool (highestAccountValue s) v) eqn:Hhigh; simpl.
    + exact Hlow.
    + exact H.
Qed.

(** X5. In every state a session can reach, the low watermark of the
    account value is not above the high watermark. *)
Theorem watermarks_are_ordered (cs : list Command) :
  lowestAccountValue (state (run cs constructor))
  <= highestAccountValue (state (run cs constructor)).
Proof.
  apply (session_invariant
           (fun e => lowestAccountValue (state e) <= highestAccountValue (state e))).
  - apply Qle_refl.
  - intros settings backtestData isLive fetched now e H Hidle.
    unfold start. rewrite Hidle.
    destruct backtestData as [[|first rest]|]; try destruct fetched;
      simpl; apply Qle_refl.
  - apply executeTick_invariant; try (intros; assumption).
    + intros np nt f s pf ps e H.
      destruct (sell_sameRest np nt f s pf ps e)
        as (_ & _ & _ & _ & _ & _ & _ & -> & -> & _).
      exact H.
    + intros np nt f s pf ps line e H.
      destruct (buy_sameRest np nt f s pf ps line e)
        as (_ & _ & _ & _ & _ & _ & _ & -> & -> & _).
      exact H.
    + intros v e H. now apply trackAccountValue_ordered.
  - intros; assumption.
  - intros; assumption.
  - intros; assumption.
Qed.



(** Made one after the other, the two parts of a live [start] are the
    [start]. *)
Lemma start_in_two_parts (settings : TradingSettings.t)
  (backtestData : option (list ChartDataPoint.t)) (isLive : bool)
  (fetched : option Q) (now : Z) (e : TradingEngine) :
  Overlap.live backtestData = true ->
  match Overlap.startBegin settings backtestData e with
  | None => start settings backtestData isLive fetched now e = ret e
  | Some r =>
      let r' :=
        Overlap.startResume settings backtestData isLive fetched now (after r) in
      after (start settings backtestData isLive fetched now e) = after r'
      /\ effects (start settings backtestData isLive fetched now e)
         = effects r ++ effects r'
  end.
Proof.
  intro Hlive. unfold Overlap.startBegin, start.
  destruct (isRunning (state e)); [reflexivity|].
  destruct backtestData as [[|first rest]|]; try discriminate Hlive;
    destruct fetched; split; reflexivity.
Qed.




Lemma equipped_all_sessions (cs : list Command) : equipped (run cs constructor).
Proof.
  apply session_invariant.
  - split; [discriminate | intro H; now elim H].
  - intros settings backtestData isLive fetched now e _ Hidle.
    unfold start. rewrite Hidle.
    destruct backtestData as [[|first rest]|]; try destruct fetched;
      split; simpl; discriminate.
  - apply executeTick_invariant; try (intros; assumption).
    + intros e (H1 & H2) _. split; [discriminate | exact H2].
    + intros np nt f s pf ps e (H1 & H2).
      destruct (sell_cases np nt f s pf ps e)
        as [-> | (settings & acc & sale & _ & _ & _ & _ & ->)];
        [split; assumption|].
      split; [exact H1 | discriminate].
    + intros np nt f s pf ps line e (H1 & H2).
      destruct (buy_cases np nt f s pf ps line e)
        as [-> | (settings & acc & _ & _ & _ & _ & _ & ->)];
        [split; assumption|].
      split; [exact H1 | discriminate].
    + intros v e (H1 & H2). unfold equipped. simpl.
      unfold trackAccountValue.
      repeat match goal with
             | |- context [if ?c then _ else _] => destruct c
             end; split; assumption.
  - intros e (H1 & H2) _. split; [discriminate | exact H2].
  - intros e s (H1 & H2) Hrun. split; [discriminate|].
    intros _. apply H2, H1, Hrun.
  - intros; assumption.
Qed.

Lemma start_normal (settings : TradingSettings.t)
  (backtestData : option (list ChartDataPoint.t)) (isLive : bool)
  (fetched : option Q) (now : Z) (e : TradingEngine) :
  completion (start settings backtestData isLive fetched now e) = Normal.
Proof.
  unfold start. destruct (isRunning (state e)); [reflexivity|].
  destruct backtestData as [[|first rest]|]; try destruct fetched; reflexivity.
Qed.

Lemma executeTick_normal (fetched : option Q) (now : Z) (e : TradingEngine) :
  equipped e -> completion (executeTick fetched now e) = Normal.
Proof.
  intros (H1 & H2). unfold executeTick.
  destruct (isRunning (state e)) eqn:Hrun; [|reflexivity].
  simpl negb. cbv iota.
  destruct (settings (state e)) as [settings|] eqn:Hs; [|reflexivity].
  assert (Hacc : account (state e) <> None) by (apply H2; congruence).
  assert (Hs' : Engine.settings (state e) <> None) by congruence.
  destruct (backtestData (state e)) as [[|first rest]|].
  - destruct (isProcessingTick (state e)); [reflexivity|].
    destruct fetched; [|reflexivity].
    unfold prefixed. cbn [completion]. apply processPrice_normal; assumption.
  - destruct (length (first :: rest) <=? backtestIndex (state e))%nat eqn:Hle.
    + apply stop_normal.
    + apply Nat.leb_gt in Hle.
      destruct (nth_error (first :: rest) (backtestIndex (state e))) eqn:Hnth;
        [|apply nth_error_None in Hnth; lia].
      apply processPrice_normal; assumption.
  - destruct (isProcessingTick (state e)); [reflexivity|].
    destruct fetched; [|reflexivity].
    unfold prefixed. cbn [completion]. apply processPrice_normal; assumption.
Qed.

Lemma exec_normal (c : Command) (e : TradingEngine) :
  equipped e -> completion (exec c e) = Normal.
Proof.
  intro H. destruct c; simpl.
  - apply start_normal.
  - now apply executeTick_normal.
  - apply stop_normal.
  - reflexivity.
  - reflexivity.
Qed.

Lemma run_app (cs1 cs2 : list Command) (e : TradingEngine) :
  run (cs1 ++ cs2) e = run cs2 (run cs1 e).
Proof.
  revert e. induction cs1 as [|c rest IH]; intro e; simpl.
  - reflexivity.
  - apply IH.
Qed.

Lemma runNormal_from (cs1 : list Command) :
  forall cs2, runNormal cs2 (run cs1 constructor) = true.
Proof.
  intro cs2. revert cs1.
  induction cs2 as [|c rest IH]; intro cs1; simpl.
  - reflexivity.
  - rewrite (exec_normal c _ (equipped_all_sessions cs1)).
    specialize (IH (cs1 ++ [c])). rewrite run_app in IH. exact IH.
Qed.

(** X7. No call of any session throws: whatever calls are made on an
    engine, in whatever order and with whatever answers of the price
    provider, each of them completes normally; and in every state
    reached, a running engine has settings and an account. *)
Theorem no_call_of_a_session_throws (cs : list Command) :
  runNormal cs constructor = true
  /\ (isRunning (state (run cs constructor)) = true ->
      settings (state (run cs constructor)) <> None
      /\ account (state (run cs constructor)) <> None).
Proof.
  split.
  - exact (runNormal_from [] cs).
  - intro Hrun. destruct (equipped_all_sessions cs) as (H1 & H2).
    split; [exact (H1 Hrun) | exact (H2 (H1 Hrun))].
Qed.

Lemma no_call_of_a_session_throws_witness :
  let cs :=
    Samples.replay (Samples.sampleSettings 50 0 5) Samples.risingSeries 3 in
  isRunning (state (run cs constructor)) = true
  /\ settings (state (run cs constructor)) <> None
  /\ account (state (run cs constructor)) <> None.
Proof.
  intro cs.
  assert (H : isRunning (state (run cs constructor)) = true)
    by (vm_compute; reflexivity).
  split; [exact H|].
  exact (proj2 (no_call_of_a_session_throws cs) H).
Defined.

Lemma indexInSeries_all_sessions (cs : list Command) :
  indexInSeries (run cs constructor).
Proof.
  apply session_invariant.
  - intros data H. discriminate H.
  - intros settings backtestData isLive fetched now e _ Hidle.
    unfold start. rewrite Hidle.
    destruct backtestData as [[|first rest]|]; try destruct fetched;
      intros data H; simpl in H |- *; lia.
  - apply executeTick_invariant; try (intros; assumption).
    + intros e data H Hd Hlt data' Hd'. simpl in Hd' |- *.
      assert (data' = data) by congruence. subst. lia.
    + intros np nt f s pf ps e H.
      destruct (sell_sameRest np nt f s pf ps e)
        as (_ & _ & _ & _ & Hd & Hi & _).
      unfold indexInSeries. rewrite Hd, Hi. exact H.
    + intros np nt f s pf ps line e H.
      destruct (buy_sameRest np nt f s pf ps line e)
        as (_ & _ & _ & _ & Hd & Hi & _).
      unfold indexInSeries. rewrite Hd, Hi. exact H.
    + intros v e H. unfold indexInSeries, trackAccountValue. simpl.
      repeat match goal with
             | |- context [if ?c then _ else _] => destruct c
             end; exact H.
  - intros; assumption.
  - intros; assumption.
  - intros; assumption.
Qed.

(** ** One tick *)

(** What a tick comes to: nothing, a [stop], a skipped fetch, or the
    processing of a price by an engine that differs from the one before
    the tick in the replay index or the in-flight flag only. *)
Lemma executeTick_cases (fetched : option Q) (now : Z) (e : TradingEngine) :
  after (executeTick fetched now e) = e
  \/ after (executeTick fetched now e) = stopped e
  \/ after (executeTick fetched now e)
     = onState (set_isProcessingTick false) (onState (set_isProcessingTick true) e)
  \/ exists settings np nt e',
       Engine.settings (state e) = Some settings
       /\ sameLedger e e'
       /\ chartData (state e') = chartData (state e)
       /\ backtestData (state e') = backtestData (state e)
       /\ (fetched = Some np
           \/ exists data point,
                backtestData (state e) = Some data /\ In point data
                /\ ChartDataPoint.price point = np)
       /\ after (executeTick fetched now e)
          = after (processPrice settings (backtestData (state e)) np nt e').
Proof.
  unfold executeTick.
  destruct (isRunning (state e)) eqn:Hrun; [|now left].
  simpl negb. cbv iota.
  destruct (settings (state e)) as [settings|] eqn:Hs; [|now left].
  destruct (backtestData (state e)) as [[|first rest]|] eqn:Hd.
  - destruct (isProcessingTick (state e)); [now left|].
    destruct fetched as [newPrice|].
    + right. right. right.
      exists settings, newPrice, now, (onState (set_isProcessingTick true) e).
      unfold prefixed. cbn [after].
      split; [reflexivity|]. split; [repeat split|].
      split; [reflexivity|]. split; [exact Hd|].
      split; [now left | reflexivity].
    + right. right. left. reflexivity.
  - destruct (length (first :: rest) <=? backtestIndex (state e))%nat.
    + right. left. now apply stop_stopped.
    + destruct (nth_error (first :: rest) (backtestIndex (state e)))
        as [point|] eqn:Hnth; [|now left].
      right. right. right.
      exists settings, (ChartDataPoint.price point), (ChartDataPoint.time point),
        (onState (set_backtestIndex (backtestIndex (state e) + 1)) e).
      split; [reflexivity|]. split; [repeat split|].
      split; [reflexivity|]. split; [exact Hd|]. split; [|reflexivity].
      right. exists (first :: rest), point.
      split; [reflexivity|]. split; [|reflexivity].
      eapply nth_error_In. exact Hnth.
  - destruct (isProcessingTick (state e)); [now left|].
    destruct fetched as [newPrice|].
    + right. right. right.
      exists settings, newPrice, now, (onState (set_isProcessingTick true) e).
      unfold prefixed. cbn [after].
      split; [reflexivity|]. split; [repeat split|].
      split; [reflexivity|]. split; [exact Hd|].
      split; [now left | reflexivity].
    + right. right. left. reflexivity.
Qed.

Lemma after_andThen_staged (P R : TradingEngine -> Prop) (r : Res)
  (k : TradingEngine -> Res) :
  P (after r) ->
  (forall e, P e -> R e) ->
  (forall e, P e -> R (after (k e))) ->
  R (after (andThen r k)).
Proof.
  intros Hr Hthrow Hk. unfold andThen.
  destruct (completion r).
  - simpl. apply Hk, Hr.
  - apply Hthrow, Hr.
Qed.

(** The trades of one processed price: at most one sale, then at most
    one purchase, both at the price and the time of the tick, which is
    the current price when the tick is over. *)
Lemma processPrice_created (settings : TradingSettings.t)
  (backtestData : option (list ChartDataPoint.t)) (np : Q) (nt : Z)
  (e : TradingEngine) :
  exists sold bought,
    trades (state (after (processPrice settings backtestData np nt e)))
    = trades (state e) ++ sold ++ bought
    /\ tickTrades SELL np nt sold
    /\ tickTrades BUY np nt bought
    /\ currentPrice (state (after (processPrice settings backtestData np nt e)))
       = np.
Proof.
  pose (R := fun e' : TradingEngine =>
               exists sold bought,
                 trades (state e') = trades (state e) ++ sold ++ bought
                 /\ tickTrades SELL np nt sold
                 /\ tickTrades BUY np nt bought
                 /\ currentPrice (state e') = np).
  pose (P := fun e' : TradingEngine =>
               exists sold,
                 trades (state e') = trades (state e) ++ sold
                 /\ tickTrades SELL np nt sold
                 /\ currentPrice (state e') = np).
  assert (HPR : forall e', P e' -> R e').
  { intros e' (sold & Ht & Hsold & Hp). exists sold, [].
    rewrite app_nil_r. repeat split; try assumption. now left. }
  assert (H1 : P (withNewPoint settings np nt e)).
  { exists []. rewrite app_nil_r. repeat split. now left. }
  change (R (after (processPrice settings backtestData np nt e))).
  unfold processPrice. fold (withNewPoint settings np nt e).
  match goal with
  | |- context [if ?c then _ else _] => destruct c
  end; [apply HPR, H1|].
  destruct (i_fastMA _) as [fastMA|]; [|apply HPR, H1].
  destruct (i_slowMA _) as [slowMA|]; [|apply HPR, H1].
  destruct (i_prevFastMA _) as [prevFastMA|]; [|apply HPR, H1].
  destruct (i_prevSlowMA _) as [prevSlowMA|]; [|apply HPR, H1].
  set (e1 := withNewPoint settings np nt e) in *.
  apply (after_andThen_staged P R); [|exact HPR|].
  - destruct (sell_cases np nt fastMA slowMA prevFastMA prevSlowMA e1)
      as [-> | (settings' & acc & sale & _ & _ & _ & _ & ->)]; [exact H1|].
    destruct H1 as (sold & Ht & Hsold & Hp).
    eexists. cbn [state onState trades soldState set_openPositions set_trades
                  currentPrice].
    split; [reflexivity|].
    split; [|reflexivity].
    right. eexists. repeat split.
  - intros e2 (sold & Ht & Hsold & Hp).
    apply (after_andThen_staged R R); [| auto |].
    + destruct (buy_cases np nt fastMA slowMA prevFastMA prevSlowMA
                  (i_riskLine (indicators settings (chartData (state e)) np)) e2)
        as [-> | (settings' & acc & _ & _ & _ & _ & _ & ->)];
        [apply HPR; now exists sold|].
      exists sold. eexists.
      cbn [state onState trades boughtState set_openPositions set_trades
           currentPrice set_tradeIdCounter set_account].
      rewrite Ht, <- app_assoc.
      split; [reflexivity|].
      split; [exact Hsold|].
      split; [|exact Hp].
      right. eexists. repeat split.
    + intros e3 (sold' & bought & Ht3 & Hs3 & Hb3 & Hp3).
      destruct (account (state e3)); [|now exists sold', bought].
      exists sold', bought. cbn [after done].
      destruct backtestData; unfold trackAccountValue; simpl;
        repeat match goal with
               | |- context [if ?c then _ else _] => destruct c
               end; simpl; repeat split; assumption.
Qed.

Lemma tickTrades_shape (type : TradeType) (np : Q) (nt : Z) (l : list Trade.t) :
  tickTrades type np nt l ->
  (length l <= 1)%nat
  /\ Forall (fun t => Trade.type t = type /\ Trade.price t = np) l.
Proof.
  intros [-> | (t & -> & Htype & Hprice & _)].
  - split; [simpl; lia | constructor].
  - split; [simpl; lia | repeat constructor; assumption].
Qed.

(** X8. The trades one tick creates are at most one SELL followed by at
    most one BUY, and each of them is made at the price that the tick
    leaves as the current price. *)
Theorem tick_creates_a_sale_then_a_purchase_at_most (fetched : option Q) (now : Z)
  (e : TradingEngine) :
  exists sold bought,
    createdBy (ExecuteTick fetched now) e = sold ++ bought
    /\ (length sold <= 1)%nat
    /\ (length bought <= 1)%nat
    /\ Forall (fun t => Trade.type t = SELL) sold
    /\ Forall (fun t => Trade.type t = BUY) bought
    /\ Forall (fun t =>
                 Trade.price t
                 = currentPrice (state (after (executeTick fetched now e))))
         (sold ++ bought).
Proof.
  assert (Hnone : trades (state (after (executeTick fetched now e)))
                  = trades (state e) ->
                  exists sold bought,
                    createdBy (ExecuteTick fetched now) e = sold ++ bought
                    /\ (length sold <= 1)%nat
                    /\ (length bought <= 1)%nat
                    /\ Forall (fun t => Trade.type t = SELL) sold
                    /\ Forall (fun t => Trade.type t = BUY) bought
                    /\ Forall (fun t =>
                                 Trade.price t
                                 = currentPrice
                                     (state (after (executeTick fetched now e))))
                         (sold ++ bought)).
  { intro Hsame. exists [], []. unfold createdBy. simpl exec.
    rewrite Hsame, skipn_all. simpl. repeat split; try lia; constructor. }
  destruct (executeTick_cases fetched now e)
    as [H | [H | [H | (settings & np & nt & e' & _ & Hledger & _ & _ & _ & H)]]];
    try (apply Hnone; rewrite H; reflexivity).
  destruct (processPrice_created settings (backtestData (state e)) np nt e')
    as (sold & bought & Ht & Hsold & Hbought & Hprice).
  destruct Hledger as (_ & _ & Htrades & _).
  destruct (tickTrades_shape _ _ _ _ Hsold) as (Hls & Hfs).
  destruct (tickTrades_shape _ _ _ _ Hbought) as (Hlb & Hfb).
  exists sold, bought. unfold createdBy. simpl exec.
  rewrite H, Ht, Hprice, Htrades.
  rewrite skipn_app, Nat.sub_diag, skipn_all. simpl.
  repeat split; try assumption.
  - eapply Forall_impl; [|exact Hfs]. now intros t (Htype & _).
  - eapply Forall_impl; [|exact Hfb]. now intros t (Htype & _).
  - apply Forall_app. split.
    + eapply Forall_impl; [|exact Hfs]. now intros t (_ & Hp).
    + eapply Forall_impl; [|exact Hfb]. now intros t (_ & Hp).
Qed.

(** ** The warm-up *)

Lemma calculateSMA_default_short (data : list Q) (period : Z) :
  (Z.of_nat (length data) < period)%Z ->
  calculateSMA_default data period = None.
Proof. intro H. unfold calculateSMA_default. now apply calculateSMA_absent. Qed.

(** While the chart and the new price together are fewer than the slow
    period, the tick stops at the warm-up gate. *)
Lemma processPrice_warmup (settings : TradingSettings.t)
  (backtestData : option (list ChartDataPoint.t)) (np : Q) (nt : Z)
  (e : TradingEngine) :
  (Z.of_nat (length (chartData (state e))) + 1 < slowPeriod settings)%Z ->
  after (processPrice settings backtestData np nt e)
  = withNewPoint settings np nt e.
Proof.
  intro Hshort. unfold processPrice. fold (withNewPoint settings np nt e).
  assert (Hslow : i_slowMA (indicators settings (chartData (state e)) np) = None).
  { unfold indicators. cbn [i_slowMA].
    apply calculateSMA_default_short.
    rewrite length_app, length_map. simpl. lia. }
  rewrite Hslow. simpl truthy. simpl negb.
  rewrite orb_true_r. reflexivity.
Qed.

Lemma slice_length_le {A : Type} (start : Z) (l : list A) :
  (length (slice start l) <= length l)%nat.
Proof. unfold slice. rewrite length_skipn. lia. Qed.

Lemma executeTick_untraded (settings : TradingSettings.t)
  (data : list ChartDataPoint.t) (fetched : option Q) (now : Z)
  (e : TradingEngine) :
  data <> [] ->
  (Z.of_nat (length data) < slowPeriod settings)%Z ->
  untraded settings data e ->
  untraded settings data (after (executeTick fetched now e)).
Proof.
  intros Hdata Hshort (Ht & Hp & Hacc & Hs & Hd & Hlen).
  unfold executeTick.
  destruct (isRunning (state e)) eqn:Hrun;
    [|repeat split; assumption].
  simpl negb. cbv iota. rewrite Hs, Hd.
  destruct data as [|first rest] eqn:Edata; [congruence|].
  rewrite <- Edata in *.
  destruct (length data <=? backtestIndex (state e))%nat eqn:Hle.
  - rewrite (stop_stopped e Hrun). repeat split; assumption.
  - apply Nat.leb_gt in Hle.
    destruct (nth_error data (backtestIndex (state e))) as [point|];
      [|repeat split; assumption].
    rewrite processPrice_warmup.
    + unfold untraded, withNewPoint.
      cbn [state onState trades openPositions account Engine.settings
           backtestData chartData backtestIndex set_currentPrice set_chartData
           set_backtestIndex].
      repeat split; try assumption.
      etransitivity; [apply slice_length_le|].
      rewrite length_app. simpl. lia.
    + cbn [state onState chartData set_backtestIndex]. lia.
Qed.

(** X9. The warm-up.  A replay of a series that is shorter than the slow
    period never trades: whatever the number of ticks, the trade log and
    the open positions stay empty and the account stays as [start] set
    it. *)
Theorem short_replay_never_trades (settings : TradingSettings.t)
  (data : list ChartDataPoint.t) (isLive : bool)
  (fetched0 : option Q) (now0 : Z) (e0 : TradingEngine)
  (inputs : list (option Q * Z)) :
  isRunning (state e0) = false ->
  data <> [] ->
  (Z.of_nat (length data) < slowPeriod settings)%Z ->
  let e :=
    run (ticksWith inputs)
      (after (start settings (Some data) isLive fetched0 now0 e0)) in
  trades (state e) = []
  /\ openPositions (state e) = []
  /\ account (state e)
     = Some (Account.mk 0 (TradingSettings.initialBalance settings)).
Proof.
  intros Hidle Hdata Hshort e.
  assert (H : untraded settings data e).
  { subst e.
    assert (H0 : untraded settings data
                   (after (start settings (Some data) isLive fetched0 now0 e0))).
    { unfold start. rewrite Hidle.
      destruct data as [|first rest]; [congruence|].
      repeat split. simpl. lia. }
    revert H0.
    generalize (after (start settings (Some data) isLive fetched0 now0 e0)).
    induction inputs as [|i rest IH]; intros e1 H1; simpl.
    - exact H1.
    - apply IH. now apply executeTick_untraded. }
  destruct H as (Ht & Hp & Hacc & _).
  repeat split; assumption.
Qed.

Lemma short_replay_never_trades_witness :
  let settings := Samples.sampleSettings 50 1 5 in
  let data := Samples.series 1 [100; 90; 80; 120; 130; 100; 100] in
  let inputs := repeat (@None Q, 0%Z) 9 in
  isRunning (state constructor) = false
  /\ data <> []
  /\ (Z.of_nat (length data) < slowPeriod settings)%Z
  /\ trades
       (state (run (ticksWith inputs)
                 (after (start settings (Some data) false None 0%Z constructor))))
     = [].
Proof.
  intros settings data inputs.
  assert (Hidle : isRunning (state constructor) = false) by reflexivity.
  assert (Hdata : data <> []) by (vm_compute; discriminate).
  assert (Hshort : (Z.of_nat (length data) < slowPeriod settings)%Z)
    by (vm_compute; reflexivity).
  split; [exact Hidle|].
  split; [exact Hdata|].
  split; [exact Hshort|].
  exact (proj1 (short_replay_never_trades settings data false None 0%Z
                  constructor inputs Hidle Hdata Hshort)).
Defined.

Lemma open_positions_are_logged_purchases_witness :
  let cs :=
    Samples.replay (Samples.sampleSettings 50 0 5) Samples.risingSeries 18 in
  exists pos,
    In pos (openPositions (state (run cs constructor)))
    /\ In pos (trades (state (run cs constructor)))
    /\ Trade.type pos = BUY.
Proof.
  intro cs.
  destruct (openPositions (state (run cs constructor))) as [|pos rest] eqn:H;
    [vm_compute in H; discriminate H|].
  assert (Hin : In pos (openPositions (state (run cs constructor))))
    by (rewrite H; left; reflexivity).
  exists pos. rewrite <- H. split; [exact Hin|].
  exact (proj1 (open_positions_are_logged_purchases cs) pos Hin).
Defined.

(** ** The sale on a bearish crossover *)

Lemma scanPositions_noExit (settings : TradingSettings.t) (np : Q)
  (positions : list Trade.t) :
  noExit settings np positions ->
  forall i, scanPositions settings np i positions = None.
Proof.
  induction positions as [|pos rest IH]; intros H i; simpl.
  - reflexivity.
  - destruct (H pos (or_introl eq_refl)) as (Hstop & Htrig).
    unfold stopLossHit in Hstop. unfold sellTriggerHit in Htrig.
    rewrite Hstop, Htrig.
    apply IH. intros p Hp. apply H. now right.
Qed.

(** X10. When no open position meets its stop loss or its sell trigger,
    the sell logic sells on a bearish crossover only ([fastMA < slowMA]
    with [prevFastMA >= prevSlowMA]), and then it closes the head of the
    open positions, whatever the other positions are, with reason "MACD
    Crossover", crediting its amount at the new price. *)
Theorem crossover_sale_closes_the_head (np : Q) (nt : Z) (f s pf ps : Q)
  (e : TradingEngine) (settings : TradingSettings.t) (acc : Account.t)
  (first : Trade.t) (rest : list Trade.t) :
  Engine.settings (state e) = Some settings ->
  account (state e) = Some acc ->
  openPositions (state e) = first :: rest ->
  noExit settings np (first :: rest) ->
  let r := _executeSellLogic np nt f s pf ps e in
  (Qlt_bool f s && Qle_bool ps pf = true ->
   openPositions (state (after r)) = rest
   /\ trades (state (after r))
      = trades (state e)
        ++ [Trade.mk (tradeIdCounter (state e)) SELL np nt (Trade.amount first)
              "MACD Crossover"]
   /\ account (state (after r))
      = Some (Account.mk (Account.base acc - Trade.amount first)
                         (Account.quote acc + Trade.amount first * np)))
  /\ (Qlt_bool f s && Qle_bool ps pf = false -> r = ret e).
Proof.
  intros Hs Hacc Hp Hnone r. subst r.
  unfold _executeSellLogic, selectSale.
  rewrite Hs, Hp, (scanPositions_noExit _ _ _ Hnone 0).
  split; intro Hcross; rewrite Hcross.
  - rewrite Hacc. cbn. repeat split.
  - reflexivity.
Qed.

(** ** A failed fetch *)

(** X11. In live mode a failed price fetch skips the tick and nothing
    else: the call asks the provider once, logs the error, completes
    normally, and leaves the engine exactly as it was. *)
Theorem failed_fetch_skips_the_tick (now : Z) (e : TradingEngine)
  (settings : TradingSettings.t) :
  isRunning (state e) = true ->
  Engine.settings (state e) = Some settings ->
  livePath e ->
  isProcessingTick (state e) = false ->
  executeTick None now e
  = done e [GetPrice (TradingSettings.tradingPair settings);
            ConsoleError "Error fetching price:"].
Proof.
  intros Hrun Hs Hlive Hflag. unfold executeTick.
  rewrite Hrun, Hs, Hflag. simpl negb. cbv iota.
  assert (He : onState (set_isProcessingTick false)
                 (onState (set_isProcessingTick true) e) = e).
  { destruct e as [st ti pi cb]. destruct st. simpl in Hflag. subst.
    reflexivity. }
  destruct Hlive as [-> | ->]; rewrite He; reflexivity.
Qed.

Lemma failed_fetch_skips_the_tick_witness :
  isRunning (state Scenarios.liveStarted) = true
  /\ livePath Scenarios.liveStarted
  /\ executeTick None 5%Z Scenarios.liveStarted
     = done Scenarios.liveStarted
         [GetPrice "BTC-USD"; ConsoleError "Error fetching price:"].
Proof.
  assert (Hrun : isRunning (state Scenarios.liveStarted) = true) by reflexivity.
  assert (Hlive : livePath Scenarios.liveStarted) by (left; reflexivity).
  split; [exact Hrun|]. split; [exact Hlive|].
  exact (failed_fetch_skips_the_tick 5%Z Scenarios.liveStarted
           (Samples.sampleSettings 50 0 5) Hrun eq_refl Hlive eq_refl).
Defined.

Lemma crossover_sale_closes_the_head_witness :
  let cs :=
    Samples.replay (Samples.sampleSettings 50 0 5) Samples.risingSeries 18 in
  let e := run cs constructor in
  exists first rest acc,
    Engine.settings (state e) = Some (Samples.sampleSettings 50 0 5)
    /\ account (state e) = Some acc
    /\ openPositions (state e) = first :: rest
    /\ noExit (Samples.sampleSettings 50 0 5) 111 (first :: rest)
    /\ openPositions (state (after (_executeSellLogic 111 19 1 2 2 1 e))) = rest.
Proof.
  intros cs e.
  assert (Hs : Engine.settings (state e) = Some (Samples.sampleSettings 50 0 5))
    by (vm_compute; reflexivity).
  destruct (account (state e)) as [acc|] eqn:Hacc;
    [|vm_compute in Hacc; discriminate Hacc].
  destruct (openPositions (state e)) as [|first rest] eqn:Hp;
    [vm_compute in Hp; discriminate Hp|].
  assert (Hnone : noExit (Samples.sampleSettings 50 0 5) 111 (first :: rest)).
  { pose proof Hp as Hp'. vm_compute in Hp'. injection Hp' as <- <-.
    intros pos [<- | [<- | []]]; split; vm_compute; reflexivity. }
  exists first, rest, acc.
  split; [exact Hs|]. split; [reflexivity|]. split; [reflexivity|].
  split; [exact Hnone|].
  exact (proj1 (proj1 (crossover_sale_closes_the_head 111 19 1 2 2 1 e
                        (Samples.sampleSettings 50 0 5) acc first rest
                        Hs Hacc Hp Hnone) eq_refl)).
Defined.

(** ** Solvency *)

Lemma openAmount_nonneg (positions : list Trade.t) :
  Forall (fun t => 0 <= Trade.amount t) positions ->
  0 <= openAmount positions.
Proof.
  induction 1 as [|t rest Ht _ IH]; simpl.
  - apply Qle_refl.
  - replace 0 with (0 + 0) by reflexivity. now apply Qplus_le_compat.
Qed.

Lemma sell_solvent (np : Q) (nt : Z) (f s pf ps : Q) (e : TradingEngine) :
  0 <= np ->
  solvent e ->
  solvent (after (_executeSellLogic np nt f s pf ps e)).
Proof.
  intros Hnp (Hq & Ha & Hd).
  destruct (sell_cases np nt f s pf ps e)
    as [-> | (settings & acc & sale & _ & Hacc & Hsel & _ & ->)];
    [repeat split; assumption|].
  unfold solvent.
  cbn [state onState soldState account openPositions backtestData
       set_openPositions set_trades set_tradeIdCounter set_account].
  split; [|split; [now apply Forall_splice1 | exact Hd]].
  intros acc' Hacc'. injection Hacc' as <-. simpl.
  assert (Hamount : 0 <= Trade.amount (positionToSell sale)).
  { rewrite Forall_forall in Ha. apply Ha.
    eapply nth_error_In. eapply selectSale_nth. exact Hsel. }
  replace 0 with (0 + 0) by reflexivity.
  apply Qplus_le_compat; [now apply Hq|].
  now apply Qmult_le_0_compat.
Qed.

(** A purchase is made only when it is affordable and above the dust
    threshold. *)
Lemma buy_cases_guarded (np : Q) (nt : Z) (f s pf ps : Q) (line : option Q)
  (e : TradingEngine) :
  let r := _executeBuyLogic np nt f s pf ps line e in
  after r = e
  \/ exists settings acc,
       Engine.settings (state e) = Some settings
       /\ account (state e) = Some acc
       /\ Account.quote acc * (TradingSettings.tradeAmountPercentage settings / 100)
          <= Account.quote acc
       /\ 1 < Account.quote acc
              * (TradingSettings.tradeAmountPercentage settings / 100)
       /\ underRiskLine np line = true
       /\ after r =
          onState
            (boughtState np nt acc
               (Account.quote acc
                * (TradingSettings.tradeAmountPercentage settings / 100))) e.
Proof.
  unfold _executeBuyLogic.
  destruct (settings (state e)) as [settings|] eqn:Hs.
  - destruct (_ && _); [|left; reflexivity].
    destruct (underRiskLine np line) eqn:Hline; [|left; reflexivity].
    destruct (account (state e)) as [acc|] eqn:Hacc; [|left; reflexivity].
    match goal with
    | |- context [if ?c then _ else _] => destruct c eqn:Hguard
    end; [|left; reflexivity].
    apply andb_true_iff in Hguard. destruct Hguard as (Hafford & Hdust).
    apply Qle_bool_iff in Hafford. apply Qlt_bool_iff in Hdust.
    right. exists settings, acc. cbn [after done]. auto 7.
  - left. destruct (_ && _); reflexivity.
Qed.

Lemma buy_solvent (np : Q) (nt : Z) (f s pf ps : Q) (line : option Q)
  (e : TradingEngine) :
  0 <= np ->
  solvent e ->
  solvent (after (_executeBuyLogic np nt f s pf ps line e)).
Proof.
  intros Hnp (Hq & Ha & Hd).
  destruct (buy_cases_guarded np nt f s pf ps line e)
    as [-> | (settings & acc & _ & Hacc & Hafford & Hdust & _ & ->)];
    [repeat split; assumption|].
  unfold solvent.
  cbn [state onState boughtState account openPositions backtestData
       set_openPositions set_trades set_tradeIdCounter set_account].
  split; [|split; [|exact Hd]].
  - intros acc' Hacc'. injection Hacc' as <-. simpl.
    rewrite <- (Qplus_opp_r (Account.quote acc
                             * (TradingSettings.tradeAmountPercentage settings / 100))).
    unfold Qminus. apply Qplus_le_compat; [exact Hafford | apply Qle_refl].
  - apply Forall_app. split; [exact Ha|].
    constructor; [|constructor]. simpl.
    unfold Qdiv. apply Qmult_le_0_compat.
    + apply Qlt_le_weak. eapply Qlt_trans; [|exact Hdust]. reflexivity.
    + now apply Qinv_le_0_compat.
Qed.

Lemma executeTick_solvent (fetched : option Q) (now : Z) (e : TradingEngine) :
  answerNonNegative fetched = true ->
  solvent e ->
  solvent (after (executeTick fetched now e)).
Proof.
  intros Hanswer Hsolvent.
  destruct (executeTick_cases fetched now e)
    as [-> | [-> | [-> | (settings & np & nt & e' & _ & Hledger & _ & Hd
                          & Hprice & ->)]]];
    try exact Hsolvent.
  assert (Hnp : 0 <= np).
  { destruct Hprice as [-> | (data & point & Hdata & Hin & <-)].
    - now apply Qle_bool_iff.
    - destruct Hsolvent as (_ & _ & Hprices). rewrite Hdata in Hprices.
      simpl in Hprices. rewrite forallb_forall in Hprices.
      apply Qle_bool_iff. now apply Hprices. }
  apply processPrice_after.
  - destruct Hsolvent as (Hq & Ha & Hp).
    destruct Hledger as (_ & Hacc & _ & Hpos & _).
    unfold solvent, withNewPoint.
    cbn [state onState account openPositions backtestData set_currentPrice
         set_chartData].
    rewrite Hacc, Hpos, Hd. repeat split; assumption.
  - intros. now apply sell_solvent.
  - intros. now apply buy_solvent.
  - intros v e1 H. unfold solvent, trackAccountValue. simpl.
    repeat match goal with
           | |- context [if ?c then _ else _] => destruct c
           end; exact H.
  - intros e1 H. exact H.
Qed.

Lemma exec_solvent (c : Command) (e : TradingEngine) :
  inputsNonNegative c = true ->
  solvent e ->
  solvent (after (exec c e)).
Proof.
  intros Hc H.
  destruct c as [settings backtestData isLive fetched now
                | fetched now | | newSettings | ]; simpl in Hc |- *.
  - unfold start. destruct (isRunning (state e)); [exact H|].
    apply andb_true_iff in Hc. destruct Hc as (Hc & _).
    apply andb_true_iff in Hc. destruct Hc as (Hbalance & Hprices).
    apply Qle_bool_iff in Hbalance.
    destruct backtestData as [[|first rest]|]; try destruct fetched;
      (split; [intros acc Hacc; simpl in Hacc; injection Hacc as <-;
               exact Hbalance
              | split; [constructor | exact Hprices]]).
  - now apply executeTick_solvent.
  - unfold stop. destruct (isRunning (state e)); exact H.
  - unfold updateSettings.
    destruct (isRunning (state e)); [|exact H].
    destruct (settings (state e)); exact H.
  - exact H.
Qed.

Lemma run_solvent (cs : list Command) :
  forall e,
    forallb inputsNonNegative cs = true ->
    solvent e ->
    solvent (run cs e).
Proof.
  induction cs as [|c rest IH]; intros e Hcs H; simpl in *.
  - exact H.
  - apply andb_true_iff in Hcs. destruct Hcs as (Hc & Hrest).
    apply IH; [exact Hrest|]. now apply exec_solvent.
Qed.

(** X12. In a session whose initial balances are not negative and
    whose replayed and fetched prices are positive (not negative, and
    not zero where a tick can take them), neither balance of the
    account is ever negative: a purchase never spends more than the
    quote balance, and a sale never sells more than is held. *)
Theorem balances_are_never_negative (cs : list Command) (acc : Account.t) :
  forallb inputsNonNegative cs = true ->
  forallb divisorsNonZero cs = true ->
  account (state (run cs constructor)) = Some acc ->
  0 <= Account.quote acc /\ 0 <= Account.base acc.
Proof.
  intros Hcs _ Hacc.
  assert (H : solvent (run cs constructor)).
  { apply run_solvent; [exact Hcs|].
    split; [intros a Ha; discriminate Ha | split; [constructor | reflexivity]]. }
  destruct H as (Hq & Ha & _).
  split; [now apply Hq|].
  rewrite (baseBacked_all_sessions cs acc Hacc).
  now apply openAmount_nonneg.
Qed.

Lemma balances_are_never_negative_witness :
  let cs :=
    Samples.replay (Samples.sampleSettings 50 0 5) Samples.risingSeries 19 in
  forallb inputsNonNegative cs = true
  /\ forallb divisorsNonZero cs = true
  /\ exists acc,
       account (state (run cs constructor)) = Some acc
       /\ 0 <= Account.quote acc /\ 0 <= Account.base acc.
Proof.
  intro cs.
  assert (Hcs : forallb inputsNonNegative cs = true) by (vm_compute; reflexivity).
  assert (Hnz : forallb divisorsNonZero cs = true) by (vm_compute; reflexivity).
  split; [exact Hcs|]. split; [exact Hnz|].
  destruct (account (state (run cs constructor))) as [acc|] eqn:Hacc;
    [|vm_compute in Hacc; discriminate Hacc].
  exists acc. split; [reflexivity|].
  exact (balances_are_never_negative cs acc Hcs Hnz Hacc).
Defined.

(** ** The periods of the moving averages *)

Lemma round_monotone (a b : Q) : a <= b -> (round a <= round b)%Z.
Proof.
  intro H. unfold round. apply Qfloor_resp_le. lra.
Qed.

Lemma round_ge (n : Z) (a : Q) : inject_Z n <= a -> (n <= round a)%Z.
Proof.
  intro H. rewrite <- (Qfloor_Z n). unfold round. apply Qfloor_resp_le. lra.
Qed.

Lemma round_le (n : Z) (a : Q) : a <= inject_Z n -> (round a <= n)%Z.
Proof.
  intro H.
  replace n with (round (inject_Z n)).
  - now apply round_monotone.
  - unfold round.
    assert (Hlow : (n <= Qfloor (inject_Z n + (1 # 2)))%Z).
    { rewrite <- (Qfloor_Z n) at 1. apply Qfloor_resp_le. lra. }
    assert (Hhigh : (Qfloor (inject_Z n + (1 # 2)) < n + 1)%Z).
    { rewrite Zlt_Qlt. eapply Qle_lt_trans; [apply Qfloor_le|].
      rewrite inject_Z_plus. change (inject_Z 1) with 1. lra. }
    lia.
Qed.

(** X13. For a sensitivity between 0 and 100 the fast period is between
    5 and 50, the slow period between 15 and 100, and the slow period is
    at least ten ticks longer than the fast one; and a lower sensitivity
    never gives shorter periods. *)
Theorem periods_follow_the_sensitivity (settings settings' : TradingSettings.t) :
  (0 <= TradingSettings.dipsSensitivity settings <= 100 ->
   (5 <= fastPeriod settings <= 50)%Z
   /\ (15 <= slowPeriod settings <= 100)%Z
   /\ (fastPeriod settings + 10 <= slowPeriod settings)%Z)
  /\ (TradingSettings.dipsSensitivity settings
      <= TradingSettings.dipsSensitivity settings' ->
      (fastPeriod settings' <= fastPeriod settings)%Z
      /\ (slowPeriod settings' <= slowPeriod settings)%Z).
Proof.
  unfold fastPeriod, slowPeriod.
  set (d := TradingSettings.dipsSensitivity settings).
  set (d' := TradingSettings.dipsSensitivity settings').
  split.
  - intros (Hlow & Hhigh).
    split.
    { split; [apply round_ge; change (inject_Z 5) with 5
             | apply round_le; change (inject_Z 50) with 50]; lra. }
    split.
    { split; [apply round_ge; change (inject_Z 15) with 15
             | apply round_le; change (inject_Z 100) with 100]; lra. }
    assert (H : (round (5 + (100 - d) * (45 # 100)) + 10
                 = round (5 + (100 - d) * (45 # 100) + 10))%Z).
    { unfold round.
      assert (Hfloor : forall x : Q, (Qfloor x + 10 = Qfloor (x + 10))%Z).
      { intro x.
        assert (H1 : (Qfloor x + 10 <= Qfloor (x + 10))%Z).
        { rewrite <- (Qfloor_Z (Qfloor x + 10)). apply Qfloor_resp_le.
          rewrite inject_Z_plus. pose proof (Qfloor_le x).
          change (inject_Z 10) with 10. lra. }
        assert (H2 : (Qfloor (x + 10) < Qfloor x + 10 + 1)%Z).
        { rewrite Zlt_Qlt. eapply Qle_lt_trans; [apply Qfloor_le|].
          rewrite !inject_Z_plus. pose proof (Qlt_floor x) as Hx.
          rewrite inject_Z_plus in Hx.
          change (inject_Z 10) with 10. change (inject_Z 1) with 1 in *. lra. }
        lia. }
      rewrite Hfloor. apply Qfloor_comp. ring. }
    rewrite H. apply round_monotone. lra.
  - intro Hle. split; apply round_monotone; lra.
Qed.

Lemma periods_follow_the_sensitivity_witness :
  0 <= TradingSettings.dipsSensitivity (Samples.sampleSettings 50 0 5) <= 100
  /\ (5 <= fastPeriod (Samples.sampleSettings 50 0 5) <= 50)%Z.
Proof.
  assert (H : 0 <= TradingSettings.dipsSensitivity (Samples.sampleSettings 50 0 5)
              <= 100) by (split; discriminate).
  split; [exact H|].
  exact (proj1 (proj1 (periods_follow_the_sensitivity
                         (Samples.sampleSettings 50 0 5)
                         (Samples.sampleSettings 50 0 5)) H)).
Defined.

(** ** The moving average lies within its window *)

Lemma fold_right_Qplus_bounds (lo hi : Q) (l : list Q) :
  Forall (fun x => lo <= x <= hi) l ->
  inject_Z (Z.of_nat (length l)) * lo <= fold_right Qplus 0 l
  /\ fold_right Qplus 0 l <= inject_Z (Z.of_nat (length l)) * hi.
Proof.
  induction 1 as [|x l (Hlo & Hhi) _ (IHlo & IHhi)].
  - cbn [length fold_right Z.of_nat]. change (inject_Z 0) with 0. split; lra.
  - cbn [length fold_right].
    rewrite Nat2Z.inj_succ, <- Z.add_1_r, inject_Z_plus.
    change (inject_Z 1) with 1. split; lra.
Qed.

Lemma Forall_skipn {A : Type} (P : A -> Prop) (n : nat) (l : list A) :
  Forall P l -> Forall P (skipn n l).
Proof.
  intro H. rewrite Forall_forall in *. intros x Hin. apply H.
  rewrite <- (firstn_skipn n l). apply in_or_app. now right.
Qed.

(** X14. In exact arithmetic, for a period of at least one and a
    series that is not empty, the moving average, when it is defined,
    lies between any two bounds of the series; in particular the
    average of a constant series is the constant.  (The sum and the
    quotient of the source are rounded: there the average can leave the
    bounds by the rounding error, as it does for three samples of
    0.1.) *)
Theorem sma_within_the_bounds_of_the_series (data : list Q)
  (period minPoints : Z) (lo hi m : Q) :
  data <> [] ->
  (0 < period)%Z ->
  Forall (fun x => lo <= x <= hi) data ->
  calculateSMA data period minPoints = Some m ->
  lo <= m <= hi.
Proof.
  intros Hdata Hperiod Hbounds Hsma. unfold calculateSMA in Hsma.
  destruct (Z.of_nat (length data) <? minPoints)%Z; [discriminate|].
  injection Hsma as <-.
  rewrite slice_neg_skipn by assumption.
  set (w := skipn (length data - Z.to_nat period) data).
  assert (Hw : Forall (fun x => lo <= x <= hi) w) by now apply Forall_skipn.
  assert (Hlen : (0 < length w)%nat).
  { subst w. rewrite length_skipn.
    destruct data; [congruence|]. cbn [length]. lia. }
  assert (Hn : 0 < inject_Z (Z.of_nat (length w))).
  { change 0 with (inject_Z 0). rewrite <- Zlt_Qlt. lia. }
  destruct (fold_right_Qplus_bounds lo hi w Hw) as (Hlo & Hhi).
  rewrite sum_fold_right. split.
  - apply Qle_shift_div_l; [exact Hn|]. lra.
  - apply Qle_shift_div_r; [exact Hn|]. lra.
Qed.

Lemma sma_within_the_bounds_of_the_series_witness :
  [100; 110; 105] <> []
  /\ (0 < 2)%Z
  /\ Forall (fun x => 100 <= x <= 110) [100; 110; 105]
  /\ 100 <= (215 # 2) <= 110.
Proof.
  assert (H1 : [100; 110; 105] <> []) by discriminate.
  assert (H2 : (0 < 2)%Z) by reflexivity.
  assert (H3 : Forall (fun x => 100 <= x <= 110) [100; 110; 105])
    by (repeat constructor; discriminate).
  split; [exact H1|]. split; [exact H2|]. split; [exact H3|].
  exact (sma_within_the_bounds_of_the_series [100; 110; 105] 2 2 100 110
           (215 # 2) H1 H2 H3 eq_refl).
Defined.

(** ** [updateSettings] *)

Lemma merge_idempotent (old : TradingSettings.t) (p : TradingSettings.patch) :
  TradingSettings.merge (TradingSettings.merge old p) p
  = TradingSettings.merge old p.
Proof.
  unfold TradingSettings.merge. destruct p. simpl.
  repeat match goal with
         | o : option _ |- _ => destruct o
         end; reflexivity.
Qed.

(** X15. [updateSettings] touches the settings only: the ledger, the
    chart and the replay are as before.  Applying the same update twice
    is the same as applying it once, an update on an engine that is not
    running changes nothing, and neither does an empty update. *)
Theorem updateSettings_touches_settings_only (p : TradingSettings.patch)
  (e : TradingEngine) :
  (account (state (updateSettings p e)) = account (state e)
   /\ trades (state (updateSettings p e)) = trades (state e)
   /\ openPositions (state (updateSettings p e)) = openPositions (state e)
   /\ tradeIdCounter (state (updateSettings p e)) = tradeIdCounter (state e)
   /\ chartData (state (updateSettings p e)) = chartData (state e)
   /\ backtestData (state (updateSettings p e)) = backtestData (state e)
   /\ backtestIndex (state (updateSettings p e)) = backtestIndex (state e)
   /\ isRunning (state (updateSettings p e)) = isRunning (state e))
  /\ updateSettings p (updateSettings p e) = updateSettings p e
  /\ updateSettings TradingSettings.noPatch e = e
  /\ (isRunning (state e) = false -> updateSettings p e = e).
Proof.
  assert (Heta : forall e' : TradingEngine,
            onState (set_settings (settings (state e'))) e' = e').
  { intros [st ti pi cb]. destruct st. reflexivity. }
  assert (Hnone : forall old, TradingSettings.merge old TradingSettings.noPatch
                              = old).
  { intros []. reflexivity. }
  split; [|split; [|split]].
  - unfold updateSettings.
    destruct (isRunning (state e)) eqn:Hrun;
      [|repeat split; exact Hrun].
    destruct (settings (state e)); repeat split; exact Hrun.
  - unfold updateSettings.
    destruct (isRunning (state e)) eqn:Hrun; [|now rewrite Hrun].
    destruct (settings (state e)) as [old|] eqn:Hs; [|now rewrite Hrun, Hs].
    cbn [state onState isRunning set_settings Engine.settings].
    rewrite Hrun, merge_idempotent. reflexivity.
  - unfold updateSettings.
    destruct (isRunning (state e)); [|reflexivity].
    destruct (settings (state e)) as [old|] eqn:Hs; [|reflexivity].
    rewrite Hnone, <- Hs. apply Heta.
  - intro Hrun. unfold updateSettings. now rewrite Hrun.
Qed.

Lemma updateSettings_touches_settings_only_witness :
  isRunning (state constructor) = false
  /\ updateSettings (Scenarios.capacityPatch 1) constructor = constructor.
Proof.
  split; [reflexivity|].
  exact (proj2 (proj2 (proj2 (updateSettings_touches_settings_only
                                (Scenarios.capacityPatch 1) constructor)))
           eq_refl).
Defined.

(** ** The account over a tick *)

Lemma totalQuoteDelta_app (l1 l2 : list Trade.t) :
  totalQuoteDelta (l1 ++ l2) == totalQuoteDelta l1 + totalQuoteDelta l2.
Proof.
  induction l1 as [|t l1 IH]; simpl.
  - ring.
  - rewrite IH. ring.
Qed.

Lemma totalBaseDelta_app (l1 l2 : list Trade.t) :
  totalBaseDelta (l1 ++ l2) == totalBaseDelta l1 + totalBaseDelta l2.
Proof.
  induction l1 as [|t l1 IH]; simpl.
  - ring.
  - rewrite IH. ring.
Qed.

Lemma sell_accountedFor (acc : Account.t) (log : list Trade.t)
  (np : Q) (nt : Z) (f s pf ps : Q) (e : TradingEngine) :
  accountedFor acc log e ->
  accountedFor acc log (after (_executeSellLogic np nt f s pf ps e)).
Proof.
  intros (new & acc' & Ht & Hacc & Hq & Hb).
  destruct (sell_cases np nt f s pf ps e)
    as [-> | (settings & acc1 & sale & _ & Hacc1 & _ & _ & ->)];
    [now exists new, acc'|].
  assert (acc1 = acc') by congruence. subst acc1.
  eexists (new ++ [_]), _.
  cbn [state onState soldState trades account set_openPositions set_trades
       set_tradeIdCounter set_account].
  split; [rewrite Ht, <- app_assoc; reflexivity|].
  split; [reflexivity|].
  rewrite totalQuoteDelta_app, totalBaseDelta_app.
  remember (totalQuoteDelta new) as dq. remember (totalBaseDelta new) as db.
  unfold totalQuoteDelta, totalBaseDelta, quoteDelta, baseDelta. simpl.
  rewrite Hq, Hb. split; ring.
Qed.

Lemma buy_accountedFor (acc : Account.t) (log : list Trade.t)
  (np : Q) (nt : Z) (f s pf ps : Q) (line : option Q) (e : TradingEngine) :
  ~ np == 0 ->
  accountedFor acc log e ->
  accountedFor acc log (after (_executeBuyLogic np nt f s pf ps line e)).
Proof.
  intros Hnp (new & acc' & Ht & Hacc & Hq & Hb).
  destruct (buy_cases np nt f s pf ps line e)
    as [-> | (settings & acc1 & _ & Hacc1 & _ & _ & _ & ->)];
    [now exists new, acc'|].
  assert (acc1 = acc') by congruence. subst acc1.
  eexists (new ++ [_]), _.
  cbn [state onState boughtState trades account set_openPositions set_trades
       set_tradeIdCounter set_account].
  split; [rewrite Ht, <- app_assoc; reflexivity|].
  split; [reflexivity|].
  rewrite totalQuoteDelta_app, totalBaseDelta_app.
  remember (totalQuoteDelta new) as dq. remember (totalBaseDelta new) as db.
  unfold totalQuoteDelta, totalBaseDelta, quoteDelta, baseDelta. simpl.
  rewrite Hq, Hb. split; field; exact Hnp.
Qed.

(** X16. Over a tick whose price is not zero, the account changes by
    exactly the trades the tick creates: quote by the sum of
    [+ amount * price] over its sales and [- amount * price] over its
    purchases, base by the sum of [- amount] over its sales and
    [+ amount] over its purchases. *)
Theorem tick_moves_the_account_by_its_trades (fetched : option Q) (now : Z)
  (e : TradingEngine) (acc : Account.t) :
  account (state e) = Some acc ->
  pricesNonZero fetched e ->
  exists acc',
    account (state (after (executeTick fetched now e))) = Some acc'
    /\ Account.quote acc'
       == Account.quote acc
          + totalQuoteDelta (createdBy (ExecuteTick fetched now) e)
    /\ Account.base acc'
       == Account.base acc
          + totalBaseDelta (createdBy (ExecuteTick fetched now) e).
Proof.
  intros Hacc (Hfetched & Hdata).
  assert (H : accountedFor acc (trades (state e))
                (after (executeTick fetched now e))).
  { assert (H0 : forall e', sameLedger e e' ->
                            accountedFor acc (trades (state e)) e').
    { intros e' (_ & Ha & Ht & _). exists [], acc.
      rewrite Ht, Ha, app_nil_r. simpl. repeat split; try assumption; ring. }
    destruct (executeTick_cases fetched now e)
      as [-> | [-> | [-> | (settings & np & nt & e' & _ & Hledger & _ & Hd
                            & Hprice & ->)]]].
    1-3: apply H0; repeat split.
    assert (Hnp : ~ np == 0).
    { destruct Hprice as [-> | (data & point & Hdata' & Hin & <-)].
      - now apply Hfetched.
      - now apply (Hdata data point). }
    apply processPrice_after.
    - apply H0. destruct Hledger as (H1 & H2 & H3 & H4 & H5).
      repeat split; assumption.
    - intros. now apply sell_accountedFor.
    - intros. now apply buy_accountedFor.
    - intros v e1 (new & acc' & H1 & H2 & H3 & H4).
      exists new, acc'. unfold trackAccountValue. simpl.
      repeat match goal with
             | |- context [if ?c then _ else _] => destruct c
             end; repeat split; assumption.
    - intros e1 H1. exact H1. }
  destruct H as (new & acc' & Ht & Hacc' & Hq & Hb).
  assert (Hcreated : createdBy (ExecuteTick fetched now) e = new).
  { unfold createdBy. simpl exec. rewrite Ht.
    now rewrite skipn_app, Nat.sub_diag, skipn_all. }
  exists acc'. rewrite Hcreated. repeat split; assumption.
Qed.

Lemma tick_moves_the_account_by_its_trades_witness :
  let e := Scenarios.beforeTrigger in
  exists acc acc',
    account (state e) = Some acc
    /\ pricesNonZero None e
    /\ account (state (after (executeTick None 0%Z e))) = Some acc'
    /\ Account.quote acc'
       == Account.quote acc + totalQuoteDelta (createdBy (ExecuteTick None 0%Z) e).
Proof.
  intro e.
  destruct (account (state e)) as [acc|] eqn:Hacc;
    [|vm_compute in Hacc; discriminate Hacc].
  assert (Hprices : pricesNonZero None e).
  { split; [discriminate|].
    intros data point Hdata Hin. vm_compute in Hdata.
    injection Hdata as <-.
    repeat (destruct Hin as [<- | Hin]; [discriminate|]). destruct Hin. }
  destruct (tick_moves_the_account_by_its_trades None 0%Z e acc Hacc Hprices)
    as (acc' & Hacc' & Hq & _).
  exists acc, acc'.
  split; [reflexivity|]. split; [exact Hprices|].
  split; [exact Hacc' | exact Hq].
Defined.

(** * Part IV: the server's state update *)

Lemma account_has_settings (cs : list Command) :
  account (state (run cs constructor)) = None
  \/ exists s, settings (state (run cs constructor)) = Some s.
Proof.
  apply (session_invariant
           (fun e => account (state e) = None
                     \/ exists settings, Engine.settings (state e) = Some settings)).
  - now left.
  - intros settings backtestData isLive fetched now e _ Hidle.
    unfold start. rewrite Hidle. right. exists settings.
    destruct backtestData as [[|first rest]|]; try destruct fetched;
      reflexivity.
  - apply executeTick_invariant; try (intros; assumption).
    + intros np nt f s pf ps e H.
      destruct (sell_cases np nt f s pf ps e)
        as [-> | (settings & acc & sale & Hs & _ & _ & _ & ->)]; [exact H|].
      right. now exists settings.
    + intros np nt f s pf ps line e H.
      destruct (buy_cases np nt f s pf ps line e)
        as [-> | (settings & acc & Hs & _ & _ & _ & _ & ->)]; [exact H|].
      right. now exists settings.
    + intros v e H. unfold trackAccountValue. simpl.
      repeat match goal with
             | |- context [if ?c then _ else _] => destruct c
             end; exact H.
  - intros; assumption.
  - intros e s _ _. right. now exists s.
  - intros; assumption.
Qed.

(** X17. In every state a session can reach, the update the server
    broadcasts has a replay progress between 0 and 100, which is 100
    exactly when a replay has consumed its whole series; and when no
    tick price of the session is zero, it has a defined profit: an
    account never comes without the settings whose initial balance the
    profit subtracts. *)
Theorem update_profit_and_progress (cs : list Command) :
  let s := state (run cs constructor) in
  (forallb divisorsNonZero cs = true -> Server.profit s <> None)
  /\ 0 <= Server.backtestProgress s <= 100
  /\ (Server.backtestProgress s == 100 <-> Server.exhausted s).
Proof.
  intro s. split; [|].
  - intros _. unfold Server.profit.
    destruct (account s) as [acc|] eqn:Hacc; [|discriminate].
    destruct (account_has_settings cs) as [Hnone | (settings & Hs)].
    + subst s. congruence.
    + subst s. rewrite Hs. discriminate.
  - pose proof (indexInSeries_all_sessions cs) as Hindex.
    unfold indexInSeries in Hindex. fold s in Hindex.
    unfold Server.backtestProgress, Server.exhausted.
    destruct (backtestData s) as [[|first rest]|] eqn:Hd.
    + split; [split; discriminate|].
      split; [discriminate|]. intros (data & Hdata & Hne & _).
      injection Hdata as <-. congruence.
    + specialize (Hindex _ eq_refl).
      set (n := length (first :: rest)) in *.
      assert (Hn : 0 < inject_Z (Z.of_nat n)).
      { change 0 with (inject_Z 0). rewrite <- Zlt_Qlt. subst n. simpl. lia. }
      assert (Hi : 0 <= inject_Z (Z.of_nat (backtestIndex s))).
      { change 0 with (inject_Z 0). rewrite <- Zle_Qle. lia. }
      assert (Hle : inject_Z (Z.of_nat (backtestIndex s))
                    <= inject_Z (Z.of_nat n)).
      { rewrite <- Zle_Qle. lia. }
      assert (Hdiv : 0 <= inject_Z (Z.of_nat (backtestIndex s))
                          / inject_Z (Z.of_nat n) <= 1).
      { split.
        - apply Qle_shift_div_l; [exact Hn | lra].
        - apply Qle_shift_div_r; [exact Hn | lra]. }
      split; [split; lra|].
      split.
      * intro H100. exists (first :: rest).
        split; [reflexivity|]. split; [discriminate|].
        assert (Heq : inject_Z (Z.of_nat (backtestIndex s))
                      == inject_Z (Z.of_nat n)).
        { assert (H1 : inject_Z (Z.of_nat (backtestIndex s))
                       / inject_Z (Z.of_nat n) == 1) by lra.
          rewrite <- (Qmult_div_r (inject_Z (Z.of_nat (backtestIndex s)))
                        (inject_Z (Z.of_nat n))) by lra.
          rewrite H1. ring. }
        rewrite inject_Z_injective in Heq. fold n. lia.
      * intros (data & Hdata & _ & Hlen). injection Hdata as <-.
        fold n in Hlen. rewrite Hlen. field. lra.
    + split; [split; discriminate|].
      split; [discriminate|]. intros (data & Hdata & _). discriminate Hdata.
Qed.

Lemma update_profit_and_progress_witness :
  let cs :=
    Samples.replay (Samples.sampleSettings 50 0 5) Samples.risingSeries 18 in
  forallb divisorsNonZero cs = true
  /\ Server.profit (state (run cs constructor)) <> None.
Proof.
  intro cs.
  assert (H : forallb divisorsNonZero cs = true) by (vm_compute; reflexivity).
  split; [exact H|].
  exact (proj1 (update_profit_and_progress cs) H).
Defined.

(** * Part V: the historical candles *)

Module CoinbaseFacts.

Import Coinbase.

Lemma ceilDiv_spec (a b q : Z) :
  (0 < b)%Z ->
  (ceilDiv a b = q <-> ((q - 1) * b < a <= q * b))%Z.
Proof.
  intro Hb. unfold ceilDiv.
  pose proof (Z.div_mod (- a) b ltac:(lia)) as Hdiv.
  pose proof (Z.mod_pos_bound (- a) b Hb) as Hmod.
  split; intro H.
  - subst q. nia.
  - assert (Hq : ((- a) / b = - q)%Z).
    { symmetry. apply (Z.div_unique (- a) b (- q) (- a - b * - q)); lia. }
    lia.
Qed.

Lemma ceilDiv_step (chunk endMs cur : Z) :
  (0 < chunk)%Z -> (cur < endMs)%Z ->
  (ceilDiv (endMs - Z.min endMs (cur + chunk)) chunk
   = ceilDiv (endMs - cur) chunk - 1)%Z
  /\ (1 <= ceilDiv (endMs - cur) chunk)%Z.
Proof.
  intros Hchunk Hlt.
  pose proof (proj1 (ceilDiv_spec (endMs - cur) chunk _ Hchunk) eq_refl) as H.
  set (q := ceilDiv (endMs - cur) chunk) in *.
  assert (Hq : (1 <= q)%Z) by nia.
  split; [|exact Hq].
  apply ceilDiv_spec; [exact Hchunk|].
  destruct (Z.min_spec endMs (cur + chunk)) as [(Hc & ->) | (Hc & ->)].
  - assert (q = 1)%Z by nia. subst q. lia.
  - replace ((q - 1 - 1) * chunk)%Z with ((q - 1) * chunk - chunk)%Z by ring.
    replace ((q - 1) * chunk)%Z with (q * chunk - chunk)%Z in * by ring.
    lia.
Qed.

Lemma fetchChunks_complete (exchange : Exchange) (chunk endMs : Z) :
  (0 < chunk)%Z ->
  answering exchange ->
  forall fuel n cur all,
    (cur <= endMs)%Z ->
    (Z.to_nat (ceilDiv (endMs - cur) chunk) <= fuel)%nat ->
    exists requests,
      fetchChunks fuel exchange n chunk endMs cur all
      = Some (requests, Candles (all ++ answered exchange n requests))
      /\ Z.of_nat (length requests) = ceilDiv (endMs - cur) chunk
      /\ chained chunk cur endMs requests.
Proof.
  intros Hchunk Hanswer.
  induction fuel as [|fuel IH]; intros n cur all Hle Hfuel.
  - destruct (Z.ltb_spec cur endMs) as [Hlt|Hge].
    + destruct (ceilDiv_step chunk endMs cur Hchunk Hlt) as (_ & H1). lia.
    + assert (cur = endMs) by lia. subst cur.
      exists []. simpl. rewrite Z.ltb_irrefl, app_nil_r.
      split; [reflexivity|]. split; [|reflexivity].
      rewrite Z.sub_diag. reflexivity.
  - simpl. destruct (Z.ltb_spec cur endMs) as [Hlt|Hge].
    + destruct (ceilDiv_step chunk endMs cur Hchunk Hlt) as (Hstep & H1).
      set (next := Z.min endMs (cur + chunk)) in *.
      destruct (Hanswer n cur next) as (answer & Hn). rewrite Hn.
      destruct (IH (S n) next
                  (match answer with
                   | Some candles => all ++ candles
                   | None => all
                   end))
        as (requests & Hrun & Hlen & Hchain); [lia | lia |].
      rewrite Hrun. exists ((cur, next) :: requests).
      split; [|split].
      * simpl. rewrite Hn. destruct answer.
        -- rewrite app_assoc. reflexivity.
        -- reflexivity.
      * simpl length. lia.
      * simpl. repeat split; try assumption; lia.
    + assert (cur = endMs) by lia. subst cur.
      exists []. rewrite app_nil_r.
      split; [reflexivity|]. split; [|reflexivity].
      rewrite Z.sub_diag. reflexivity.
Qed.

(** X18. With a positive granularity, a start not after the end and an
    exchange that answers, [getHistoricalData] returns after exactly
    [ceil((end - start) / (300 * granularity * 1000))] requests; the
    requests go from the start to the end, each from where the one
    before ended, each over a range that is not empty and not longer
    than 300 candles. *)
Theorem history_is_fetched_in_chained_chunks (fuel : nat) (exchange : Exchange)
  (startMs endMs granularity : Z) :
  (0 < granularity)%Z ->
  (startMs <= endMs)%Z ->
  answering exchange ->
  (Z.to_nat (ceilDiv (endMs - startMs) (300 * granularity * 1000)) <= fuel)%nat ->
  exists requests candles,
    getHistoricalData fuel exchange startMs endMs granularity
    = Some (requests, candles)
    /\ Z.of_nat (length requests)
       = ceilDiv (endMs - startMs) (300 * granularity * 1000)
    /\ chained (300 * granularity * 1000) startMs endMs requests.
Proof.
  intros Hg Hle Hanswer Hfuel.
  destruct (fetchChunks_complete exchange (300 * granularity * 1000) endMs
              ltac:(lia) Hanswer fuel 0%nat startMs [] Hle Hfuel)
    as (requests & Hrun & Hlen & Hchain).
  unfold getHistoricalData. rewrite Hrun.
  eexists requests, _. split; [reflexivity|]. split; assumption.
Qed.

Lemma fetchChunks_stuck (exchange : Exchange) (chunk endMs : Z) :
  chunk = 0%Z ->
  answering exchange ->
  forall fuel n cur all,
    (cur < endMs)%Z ->
    fetchChunks fuel exchange n chunk endMs cur all = None.
Proof.
  intros Hchunk Hanswer.
  induction fuel as [|fuel IH]; intros n cur all Hlt; simpl.
  - now replace (cur <? endMs)%Z with true by (symmetry; now apply Z.ltb_lt).
  - replace (cur <? endMs)%Z with true by (symmetry; now apply Z.ltb_lt).
    destruct (Hanswer n cur (Z.min endMs (cur + chunk))) as (answer & ->).
    rewrite IH; [reflexivity | lia].
Qed.

(** X19. With a granularity of zero and a start before the end, the
    loop of [getHistoricalData] makes no progress: every chunk ends
    where it starts, and as long as the exchange answers, the call never
    returns, however many rounds the loop is given. *)
Theorem history_with_zero_granularity_never_returns
  (exchange : Exchange) (startMs endMs : Z) :
  (startMs < endMs)%Z ->
  answering exchange ->
  forall fuel,
    getHistoricalData fuel exchange startMs endMs 0 = None.
Proof.
  intros Hlt Hanswer fuel. unfold getHistoricalData.
  rewrite fetchChunks_stuck;
    [reflexivity | reflexivity | exact Hanswer | exact Hlt].
Qed.



Lemma answering_sampleExchange : answering CoinbaseNotions.sampleExchange.
Proof. intros n a b. eexists. reflexivity. Qed.

Lemma history_is_fetched_in_chained_chunks_witness :
  (0 < 60)%Z
  /\ (0 <= 40000000)%Z
  /\ answering CoinbaseNotions.sampleExchange
  /\ (Z.to_nat (ceilDiv (40000000 - 0) (300 * 60 * 1000)) <= 5)%nat
  /\ exists requests candles,
       getHistoricalData 5 CoinbaseNotions.sampleExchange 0 40000000 60
       = Some (requests, candles)
       /\ Z.of_nat (length requests) = ceilDiv (40000000 - 0) (300 * 60 * 1000)
       /\ chained (300 * 60 * 1000) 0 40000000 requests.
Proof.
  assert (H1 : (0 < 60)%Z) by reflexivity.
  assert (H2 : (0 <= 40000000)%Z) by discriminate.
  assert (H4 : (Z.to_nat (ceilDiv (40000000 - 0) (300 * 60 * 1000)) <= 5)%nat)
    by (vm_compute; lia).
  split; [exact H1|]. split; [exact H2|].
  split; [exact answering_sampleExchange|]. split; [exact H4|].
  exact (history_is_fetched_in_chained_chunks 5 CoinbaseNotions.sampleExchange
           0 40000000 60 H1 H2 answering_sampleExchange H4).
Defined.

Lemma history_with_zero_granularity_never_returns_witness :
  (0 < 40000000)%Z
  /\ answering CoinbaseNotions.sampleExchange
  /\ getHistoricalData 1000 CoinbaseNotions.sampleExchange 0 40000000 0
     = None.
Proof.
  assert (H : (0 < 40000000)%Z) by reflexivity.
  split; [exact H|]. split; [exact answering_sampleExchange|].
  exact (history_with_zero_granularity_never_returns
           CoinbaseNotions.sampleExchange 0 40000000 H
           answering_sampleExchange 1000%nat).
Defined.


End CoinbaseFacts.

(** ** The candles returned: no duplicates, in the order of time *)

Module CandleFacts.

Import Coinbase CoinbaseNotions.

Section MapEntries.
Context {V : Type}.

Lemma lookup_mapSet (k k' : Z) (v : V) (m : list (Z * V)) :
  lookup k' (mapSet k v m) = if (k' =? k)%Z then Some v else lookup k' m.
Proof.
  unfold lookup. induction m as [|[k0 v0] rest IH]; simpl.
  - rewrite (Z.eqb_sym k k'). destruct (k' =? k)%Z; reflexivity.
  - destruct (Z.eqb_spec k k0) as [->|Hne]; simpl.
    + destruct (Z.eqb_spec k0 k') as [->|Hne'].
      * now rewrite Z.eqb_refl.
      * replace (k' =? k0)%Z with false
          by (symmetry; apply Z.eqb_neq; congruence).
        reflexivity.
    + destruct (Z.eqb_spec k0 k') as [->|Hne'].
      * replace (k' =? k)%Z with false
          by (symmetry; apply Z.eqb_neq; congruence).
        reflexivity.
      * exact IH.
Qed.

Lemma in_keys_mapSet (k k' : Z) (v : V) (m : list (Z * V)) :
  In k' (map fst (mapSet k v m)) <-> k' = k \/ In k' (map fst m).
Proof.
  induction m as [|[k0 v0] rest IH]; simpl.
  - intuition.
  - destruct (Z.eqb_spec k k0) as [->|Hne]; simpl.
    + intuition.
    + rewrite IH. intuition.
Qed.

Lemma NoDup_keys_mapSet (k : Z) (v : V) (m : list (Z * V)) :
  NoDup (map fst m) -> NoDup (map fst (mapSet k v m)).
Proof.
  induction m as [|[k0 v0] rest IH]; simpl; intro H.
  - repeat constructor. intros [].
  - inversion H as [|? ? Hnotin Hrest]; subst.
    destruct (Z.eqb_spec k k0) as [->|Hne]; simpl.
    + constructor; assumption.
    + constructor; [|now apply IH].
      rewrite in_keys_mapSet. intros [Heq | Hin]; congruence.
Qed.

Lemma in_lookup (k : Z) (v : V) (m : list (Z * V)) :
  NoDup (map fst m) ->
  (In (k, v) m <-> lookup k m = Some v).
Proof.
  unfold lookup. induction m as [|[k0 v0] rest IH]; simpl; intro H.
  - split; [intros [] | discriminate].
  - inversion H as [|? ? Hnotin Hrest]; subst.
    destruct (Z.eqb_spec k0 k) as [->|Hne]; simpl.
    + split.
      * intros [Heq | Hin]; [congruence|].
        exfalso. apply Hnotin. apply (in_map fst) in Hin. exact Hin.
      * intro Heq. left. congruence.
    + rewrite <- (IH Hrest). split.
      * intros [Heq | Hin]; [congruence | exact Hin].
      * intro Hin. now right.
Qed.

End MapEntries.

Lemma find_append {A : Type} (p : A -> bool) (l1 l2 : list A) :
  find p (l1 ++ l2)
  = match find p l1 with
    | Some x => Some x
    | None => find p l2
    end.
Proof.
  induction l1 as [|a l1 IH]; simpl.
  - reflexivity.
  - destruct (p a); [reflexivity | exact IH].
Qed.

Lemma lastWithTime_cons (t : Z) (x : RawCandle) (items : list RawCandle) :
  lastWithTime t (x :: items)
  = match lastWithTime t items with
    | Some v => Some v
    | None => if (r_time x =? t)%Z then Some x else None
    end.
Proof.
  unfold lastWithTime. simpl. rewrite find_append.
  destruct (find _ (rev items)); [reflexivity|]. simpl.
  destruct (r_time x =? t)%Z; reflexivity.
Qed.

Lemma lookup_fold_mapSet (t : Z) (items : list RawCandle) :
  forall m,
    lookup t (fold_left (fun entries item => mapSet (r_time item) item entries)
                items m)
    = match lastWithTime t items with
      | Some v => Some v
      | None => lookup t m
      end.
Proof.
  induction items as [|x rest IH]; intro m; simpl.
  - reflexivity.
  - rewrite IH, lastWithTime_cons, lookup_mapSet.
    destruct (lastWithTime t rest); [reflexivity|].
    rewrite (Z.eqb_sym t). destruct (r_time x =? t)%Z; reflexivity.
Qed.

Lemma NoDup_keys_fold_mapSet (items : list RawCandle) :
  forall m,
    NoDup (map fst m) ->
    NoDup (map fst (fold_left
                      (fun entries item => mapSet (r_time item) item entries)
                      items m)).
Proof.
  induction items as [|x rest IH]; intros m H; simpl.
  - exact H.
  - apply IH. now apply NoDup_keys_mapSet.
Qed.

Lemma lastWithTime_time (t : Z) (items : list RawCandle) (v : RawCandle) :
  lastWithTime t items = Some v -> r_time v = t /\ In v items.
Proof.
  unfold lastWithTime. intro H. apply find_some in H.
  destruct H as (Hin & Ht). split.
  - now apply Z.eqb_eq.
  - now apply in_rev.
Qed.

(** The map of the candles: one entry for each time, holding the last
    candle with that time. *)
Lemma mapOf_spec (items : list RawCandle) :
  NoDup (map fst (mapOf items))
  /\ (forall t v, In (t, v) (mapOf items) <-> lastWithTime t items = Some v).
Proof.
  assert (Hnodup : NoDup (map fst (mapOf items))).
  { apply NoDup_keys_fold_mapSet. constructor. }
  split; [exact Hnodup|].
  intros t v. rewrite (in_lookup t v _ Hnodup).
  unfold mapOf. rewrite lookup_fold_mapSet.
  destruct (lastWithTime t items); [reflexivity|].
  split; discriminate.
Qed.

Lemma insert_perm (c : Candle) (l : list Candle) :
  Permutation (insert c l) (c :: l).
Proof.
  induction l as [|h rest IH]; simpl.
  - reflexivity.
  - destruct (time c <? time h)%Z; [reflexivity|].
    rewrite IH. apply perm_swap.
Qed.

Lemma insert_sorted (c : Candle) (l : list Candle) :
  StronglySorted (fun a b => (time a <= time b)%Z) l ->
  StronglySorted (fun a b => (time a <= time b)%Z) (insert c l).
Proof.
  induction 1 as [|h rest Hsorted IH Hall]; simpl.
  - repeat constructor.
  - destruct (Z.ltb_spec (time c) (time h)) as [Hlt|Hge].
    + constructor; [now constructor|].
      constructor; [lia|].
      eapply Forall_impl; [|exact Hall]. simpl. intros; lia.
    + constructor; [exact IH|].
      rewrite (Forall_forall). intros x Hin.
      apply (Permutation_in _ (insert_perm c rest)) in Hin.
      destruct Hin as [<- | Hin]; [exact Hge|].
      rewrite Forall_forall in Hall. now apply Hall.
Qed.

Lemma fold_insert_spec (l : list Candle) :
  forall acc,
    StronglySorted (fun a b => (time a <= time b)%Z) acc ->
    StronglySorted (fun a b => (time a <= time b)%Z)
      (fold_left (fun sorted c => insert c sorted) l acc)
    /\ Permutation (fold_left (fun sorted c => insert c sorted) l acc) (l ++ acc).
Proof.
  induction l as [|c rest IH]; intros acc Hacc; simpl.
  - split; [exact Hacc | reflexivity].
  - destruct (IH (insert c acc) (insert_sorted c acc Hacc)) as (Hs & Hp).
    split; [exact Hs|].
    rewrite Hp, insert_perm. symmetry. apply Permutation_middle.
Qed.

Lemma sort_spec (l : list Candle) :
  StronglySorted (fun a b => (time a <= time b)%Z) (sort l)
  /\ Permutation (sort l) l.
Proof.
  destruct (fold_insert_spec l [] ltac:(constructor)) as (Hs & Hp).
  split; [exact Hs|]. now rewrite app_nil_r in Hp.
Qed.

Lemma sorted_strict (l : list Candle) :
  StronglySorted (fun a b => (time a <= time b)%Z) l ->
  NoDup (map time l) ->
  StronglySorted (fun a b => (time a < time b)%Z) l.
Proof.
  induction 1 as [|h rest Hsorted IH Hall]; intro Hnodup.
  - constructor.
  - simpl in Hnodup. inversion Hnodup as [|? ? Hnotin Hrest]; subst.
    constructor; [now apply IH|].
    rewrite Forall_forall in *. intros x Hin.
    specialize (Hall x Hin).
    assert (time x <> time h).
    { intro Heq. apply Hnotin. rewrite <- Heq. now apply in_map. }
    lia.
Qed.

Lemma fetchChunks_candles (exchange : Exchange) (chunk endMs : Z) :
  forall fuel n cur all requests all',
    fetchChunks fuel exchange n chunk endMs cur all
    = Some (requests, Candles all') ->
    all' = all ++ answered exchange n requests.
Proof.
  induction fuel as [|fuel IH]; intros n cur all requests all' Hrun;
    simpl in Hrun.
  - destruct (cur <? endMs)%Z; [discriminate|].
    injection Hrun as <- <-. now rewrite app_nil_r.
  - destruct (cur <? endMs)%Z;
      [|injection Hrun as <- <-; now rewrite app_nil_r].
    destruct (exchange n cur (Z.min endMs (cur + chunk))) as [st tx|answer]
      eqn:Hn; [discriminate|].
    destruct (fetchChunks fuel exchange (S n) chunk endMs
                (Z.min endMs (cur + chunk)) _)
      as [[requests' fetched']|] eqn:Hrest; [|discriminate].
    injection Hrun as <- ->.
    rewrite (IH _ _ _ _ _ Hrest). simpl. rewrite Hn.
    destruct answer; [now rewrite app_assoc | reflexivity].
Qed.

Lemma fetchChunks_thrown (exchange : Exchange) (chunk endMs : Z) :
  forall fuel n cur all requests,
    fetchChunks fuel exchange n chunk endMs cur all = Some (requests, Thrown) ->
    exists i a b status text,
      nth_error requests i = Some (a, b)
      /\ exchange (n + i)%nat a b = NotOk status text.
Proof.
  induction fuel as [|fuel IH]; intros n cur all requests Hrun; simpl in Hrun.
  - destruct (cur <? endMs)%Z; discriminate.
  - destruct (cur <? endMs)%Z; [|discriminate].
    destruct (exchange n cur (Z.min endMs (cur + chunk))) as [st tx|answer]
      eqn:Hn.
    + injection Hrun as <-. exists 0%nat, cur, (Z.min endMs (cur + chunk)), st, tx.
      rewrite Nat.add_0_r. split; [reflexivity | exact Hn].
    + destruct (fetchChunks fuel exchange (S n) chunk endMs
                  (Z.min endMs (cur + chunk)) _)
        as [[requests' fetched']|] eqn:Hrest; [|discriminate].
      injection Hrun as <- ->.
      destruct (IH _ _ _ _ Hrest) as (i & a & b & st & tx & Hnth & Hfail).
      exists (S i), a, b, st, tx. split; [exact Hnth|].
      now replace (n + S i)%nat with (S n + i)%nat by lia.
Qed.

Lemma unique_times (items : list RawCandle) :
  NoDup (map time (map convert (values (mapOf items)))).
Proof.
  destruct (mapOf_spec items) as (Hnodup & Hspec).
  assert (Hkeys : map time (map convert (values (mapOf items)))
                  = map (fun k => k * 1000)%Z (map fst (mapOf items))).
  { unfold values. rewrite !map_map. apply map_ext_in.
    intros [t v] Hin. simpl.
    apply Hspec in Hin. apply lastWithTime_time in Hin.
    destruct Hin as (-> & _). reflexivity. }
  rewrite Hkeys. apply NoDup_map_NoDup_ForallPairs; [|exact Hnodup].
  intros x y _ _ H. lia.
Qed.

(** X21. The candles [getHistoricalData] returns are in the strict order
    of their times, so no time occurs twice; and when every request was
    answered, they are exactly the candles fetched, converted, one for
    each time: the last candle fetched with that time. *)
Theorem history_is_ordered_and_deduplicated (fuel : nat) (exchange : Exchange)
  (startMs endMs granularity : Z) (requests : list (Z * Z))
  (candles : list Candle) :
  getHistoricalData fuel exchange startMs endMs granularity
  = Some (requests, candles) ->
  StronglySorted (fun c d => (time c < time d)%Z) candles
  /\ (allAnswered exchange requests ->
      forall c,
        In c candles
        <-> exists t raw,
              lastWithTime t (answered exchange 0 requests) = Some raw
              /\ c = convert raw).
Proof.
  unfold getHistoricalData. intro Hrun.
  destruct (fetchChunks fuel exchange 0 (300 * granularity * 1000) endMs startMs [])
    as [[requests' [all|]]|] eqn:Hchunks; [| |discriminate];
    injection Hrun as <- <-.
  - pose proof (fetchChunks_candles _ _ _ _ _ _ _ _ _ Hchunks) as Hall.
    simpl in Hall. subst all.
    set (all := answered exchange 0 requests') in *.
    destruct (sort_spec (map convert (values (mapOf all)))) as (Hsorted & Hperm).
    split.
    + apply sorted_strict; [exact Hsorted|].
      eapply Permutation_NoDup;
        [apply Permutation_map; symmetry; exact Hperm|].
      apply unique_times.
    + intros _ c. destruct (mapOf_spec all) as (_ & Hspec). split.
      * intro Hin. apply (Permutation_in _ Hperm) in Hin.
        apply in_map_iff in Hin. destruct Hin as (raw & <- & Hin).
        unfold values in Hin. apply in_map_iff in Hin.
        destruct Hin as ([t v] & <- & Hin). simpl.
        exists t, v. split; [now apply Hspec | reflexivity].
      * intros (t & raw & Hlast & ->).
        apply (Permutation_in _ (Permutation_sym Hperm)).
        apply in_map. unfold values.
        apply in_map_iff. exists (t, raw). split; [reflexivity|].
        now apply Hspec.
  - split; [constructor|].
    intro Hanswered.
    destruct (fetchChunks_thrown _ _ _ _ _ _ _ _ Hchunks)
      as (i & a & b & st & tx & Hnth & Hfail).
    destruct (Hanswered i a b Hnth) as (chunk & Hjson).
    simpl in Hfail. congruence.
Qed.

Lemma history_is_ordered_and_deduplicated_witness :
  exists requests candles,
    getHistoricalData 5 repeatingExchange 0 40000000 60
    = Some (requests, candles)
    /\ allAnswered repeatingExchange requests
    /\ map time candles = [60000; 120000]%Z
    /\ StronglySorted (fun c d => (time c < time d)%Z) candles.
Proof.
  destruct (getHistoricalData 5 repeatingExchange 0 40000000 60)
    as [[requests candles]|] eqn:Hrun; [|vm_compute in Hrun; discriminate Hrun].
  exists requests, candles.
  split; [reflexivity|].
  split; [intros i a b _; eexists; reflexivity|].
  split; [vm_compute in Hrun; injection Hrun as <- <-; reflexivity|].
  exact (proj1 (history_is_ordered_and_deduplicated 5 repeatingExchange 0
                  40000000 60 requests candles Hrun)).
Defined.

End CandleFacts.

(** * Part VI: the granularity helper *)

Module GranularityFacts.

Import Coinbase Granularity.

Lemma ceilDiv_le (a b n : Z) :
  (0 < b)%Z -> (ceilDiv a b <= n <-> a <= n * b)%Z.
Proof.
  intro Hb.
  pose proof (proj1 (CoinbaseFacts.ceilDiv_spec a b _ Hb) eq_refl) as H.
  set (q := ceilDiv a b) in *. split; intro Hle; nia.
Qed.

Lemma ceilDiv_nested (a b c : Z) :
  (0 < b)%Z -> (0 < c)%Z -> ceilDiv (ceilDiv a b) c = ceilDiv a (c * b).
Proof.
  intros Hb Hc. symmetry.
  apply CoinbaseFacts.ceilDiv_spec; [lia|].
  pose proof (proj1 (CoinbaseFacts.ceilDiv_spec (ceilDiv a b) c _ Hc) eq_refl)
    as H1.
  set (q := ceilDiv (ceilDiv a b) c) in *.
  destruct H1 as (Hlow & Hhigh).
  apply (ceilDiv_le a b (q * c) Hb) in Hhigh.
  assert (Hlow' : ~ (ceilDiv a b <= (q - 1) * c)%Z) by lia.
  rewrite (ceilDiv_le a b ((q - 1) * c) Hb) in Hlow'.
  replace ((q - 1) * (c * b))%Z with ((q - 1) * c * b)%Z by ring.
  replace (q * (c * b))%Z with (q * c * b)%Z by ring.
  lia.
Qed.

Lemma durationDays_le (startDate endDate : Z) (q : Q) :
  Qle_bool (durationDays startDate endDate) q
  = ((endDate - startDate) * QDen q <=? Qnum q * 86400000)%Z.
Proof.
  apply eq_iff_eq_true. rewrite Qle_bool_iff, Z.leb_le.
  unfold durationDays, Qle, Qdiv, Qmult, Qinv. simpl. lia.
Qed.

Lemma durationDays_Qle (startDate endDate : Z) (q : Q) :
  durationDays startDate endDate <= q
  <-> ((endDate - startDate) * QDen q <= Qnum q * 86400000)%Z.
Proof.
  rewrite <- Qle_bool_iff, durationDays_le. apply Z.leb_le.
Qed.

Lemma durationDays_Qlt (startDate endDate : Z) (q : Q) :
  q < durationDays startDate endDate
  <-> (Qnum q * 86400000 < (endDate - startDate) * QDen q)%Z.
Proof.
  split.
  - intro Hlt. apply Z.nle_gt. intro Hle.
    apply durationDays_Qle in Hle. exact (Qlt_not_le _ _ Hlt Hle).
  - intro Hlt. apply Qnot_le_lt. intro Hle.
    apply durationDays_Qle in Hle. lia.
Qed.

(** The options, as pairs of a value and its recommended maximal
    duration. *)
Lemma options_of_getAllGranularities :
  map (fun g => (value g, maxDurationDays g)) getAllGranularities
  = [(60, 1); (300, 5); (900, 15); (3600, 60); (21600, 180); (86400, 365)]%Z.
Proof. reflexivity. Qed.

(** The test of the filter on an option of the list: the bound on the
    duration decides alone. *)
Lemma filter_test (startDate endDate : Z) (g : GranularityOption) :
  In g getAllGranularities ->
  let d := (endDate - startDate)%Z in
  ((calculateTotalCandles startDate endDate (value g) <=? 10000)%Z
   && Qle_bool (durationDays startDate endDate)
        (inject_Z (maxDurationDays g) * (3 # 2))
   = (2 * d <=? 3 * maxDurationDays g * 86400000)%Z)
  /\ ((2 * d <= 3 * maxDurationDays g * 86400000)%Z ->
      (calculateTotalCandles startDate endDate (value g) <= 2160)%Z).
Proof.
  intros Hin d.
  assert (Hsmall : (2 * d <= 3 * maxDurationDays g * 86400000)%Z ->
                   (calculateTotalCandles startDate endDate (value g) <= 2160)%Z).
  { intro Hd. unfold calculateTotalCandles. fold d.
    simpl in Hin.
    repeat (destruct Hin as [<- | Hin]; [apply ceilDiv_le; cbn [value maxDurationDays] in *;
       unfold ONE_MINUTE, FIVE_MINUTES, FIFTEEN_MINUTES, ONE_HOUR, SIX_HOURS,
         ONE_DAY; lia|]).
    destruct Hin. }
  split; [|exact Hsmall].
  rewrite durationDays_le. fold d.
  assert (Hden : ((d * QDen (inject_Z (maxDurationDays g) * (3 # 2))
                   <=? Qnum (inject_Z (maxDurationDays g) * (3 # 2)) * 86400000)
                  = (2 * d <=? 3 * maxDurationDays g * 86400000))%Z).
  { unfold Qmult, inject_Z. cbn [Qnum Qden].
    change (Z.pos (1 * 2)) with 2%Z.
    apply eq_iff_eq_true. rewrite !Z.leb_le. lia. }
  rewrite Hden.
  destruct (Z.leb_spec (2 * d) (3 * maxDurationDays g * 86400000)) as [Hd|Hd].
  - rewrite andb_true_r. apply Z.leb_le. specialize (Hsmall Hd). lia.
  - apply andb_false_r.
Qed.

Lemma available_iff (startDate endDate : Z) (g : GranularityOption) :
  In g (getAvailableGranularities startDate endDate)
  <-> In g getAllGranularities
      /\ (2 * (endDate - startDate) <= 3 * maxDurationDays g * 86400000)%Z.
Proof.
  unfold getAvailableGranularities. rewrite filter_In.
  split; intros (Hin & Htest); (split; [exact Hin|]);
    destruct (filter_test startDate endDate g Hin) as (Heq & _);
    cbv zeta in Heq.
  - rewrite Heq in Htest. now apply Z.leb_le.
  - rewrite Heq. now apply Z.leb_le.
Qed.

(** X22. Of the two tests of [getAvailableGranularities], the bound of
    10000 candles never excludes a granularity: the available options
    are the options whose recommended duration, times 1.5, covers the
    range; and an available option needs at most 2160 candles, which are
    at most 8 requests. *)
Theorem candle_bound_never_excludes_a_granularity
  (startDate endDate : Z) (g : GranularityOption) :
  (In g (getAvailableGranularities startDate endDate)
   <-> In g getAllGranularities
       /\ durationDays startDate endDate
          <= inject_Z (maxDurationDays g) * (3 # 2))
  /\ (In g (getAvailableGranularities startDate endDate) ->
      (calculateTotalCandles startDate endDate (value g) <= 2160)%Z
      /\ (calculateRequiredRequests startDate endDate (value g) <= 8)%Z).
Proof.
  assert (Hdays : durationDays startDate endDate
                  <= inject_Z (maxDurationDays g) * (3 # 2)
                  <-> (2 * (endDate - startDate)
                       <= 3 * maxDurationDays g * 86400000)%Z).
  { rewrite durationDays_Qle. unfold Qmult, inject_Z. cbn [Qnum Qden].
    change (Z.pos (1 * 2)) with 2%Z. lia. }
  split.
  - rewrite available_iff, Hdays. reflexivity.
  - intro Hin. apply available_iff in Hin. destruct Hin as (Hin & Hd).
    destruct (filter_test startDate endDate g Hin) as (_ & Hsmall).
    specialize (Hsmall Hd). split; [exact Hsmall|].
    unfold calculateRequiredRequests. apply ceilDiv_le; lia.
Qed.

Lemma available_values (startDate endDate v : Z) :
  In v (map value (getAvailableGranularities startDate endDate))
  <-> exists m,
        In (v, m)
          [(60, 1); (300, 5); (900, 15); (3600, 60); (21600, 180);
           (86400, 365)]%Z
        /\ (2 * (endDate - startDate) <= 3 * m * 86400000)%Z.
Proof.
  rewrite <- options_of_getAllGranularities, in_map_iff. split.
  - intros (g & <- & Hin). apply available_iff in Hin.
    destruct Hin as (Hin & Hd). exists (maxDurationDays g).
    split; [|exact Hd].
    apply in_map_iff. exists g. split; [reflexivity | exact Hin].
  - intros (m & Hin & Hd). apply in_map_iff in Hin.
    destruct Hin as (g & Heq & Hin). injection Heq as <- <-.
    exists g. split; [reflexivity|]. apply available_iff. split; assumption.
Qed.

(** X23. The granularity [getRecommendedGranularity] recommends for a
    range is among those [getAvailableGranularities] offers for it
    exactly when the range is at most 22.5 days, or more than 30 and at
    most 547.5 days. *)
Theorem recommended_granularity_is_available_iff (startDate endDate : Z) :
  In (getRecommendedGranularity startDate endDate)
    (map value (getAvailableGranularities startDate endDate))
  <-> durationDays startDate endDate <= 45 # 2
      \/ (30 < durationDays startDate endDate
          /\ durationDays startDate endDate <= 1095 # 2).
Proof.
  rewrite available_values, !durationDays_Qle, durationDays_Qlt.
  unfold getRecommendedGranularity. rewrite !durationDays_le.
  set (d := (endDate - startDate)%Z).
  unfold ONE_MINUTE, FIVE_MINUTES, FIFTEEN_MINUTES, ONE_HOUR, SIX_HOURS,
    ONE_DAY.
  change (Qnum 1) with 1%Z. change (QDen 1) with 1%Z.
  change (Qnum 7) with 7%Z. change (QDen 7) with 1%Z.
  change (Qnum 30) with 30%Z. change (QDen 30) with 1%Z.
  change (Qnum 90) with 90%Z. change (QDen 90) with 1%Z.
  change (Qnum 180) with 180%Z. change (QDen 180) with 1%Z.
  change (Qnum (45 # 2)) with 45%Z. change (QDen (45 # 2)) with 2%Z.
  change (Qnum (1095 # 2)) with 1095%Z. change (QDen (1095 # 2)) with 2%Z.
  repeat match goal with
         | |- context [(?a <=? ?b)%Z] => destruct (Z.leb_spec a b)
         end;
    (split;
     [ intros (m & Hin & Hd); simpl in Hin;
       repeat (destruct Hin as [Heq | Hin];
               [try discriminate Heq; inversion Heq; subst m; lia|]);
       destruct Hin
     | intro Hrange; eexists; split; [simpl; eauto 10 | lia] ]).
Qed.

(** X24. The number of requests [calculateRequiredRequests] announces
    for a range is the number of requests [getHistoricalData] makes for
    it, with a positive granularity and an exchange that answers; for a
    range that ends before it starts the announced number is zero or
    negative and no request is made. *)
Theorem required_requests_are_the_requests_made (fuel : nat)
  (exchange : Exchange) (startMs endMs granularity : Z) :
  (0 < granularity)%Z ->
  answering exchange ->
  (Z.to_nat (calculateRequiredRequests startMs endMs granularity) <= fuel)%nat ->
  exists requests candles,
    getHistoricalData fuel exchange startMs endMs granularity
    = Some (requests, candles)
    /\ Z.of_nat (length requests)
       = Z.max 0 (calculateRequiredRequests startMs endMs granularity).
Proof.
  intros Hg Hanswer Hfuel.
  assert (Hsame : calculateRequiredRequests startMs endMs granularity
                  = ceilDiv (endMs - startMs) (300 * granularity * 1000)).
  { unfold calculateRequiredRequests, calculateTotalCandles. cbv zeta.
    rewrite ceilDiv_nested by lia. f_equal. ring. }
  rewrite Hsame in *.
  destruct (Z_le_gt_dec startMs endMs) as [Hle|Hgt].
  - destruct (CoinbaseFacts.fetchChunks_complete exchange
                (300 * granularity * 1000) endMs ltac:(lia) Hanswer fuel 0%nat
                startMs [] Hle Hfuel)
      as (requests & Hrun & Hlen & _).
    unfold getHistoricalData. rewrite Hrun.
    eexists requests, _. split; [reflexivity|].
    rewrite Hlen. symmetry. apply Z.max_r.
    rewrite <- Hlen. lia.
  - exists [], [].
    assert (Hrun : fetchChunks fuel exchange 0 (300 * granularity * 1000)
                     endMs startMs []
                   = Some ([], Candles [])).
    { destruct (Z.ltb_spec startMs endMs) as [Hlt|_]; [lia|].
      destruct fuel; simpl;
        destruct (Z.ltb_spec startMs endMs) as [Hlt|_]; try lia; reflexivity. }
    unfold getHistoricalData. rewrite Hrun. split; [reflexivity|].
    change (Z.of_nat (length (@nil (Z * Z)))) with 0%Z.
    symmetry. apply Z.max_l.
    apply ceilDiv_le; lia.
Qed.

Lemma required_requests_are_the_requests_made_witness :
  (0 < 60)%Z
  /\ answering CoinbaseNotions.sampleExchange
  /\ (Z.to_nat (calculateRequiredRequests 0 40000000 60) <= 5)%nat
  /\ calculateRequiredRequests 0 40000000 60 = 3%Z
  /\ exists requests candles,
       getHistoricalData 5 CoinbaseNotions.sampleExchange 0 40000000 60
       = Some (requests, candles)
       /\ Z.of_nat (length requests)
          = Z.max 0 (calculateRequiredRequests 0 40000000 60).
Proof.
  assert (H1 : (0 < 60)%Z) by reflexivity.
  assert (H3 : (Z.to_nat (calculateRequiredRequests 0 40000000 60) <= 5)%nat)
    by (vm_compute; lia).
  split; [exact H1|]. split; [exact CoinbaseFacts.answering_sampleExchange|]. split; [exact H3|].
  split; [reflexivity|].
  exact (required_requests_are_the_requests_made 5
           CoinbaseNotions.sampleExchange 0 40000000 60 H1
           CoinbaseFacts.answering_sampleExchange H3).
Defined.

End GranularityFacts.

(** * Part VII: the headless simulation *)

Module SimulationFacts.

Import TradingSettings Simulation.

Lemma lastOf_push (x : option Q) (history : list (option Q)) :
  lastOf (push x history) = x.
Proof. apply last_last. Qed.

Lemma lastOf_shift_push (x : option Q) (history : list (option Q)) :
  (1 <? length (push x history))%nat = true ->
  lastOf (shift (push x history)) = x.
Proof.
  destruct history as [|y rest]; [discriminate|].
  intros _. apply last_last.
Qed.

(** What one point does to the ledger: nothing, or one sale, or one
    purchase. *)
Lemma step_cases (settings : TradingSettings.t) (l : Loop)
  (point : ChartDataPoint.t) :
  let l' := step settings l point in
  let newPrice := ChartDataPoint.price point in
  let acc := account l in
  (account l' = acc /\ openPositions l' = openPositions l
   /\ tradeIdCounter l' = tradeIdCounter l)
  \/ (exists sale,
        nth_error (openPositions l) (positionIndex sale)
        = Some (positionToSell sale)
        /\ account l'
           = Account.mk
               (Account.base acc - Trade.amount (positionToSell sale))
               (Account.quote acc
                + Trade.amount (positionToSell sale) * newPrice)
        /\ openPositions l' = splice1 (positionIndex sale) (openPositions l)
        /\ tradeIdCounter l' = tradeIdCounter l)
  \/ (let tradeAmountQuote :=
        Account.quote acc * (tradeAmountPercentage settings / 100) in
      let buyTrade :=
        Trade.mk (tradeIdCounter l) BUY newPrice (ChartDataPoint.time point)
          (tradeAmountQuote / newPrice) "MACD Crossover" in
      inject_Z (Z.of_nat (length (openPositions l)))
      < maxConcurrentPositions settings
      /\ tradeAmountQuote <= Account.quote acc
      /\ 1 < tradeAmountQuote
      /\ account l'
         = Account.mk (Account.base acc + tradeAmountQuote / newPrice)
                      (Account.quote acc - tradeAmountQuote)
      /\ openPositions l' = openPositions l ++ [buyTrade]
      /\ tradeIdCounter l' = S (tradeIdCounter l)).
Proof.
  intros l' newPrice acc. subst l'. unfold step. cbv zeta.
  match goal with
  | |- context [if ?gate then mkLoop ?a ?b ?c ?d ?e ?f else _] =>
      destruct gate eqn:Hgate; [left; repeat split|]
  end.
  clear Hgate.
  destruct (calculateSMA_default _ (fastPeriod settings)) as [fastMA|];
    [|left; repeat split].
  destruct (calculateSMA_default _ (slowPeriod settings)) as [slowMA|];
    [|left; repeat split].
  destruct (lastOf (fastMAHistory l)) as [prevFastMA|]; [|left; repeat split].
  destruct (lastOf (slowMAHistory l)) as [prevSlowMA|]; [|left; repeat split].
  destruct (selectSale settings (ChartDataPoint.price point) fastMA slowMA
              prevFastMA prevSlowMA (openPositions l)) as [sale|] eqn:Hsale.
  - right; left. exists sale.
    split; [eapply selectSale_nth; exact Hsale|]. repeat split.
  - destruct (Qlt_bool slowMA fastMA && Qle_bool prevFastMA prevSlowMA
              && Qlt_bool (inject_Z (Z.of_nat (length (openPositions l))))
                   (maxConcurrentPositions settings)) eqn:Hcross;
      [|left; repeat split].
    destruct (underRiskLine _ _); [|left; repeat split].
    destruct (Qle_bool _ (Account.quote (account l)) && Qlt_bool 1 _)
      eqn:Hfunds; [|left; repeat split].
    right; right. cbv zeta.
    apply andb_true_iff in Hcross. destruct Hcross as (_ & Hroom).
    apply Qlt_bool_iff in Hroom.
    apply andb_true_iff in Hfunds. destruct Hfunds as (Hle & Hlt).
    apply Qle_bool_iff in Hle. apply Qlt_bool_iff in Hlt.
    split; [exact Hroom|]. split; [exact Hle|]. split; [exact Hlt|].
    split; [reflexivity|]. split; reflexivity.
Qed.

Lemma step_orderly (settings : TradingSettings.t) (l : Loop)
  (point : ChartDataPoint.t) :
  orderly settings l -> orderly settings (step settings l point).
Proof.
  intros (Hroom & Hbase & Hids & Hsorted).
  destruct (step_cases settings l point)
    as [(Ha & Hp & Hc)
       | [(sale & Hnth & Ha & Hp & Hc)
         | (Hless & _ & _ & Ha & Hp & Hc)]];
    unfold orderly; rewrite Ha, Hp, Hc.
  - repeat split; assumption.
  - split; [|split; [|split]].
    + pose proof (splice1_length_le (positionIndex sale) (openPositions l)).
      lia.
    + cbn [Account.base]. rewrite openAmount_splice1 by exact Hnth.
      rewrite Hbase. reflexivity.
    + now apply Forall_splice1.
    + now apply StronglySorted_splice1.
  - split; [|split; [|split]].
    + apply ceiling_above in Hless. rewrite length_app. simpl. lia.
    + cbn [Account.base]. rewrite openAmount_app, Hbase. simpl. ring.
    + apply Forall_app. split.
      * eapply Forall_impl; [|exact Hids]. intros t Ht. simpl in Ht. lia.
      * constructor; [simpl; lia | constructor].
    + apply StronglySorted_snoc; [exact Hsorted | exact Hids].
Qed.

Lemma fold_step_orderly (settings : TradingSettings.t)
  (data : list ChartDataPoint.t) :
  forall l, orderly settings l ->
            orderly settings (fold_left (step settings) data l).
Proof.
  induction data as [|point rest IH]; intros l Hl; simpl.
  - exact Hl.
  - apply IH. now apply step_orderly.
Qed.

(** X25. The ledger of the simulation over a series none of whose
    prices is zero is in order: no more open positions than
    [maxConcurrentPositions], rounded up, allows (for a capacity that is
    an integer, no more than the capacity), the base balance is what
    the open positions hold, and the open positions are in the order of
    their ids, all below the counter. *)
Theorem simulation_keeps_its_ledger_in_order (settings : TradingSettings.t)
  (backtestData : list ChartDataPoint.t) :
  seriesNonZero (Some backtestData) = true ->
  let l := simulate settings backtestData in
  (Z.of_nat (length (openPositions l))
   <= Z.max 0 (Qceiling (maxConcurrentPositions settings)))%Z
  /\ (forall n : Z,
        maxConcurrentPositions settings == inject_Z n ->
        (Z.of_nat (length (openPositions l)) <= Z.max 0 n)%Z)
  /\ Account.base (account l) == openAmount (openPositions l)
  /\ Forall (fun t => (Trade.id t < tradeIdCounter l)%nat) (openPositions l)
  /\ StronglySorted (fun a b => (Trade.id a < Trade.id b)%nat)
       (openPositions l).
Proof.
  intros _ l.
  assert (H : orderly settings l).
  { apply (fold_step_orderly settings backtestData (initial settings)).
    unfold orderly. simpl. repeat split; try constructor. lia. }
  destruct H as (Hroom & Hrest).
  split; [exact Hroom|]. split; [|exact Hrest].
  intros n Hn. now rewrite <- (ceiling_integer _ n Hn).
Qed.

Lemma simulation_keeps_its_ledger_in_order_witness :
  let settings := Samples.sampleSettings 5 5 2 in
  let l := simulate settings Samples.risingSeries in
  seriesNonZero (Some Samples.risingSeries) = true
  /\ (Z.of_nat (length (openPositions l)) <= Z.max 0 2)%Z
  /\ Account.base (account l) == openAmount (openPositions l).
Proof.
  intros settings l.
  assert (H : seriesNonZero (Some Samples.risingSeries) = true)
    by (vm_compute; reflexivity).
  split; [exact H|].
  destruct (simulation_keeps_its_ledger_in_order settings Samples.risingSeries H)
    as (_ & Hinteger & Hbase & _).
  split; [|exact Hbase].
  apply (Hinteger 2%Z). reflexivity.
Defined.

(** While the slow average of the point before is missing, a point
    leaves the ledger as it is. *)
Lemma step_warmup (settings : TradingSettings.t) (l : Loop)
  (point : ChartDataPoint.t) (k : nat) :
  (length (priceHistory l) <= k)%nat ->
  lastOf (slowMAHistory l) = None ->
  let l' := step settings l point in
  account l' = account l
  /\ openPositions l' = openPositions l
  /\ (length (priceHistory l') <= S k)%nat
  /\ ((Z.of_nat (S k) < slowPeriod settings)%Z ->
      lastOf (slowMAHistory l') = None).
Proof.
  intros Hlen Hprev l'. subst l'. unfold step. cbv zeta.
  rewrite Hprev. cbn [truthy negb]. rewrite orb_true_r.
  cbn [account openPositions priceHistory slowMAHistory].
  set (history := if (riskPeriod + 500 <? _)%Z then _ else _).
  assert (Hhistory : (length history <= S k)%nat).
  { subst history.
    destruct (riskPeriod + 500 <? _)%Z; unfold shift, push;
      [rewrite length_tl|]; rewrite length_app; simpl; lia. }
  split; [reflexivity|]. split; [reflexivity|]. split; [exact Hhistory|].
  intro Hshort.
  assert (Hslow : calculateSMA_default history (slowPeriod settings) = None)
    by (apply calculateSMA_default_short; lia).
  rewrite Hslow.
  destruct (1 <? length (push _ (fastMAHistory l)))%nat.
  - destruct (slowMAHistory l) as [|y rest]; [reflexivity|].
    apply (last_last rest None None).
  - apply lastOf_push.
Qed.

Lemma fold_step_warmup (settings : TradingSettings.t)
  (data : list ChartDataPoint.t) :
  forall (l : Loop) (k : nat),
    (length (priceHistory l) <= k)%nat ->
    ((Z.of_nat k < slowPeriod settings)%Z ->
     lastOf (slowMAHistory l) = None) ->
    (Z.of_nat (k + length data) <= slowPeriod settings)%Z ->
    account (fold_left (step settings) data l) = account l
    /\ openPositions (fold_left (step settings) data l) = openPositions l.
Proof.
  induction data as [|point rest IH]; intros l k Hlen Hprev Hshort; simpl.
  - split; reflexivity.
  - simpl in Hshort.
    destruct (step_warmup settings l point k Hlen ltac:(apply Hprev; lia))
      as (Ha & Hp & Hlen' & Hprev').
    destruct (IH (step settings l point) (S k) Hlen' Hprev' ltac:(lia))
      as (Ha' & Hp').
    rewrite Ha', Hp'. split; assumption.
Qed.

Lemma warmup_profit (settings : TradingSettings.t)
  (backtestData : list ChartDataPoint.t) :
  (Z.of_nat (length backtestData) <= slowPeriod settings)%Z ->
  account (simulate settings backtestData)
  = Account.mk 0 (initialBalance settings)
  /\ openPositions (simulate settings backtestData) = []
  /\ runHeadlessSimulation settings (Some backtestData) == 0.
Proof.
  intro Hshort.
  destruct (fold_step_warmup settings backtestData (initial settings) 0%nat)
    as (Ha & Hp); [simpl; lia | reflexivity | simpl; lia |].
  fold (simulate settings backtestData) in Ha, Hp.
  split; [exact Ha|]. split; [exact Hp|].
  unfold runHeadlessSimulation.
  destruct backtestData as [|first rest]; [reflexivity|].
  cbv zeta. rewrite Ha. simpl. ring.
Qed.

(** X26. The warm-up of the simulation.  On a series that is not longer
    than the slow period the simulation never trades: the account is as
    at the start, no position is open and the profit is zero. *)
Theorem short_series_simulates_to_zero (settings : TradingSettings.t)
  (backtestData : list ChartDataPoint.t) :
  (Z.of_nat (length backtestData) <= slowPeriod settings)%Z ->
  account (simulate settings backtestData)
  = Account.mk 0 (initialBalance settings)
  /\ openPositions (simulate settings backtestData) = []
  /\ runHeadlessSimulation settings (Some backtestData) == 0.
Proof. exact (warmup_profit settings backtestData). Qed.

Lemma short_series_simulates_to_zero_witness :
  let settings := Samples.sampleSettings 5 5 2 in
  let backtestData := Samples.series 1 (repeat 100 15) in
  (Z.of_nat (length backtestData) <= slowPeriod settings)%Z
  /\ runHeadlessSimulation settings (Some backtestData) == 0.
Proof.
  intros settings backtestData.
  assert (H : (Z.of_nat (length backtestData) <= slowPeriod settings)%Z)
    by (vm_compute; discriminate).
  split; [exact H|].
  exact (proj2 (proj2 (short_series_simulates_to_zero settings backtestData H))).
Defined.

(** A point at a positive price keeps the balances from going below
    zero. *)
Lemma step_solvent (settings : TradingSettings.t) (l : Loop)
  (point : ChartDataPoint.t) :
  0 < ChartDataPoint.price point ->
  0 <= Account.quote (account l)
  /\ Forall (fun t => 0 <= Trade.amount t) (openPositions l) ->
  0 <= Account.quote (account (step settings l point))
  /\ Forall (fun t => 0 <= Trade.amount t)
       (openPositions (step settings l point)).
Proof.
  intros Hprice (Hquote & Hamounts).
  destruct (step_cases settings l point)
    as [(Ha & Hp & _)
       | [(sale & Hnth & Ha & Hp & _)
         | (_ & Hle & Hlt & Ha & Hp & _)]];
    rewrite Ha, Hp.
  - split; assumption.
  - split; [|now apply Forall_splice1].
    cbn [Account.quote].
    assert (Hamount : 0 <= Trade.amount (positionToSell sale)).
    { rewrite Forall_forall in Hamounts. apply Hamounts.
      eapply nth_error_In. exact Hnth. }
    pose proof (Qmult_le_0_compat _ _ Hamount (Qlt_le_weak _ _ Hprice)).
    lra.
  - cbv zeta in *. split; [cbn [Account.quote]; lra|].
    apply Forall_app. split; [exact Hamounts|].
    constructor; [|constructor]. cbn [Trade.amount].
    apply Qle_shift_div_l; [exact Hprice | lra].
Qed.

Lemma fold_step_solvent (settings : TradingSettings.t)
  (data : list ChartDataPoint.t) :
  pricesPositive data ->
  forall l,
    0 <= Account.quote (account l)
    /\ Forall (fun t => 0 <= Trade.amount t) (openPositions l) ->
    0 <= Account.quote (account (fold_left (step settings) data l))
    /\ Forall (fun t => 0 <= Trade.amount t)
         (openPositions (fold_left (step settings) data l)).
Proof.
  induction 1 as [|point rest Hprice _ IH]; intros l Hl; simpl.
  - exact Hl.
  - apply IH. now apply step_solvent.
Qed.

Lemma lastPrice_nonneg (data : list ChartDataPoint.t) :
  pricesPositive data -> 0 <= lastPrice data.
Proof.
  intro Hprices. unfold lastPrice.
  destruct (last (map Some data) None) as [point|] eqn:Hlast;
    [|apply Qle_refl].
  destruct (negb (Qeq_bool (ChartDataPoint.price point) 0));
    [|apply Qle_refl].
  assert (Hin : In (Some point) (map Some data)).
  { destruct data as [|first rest]; [discriminate|].
    rewrite <- Hlast.
    destruct (@exists_last _ (map Some (first :: rest)) ltac:(discriminate))
      as (front & lst & Heq).
    rewrite Heq, last_last. apply in_or_app. right. now left. }
  apply in_map_iff in Hin. destruct Hin as (p & Heq & Hin).
  injection Heq as ->.
  unfold pricesPositive in Hprices. rewrite Forall_forall in Hprices.
  apply Qlt_le_weak. now apply Hprices.
Qed.

(** X27. With an initial balance that is not negative and a series of
    positive prices, the simulation ends with balances that are not
    negative, so its profit is never below minus the initial balance:
    a purchase never spends more than the quote balance, and a sale
    only sells what a position holds. *)
Theorem simulation_never_loses_more_than_the_balance
  (settings : TradingSettings.t) (backtestData : list ChartDataPoint.t) :
  0 <= initialBalance settings ->
  pricesPositive backtestData ->
  0 <= Account.quote (account (simulate settings backtestData))
  /\ 0 <= Account.base (account (simulate settings backtestData))
  /\ - initialBalance settings
     <= runHeadlessSimulation settings (Some backtestData).
Proof.
  intros Hbalance Hprices.
  destruct (fold_step_solvent settings backtestData Hprices (initial settings))
    as (Hquote & Hamounts); [split; [exact Hbalance | constructor]|].
  fold (simulate settings backtestData) in Hquote, Hamounts.
  destruct (fold_step_orderly settings backtestData (initial settings))
    as (_ & Hbase & _).
  { unfold orderly. simpl. repeat split; try constructor. lia. }
  fold (simulate settings backtestData) in Hbase.
  assert (Hb : 0 <= Account.base (account (simulate settings backtestData))).
  { rewrite Hbase. now apply openAmount_nonneg. }
  split; [exact Hquote|]. split; [exact Hb|].
  unfold runHeadlessSimulation.
  destruct backtestData as [|first rest]; [lra|].
  cbv zeta.
  pose proof (Qmult_le_0_compat _ _ Hb
                (lastPrice_nonneg (first :: rest) Hprices)).
  lra.
Qed.

Lemma simulation_never_loses_more_than_the_balance_witness :
  let settings := Samples.sampleSettings 5 5 2 in
  0 <= TradingSettings.initialBalance settings
  /\ pricesPositive Samples.risingSeries
  /\ - TradingSettings.initialBalance settings
     <= runHeadlessSimulation settings (Some Samples.risingSeries).
Proof.
  intro settings.
  assert (H1 : 0 <= TradingSettings.initialBalance settings) by discriminate.
  assert (H2 : pricesPositive Samples.risingSeries)
    by (unfold pricesPositive; repeat constructor).
  split; [exact H1|]. split; [exact H2|].
  exact (proj2 (proj2 (simulation_never_loses_more_than_the_balance settings
                         Samples.risingSeries H1 H2))).
Defined.

End SimulationFacts.

(** * Part VIII: the search for the best settings *)

Module OptimizerFacts.

Import Simulation Optimizer.

Lemma visit_firstBest (settings : TradingSettings.t)
  (sortedData : list ChartDataPoint.t) (visited : list OptimalSettings)
  (s : Search) (c : OptimalSettings) :
  firstBest (profitOf settings sortedData) visited s ->
  firstBest (profitOf settings sortedData) (visited ++ [c])
    (visit settings sortedData s c).
Proof.
  intros (Hcount & Hbest). unfold visit, firstBest. cbv zeta.
  set (profit := profitOf settings sortedData) in *.
  destruct (bestProfit s) as [best|] eqn:Hs.
  - destruct Hbest as (before & after & Hvisited & Heq & Hbefore & Hafter).
    unfold exceeds. destruct (Qlt_bool best (profit c)) eqn:Hlt.
    + apply Qlt_bool_iff in Hlt.
      cbn [bestProfit optimalSettings completedSimulations].
      split; [rewrite length_app; simpl; lia|].
      exists visited, []. split; [reflexivity|]. split; [reflexivity|].
      split; [|intros c' []].
      intros c' Hin. rewrite Hvisited in Hin.
      apply in_app_or in Hin. destruct Hin as [Hin | [<- | Hin]].
      * eapply Qlt_trans; [apply Hbefore; exact Hin | exact Hlt].
      * now rewrite <- Heq.
      * eapply Qle_lt_trans; [apply Hafter; exact Hin | exact Hlt].
    + apply Qlt_bool_false_le in Hlt.
      cbn [bestProfit optimalSettings completedSimulations]. rewrite Hs.
      split; [rewrite length_app; simpl; lia|].
      exists before, (after ++ [c]).
      split; [rewrite Hvisited, <- app_assoc; reflexivity|].
      split; [exact Heq|]. split; [exact Hbefore|].
      intros c' Hin. apply in_app_or in Hin.
      destruct Hin as [Hin | [<- | []]]; [now apply Hafter | exact Hlt].
  - subst visited. unfold exceeds.
    cbn [bestProfit optimalSettings completedSimulations].
    split; [rewrite Hcount; reflexivity|].
    exists [], []. split; [reflexivity|]. split; [reflexivity|].
    split; intros c' [].
Qed.

Lemma fold_visit_firstBest (settings : TradingSettings.t)
  (sortedData : list ChartDataPoint.t) (rest : list OptimalSettings) :
  forall (visited : list OptimalSettings) (s : Search),
    firstBest (profitOf settings sortedData) visited s ->
    firstBest (profitOf settings sortedData) (visited ++ rest)
      (fold_left (visit settings sortedData) rest s).
Proof.
  induction rest as [|c rest IH]; intros visited s Hs; simpl.
  - now rewrite app_nil_r.
  - replace (visited ++ c :: rest) with ((visited ++ [c]) ++ rest)
      by (rewrite <- app_assoc; reflexivity).
    apply IH. now apply visit_firstBest.
Qed.

Lemma search_firstBest (settings : TradingSettings.t)
  (sortedData : list ChartDataPoint.t) :
  firstBest (profitOf settings sortedData) candidates
    (search settings sortedData).
Proof.
  unfold search.
  apply (fold_visit_firstBest settings sortedData candidates []).
  split; reflexivity.
Qed.

Lemma candidates_counted : length candidates = totalSimulations.
Proof. reflexivity. Qed.

(** X28. For a series of at least two points, all at positive prices,
    [findOptimalSettings] runs the 1620 simulations it announces and
    reports the first best candidate: the best profit is the profit of
    the optimal settings, every candidate the loops reach before them
    has a smaller profit and none after them has a greater one. *)
Theorem optimizer_reports_the_first_best_candidate
  (settings : TradingSettings.t) (data : list ChartDataPoint.t) :
  (2 <= length data)%nat ->
  pricesPositive data ->
  exists result before after,
    findOptimalSettings settings (Some data)
    = Some (result, totalSimulations)
    /\ totalSimulations = 1620%nat
    /\ candidates = before ++ r_optimalSettings result :: after
    /\ r_bestProfit result
       = Some (profitOf settings (sortByTime data) (r_optimalSettings result))
    /\ (forall c, In c before ->
                  profitOf settings (sortByTime data) c
                  < profitOf settings (sortByTime data)
                      (r_optimalSettings result))
    /\ (forall c, In c after ->
                  profitOf settings (sortByTime data) c
                  <= profitOf settings (sortByTime data)
                       (r_optimalSettings result)).
Proof.
  intros Hlen _.
  destruct (search_firstBest settings (sortByTime data)) as (Hcount & Hbest).
  destruct (bestProfit (search settings (sortByTime data))) as [best|] eqn:Hs;
    [|discriminate Hbest].
  destruct Hbest as (before & after & Hvisited & Heq & Hbefore & Hafter).
  unfold findOptimalSettings.
  destruct (Nat.ltb_spec (length data) 2) as [Hlt|_]; [lia|].
  cbv zeta. eexists _, before, after.
  split; [rewrite Hcount, candidates_counted; reflexivity|].
  split; [reflexivity|].
  cbn [r_optimalSettings r_bestProfit]. rewrite Hs, <- Heq.
  split; [exact Hvisited|]. split; [reflexivity|]. split; assumption.
Qed.

Lemma optimizer_reports_the_first_best_candidate_witness :
  (2 <= length Samples.risingSeries)%nat
  /\ pricesPositive Samples.risingSeries
  /\ exists result,
       findOptimalSettings (Samples.sampleSettings 5 5 2)
         (Some Samples.risingSeries)
       = Some (result, 1620%nat).
Proof.
  assert (H : (2 <= length Samples.risingSeries)%nat) by (vm_compute; lia).
  assert (Hprices : pricesPositive Samples.risingSeries)
    by (unfold pricesPositive; repeat constructor).
  split; [exact H|]. split; [exact Hprices|].
  destruct (optimizer_reports_the_first_best_candidate
              (Samples.sampleSettings 5 5 2) Samples.risingSeries H Hprices)
    as (result & _ & _ & Hrun & Htotal & _).
  exists result. rewrite Hrun, Htotal. reflexivity.
Defined.

Lemma length_insertByTime (point : ChartDataPoint.t)
  (sorted : list ChartDataPoint.t) :
  length (insertByTime point sorted) = S (length sorted).
Proof.
  induction sorted as [|first rest IH]; simpl; [reflexivity|].
  destruct (_ <=? _)%Z; simpl; [reflexivity | now rewrite IH].
Qed.

Lemma length_sortByTime (data : list ChartDataPoint.t) :
  length (sortByTime data) = length data.
Proof.
  induction data as [|point rest IH]; simpl; [reflexivity|].
  now rewrite length_insertByTime, IH.
Qed.

Lemma candidate_sensitivity (c : OptimalSettings) :
  In c candidates -> In (dipsSensitivity c) sensitivities.
Proof.
  unfold candidates. intro Hin.
  apply in_flat_map in Hin. destruct Hin as (r & _ & Hin).
  apply in_flat_map in Hin. destruct Hin as (d & Hd & Hin).
  apply in_flat_map in Hin. destruct Hin as (sl & _ & Hin).
  apply in_map_iff in Hin. destruct Hin as (st & <- & _).
  exact Hd.
Qed.

(** The shortest slow period of the candidates is 24. *)
Lemma candidate_slowPeriod (settings : TradingSettings.t) (c : OptimalSettings) :
  In c candidates -> (24 <= slowPeriod (tempSettings settings c))%Z.
Proof.
  intro Hin. apply candidate_sensitivity in Hin.
  unfold slowPeriod. cbn [tempSettings TradingSettings.dipsSensitivity].
  unfold sensitivities in Hin. simpl in Hin.
  repeat (destruct Hin as [<- | Hin]; [apply Z.leb_le; reflexivity|]).
  destruct Hin.
Qed.

(** X29. On a series of 2 to 24 points, which is too short for the slow
    average of any candidate, every simulation of the search ends with
    a profit of zero, and [findOptimalSettings] reports the first
    candidate of its loops, risk level 10, sensitivity 10, stop loss 2
    and sell trigger 0, with a best profit of zero, whatever the prices
    and the settings. *)
Theorem optimizer_on_a_short_series (settings : TradingSettings.t)
  (data : list ChartDataPoint.t) :
  (2 <= length data <= 24)%nat ->
  exists result best,
    findOptimalSettings settings (Some data)
    = Some (result, totalSimulations)
    /\ r_optimalSettings result = mkOptimal 10 10 2 0
    /\ r_bestProfit result = Some best
    /\ best == 0.
Proof.
  intros (Hlow & Hhigh).
  assert (Hzero : forall c, In c candidates ->
                            profitOf settings (sortByTime data) c == 0).
  { intros c Hin. unfold profitOf. cbv zeta.
    apply SimulationFacts.warmup_profit.
    rewrite length_sortByTime.
    pose proof (candidate_slowPeriod settings c Hin). lia. }
  destruct (search_firstBest settings (sortByTime data)) as (Hcount & Hbest).
  destruct (bestProfit (search settings (sortByTime data))) as [best|] eqn:Hs;
    [|discriminate Hbest].
  destruct Hbest as (before & after & Hvisited & Heq & Hbefore & _).
  assert (Hopt : In (optimalSettings (search settings (sortByTime data)))
                   candidates).
  { rewrite Hvisited. apply in_or_app. right. now left. }
  unfold findOptimalSettings.
  destruct (Nat.ltb_spec (length data) 2) as [Hlt|_]; [lia|].
  cbv zeta. eexists _, best.
  split; [rewrite Hcount, candidates_counted; reflexivity|].
  cbn [r_optimalSettings r_bestProfit].
  split; [|split; [exact Hs | rewrite Heq; now apply Hzero]].
  destruct before as [|c before].
  - assert (Hhead : hd_error candidates = Some (mkOptimal 10 10 2 0))
      by reflexivity.
    rewrite Hvisited in Hhead. cbn [hd_error app] in Hhead.
    exact (f_equal (fun o => match o with
                             | Some c => c
                             | None => mkOptimal 0 0 0 0
                             end) Hhead).
  - exfalso.
    assert (Hc : In c candidates)
      by (rewrite Hvisited; now left).
    pose proof (Hbefore c ltac:(now left)) as Hlt.
    rewrite Heq, (Hzero c Hc), (Hzero _ Hopt) in Hlt.
    exact (Qlt_irrefl 0 Hlt).
Qed.

Lemma optimizer_on_a_short_series_witness :
  let data := Samples.series 1 [100; 90; 120] in
  (2 <= length data <= 24)%nat
  /\ exists result best,
       findOptimalSettings (Samples.sampleSettings 5 5 2) (Some data)
       = Some (result, totalSimulations)
       /\ r_optimalSettings result = mkOptimal 10 10 2 0
       /\ r_bestProfit result = Some best
       /\ best == 0.
Proof.
  intro data.
  assert (H : (2 <= length data <= 24)%nat) by (vm_compute; lia).
  split; [exact H|].
  exact (optimizer_on_a_short_series (Samples.sampleSettings 5 5 2) data H).
Defined.

End OptimizerFacts.

(** * Part IX: the averages the crossover tests compare *)

Module ChartFacts.

Import Chart Simulation.

Lemma rev_slice_neg {A : Type} (n : Z) (l : list A) :
  (0 < n)%Z -> rev (slice (- n) l) = firstn (Z.to_nat n) (rev l).
Proof.
  intro Hn. rewrite slice_neg_skipn by exact Hn.
  rewrite firstn_rev. reflexivity.
Qed.

Lemma secondToLast_rev (f : ChartDataPoint.t -> option Q)
  (chart : list ChartDataPoint.t) (p q : ChartDataPoint.t)
  (rest : list ChartDataPoint.t) :
  rev chart = p :: q :: rest -> secondToLast f chart = f q.
Proof.
  intro Hrev.
  assert (Hchart : chart = rev rest ++ [q; p]).
  { rewrite <- (rev_involutive chart), Hrev. simpl.
    rewrite <- app_assoc. reflexivity. }
  clear Hrev. subst chart. unfold secondToLast.
  rewrite length_app, length_rev. simpl length.
  replace (1 <? length rest + 2)%nat with true
    by (symmetry; apply Nat.ltb_lt; lia).
  rewrite nth_error_app2 by (rewrite length_rev; lia).
  rewrite length_rev.
  replace (length rest + 2 - 2 - length rest)%nat with 0%nat by lia.
  reflexivity.
Qed.

(** A moving average over a window of the series is the moving average
    over the series, when the period fits in the window. *)
Lemma calculateSMA_window (cap period minPoints : Z) (l : list Q) :
  (1 <= period <= cap)%Z ->
  (minPoints <= cap)%Z ->
  calculateSMA (slice (- cap) l) period minPoints
  = calculateSMA l period minPoints.
Proof.
  intros Hp Hm.
  destruct (Z_le_gt_dec (Z.of_nat (length l)) cap) as [Hle|Hgt].
  - now rewrite slice_neg_all.
  - assert (Hlen : length (slice (- cap) l) = Z.to_nat cap).
    { rewrite slice_neg_skipn by lia. rewrite length_skipn. lia. }
    assert (Hslice : slice (- period) (slice (- cap) l) = slice (- period) l).
    { rewrite (slice_neg_skipn period) by lia.
      rewrite Hlen.
      rewrite (slice_neg_skipn cap) by lia.
      rewrite (slice_neg_skipn period l) by lia.
      rewrite skipn_skipn. f_equal. lia. }
    unfold calculateSMA. rewrite Hslice, Hlen.
    replace (Z.of_nat (Z.to_nat cap) <? minPoints)%Z with false
      by (symmetry; apply Z.ltb_ge; lia).
    replace (Z.of_nat (length l) <? minPoints)%Z with false
      by (symmetry; apply Z.ltb_ge; lia).
    reflexivity.
Qed.

Lemma slice_neg_push {A : Type} (cap : Z) (l : list A) (x : A) :
  (0 < cap)%Z -> slice (- cap) l ++ [x] = slice (- (cap + 1)) (l ++ [x]).
Proof.
  intro Hcap. rewrite !slice_neg_skipn by lia.
  rewrite length_app. simpl length.
  rewrite skipn_app.
  replace (length l + 1 - Z.to_nat (cap + 1))%nat
    with (length l - Z.to_nat cap)%nat by lia.
  replace (length l - Z.to_nat cap - length l)%nat with 0%nat by lia.
  reflexivity.
Qed.

Lemma rev_chartOf_S (settings : TradingSettings.t)
  (data : list ChartDataPoint.t) (k : nat) (point : ChartDataPoint.t) :
  nth_error data k = Some point ->
  exists recorded,
    rev (chartOf settings data (S k))
    = recorded :: firstn 499 (rev (chartOf settings data k))
    /\ ChartDataPoint.fastMA recorded
       = i_fastMA (indicators settings (chartOf settings data k)
                     (ChartDataPoint.price point))
    /\ ChartDataPoint.slowMA recorded
       = i_slowMA (indicators settings (chartOf settings data k)
                     (ChartDataPoint.price point)).
Proof.
  intro Hpoint. cbn [chartOf]. rewrite Hpoint. cbv zeta.
  match goal with
  | |- context [rev (slice _ ?l)] =>
      pose proof (rev_slice_neg 500 l eq_refl) as Hrev
  end.
  change (Z.opp 500) with (Z.neg 500) in Hrev. rewrite Hrev.
  rewrite rev_unit. change (Z.to_nat 500) with (S 499).
  rewrite firstn_cons.
  eexists. split; [reflexivity|]. split; reflexivity.
Qed.

Lemma prices_chartOf (settings : TradingSettings.t)
  (data : list ChartDataPoint.t) (k : nat) :
  (k <= length data)%nat ->
  map ChartDataPoint.price (chartOf settings data k)
  = slice (-500) (pricesUpTo data k).
Proof.
  induction k as [|k IH]; intro Hk; [reflexivity|].
  destruct (nth_error data k) as [point|] eqn:Hpoint;
    [|apply nth_error_None in Hpoint; lia].
  cbn [chartOf]. rewrite Hpoint. cbv zeta.
  rewrite map_slice, map_app, IH by lia.
  unfold pricesUpTo. rewrite (firstn_S_nth_error _ _ _ Hpoint), map_app.
  exact (slice_neg_snoc 500 _ _ eq_refl).
Qed.

(** The averages of a tick of a replay are those of the prices up to
    the tick. *)
Lemma indicators_chartOf (settings : TradingSettings.t)
  (data : list ChartDataPoint.t) (k : nat) (newPrice : Q) :
  periodsFit settings ->
  (k <= length data)%nat ->
  let ind := indicators settings (chartOf settings data k) newPrice in
  i_fastMA ind
  = calculateSMA_default (pricesUpTo data k ++ [newPrice]) (fastPeriod settings)
  /\ i_slowMA ind
     = calculateSMA_default (pricesUpTo data k ++ [newPrice])
         (slowPeriod settings).
Proof.
  intros (Hfast & Hslow) Hk ind. subst ind.
  unfold indicators. cbv zeta. cbn [i_fastMA i_slowMA].
  rewrite prices_chartOf by exact Hk.
  assert (Hhistory : slice (-500) (pricesUpTo data k) ++ [newPrice]
                     = slice (-501) (pricesUpTo data k ++ [newPrice]))
    by exact (slice_neg_push 500 _ _ eq_refl).
  rewrite Hhistory. unfold calculateSMA_default.
  split.
  - exact (calculateSMA_window 501 _ _ _ Hfast (proj2 Hfast)).
  - exact (calculateSMA_window 501 _ _ _ Hslow (proj2 Hslow)).
Qed.

(** The previous averages of a tick of a replay are those of the prices
    up to the tick before the last. *)
Lemma previous_chartOf (settings : TradingSettings.t)
  (data : list ChartDataPoint.t) (k : nat) (newPrice : Q) :
  periodsFit settings ->
  (1 <= k)%nat ->
  (S k <= length data)%nat ->
  let ind := indicators settings (chartOf settings data (S k)) newPrice in
  i_prevFastMA ind
  = calculateSMA_default (pricesUpTo data k) (fastPeriod settings)
  /\ i_prevSlowMA ind
     = calculateSMA_default (pricesUpTo data k) (slowPeriod settings).
Proof.
  intros Hfit Hk Hlen ind. subst ind.
  destruct k as [|j]; [lia|].
  destruct (nth_error data j) as [pj|] eqn:Hj;
    [|apply nth_error_None in Hj; lia].
  destruct (nth_error data (S j)) as [pk|] eqn:Hk';
    [|apply nth_error_None in Hk'; lia].
  destruct (rev_chartOf_S settings data j pj Hj)
    as (recorded & Hrev & Hf & Hs).
  destruct (rev_chartOf_S settings data (S j) pk Hk')
    as (recorded' & Hrev' & _).
  rewrite Hrev in Hrev'. change 499%nat with (S 498) in Hrev' at 1.
  rewrite firstn_cons in Hrev'.
  destruct (indicators_chartOf settings data j (ChartDataPoint.price pj) Hfit
              ltac:(lia)) as (Hfast & Hslow).
  assert (Hprices : pricesUpTo data (S j)
                    = pricesUpTo data j ++ [ChartDataPoint.price pj]).
  { unfold pricesUpTo. now rewrite (firstn_S_nth_error _ _ _ Hj), map_app. }
  unfold indicators. cbv zeta. cbn [i_prevFastMA i_prevSlowMA].
  rewrite (secondToLast_rev ChartDataPoint.fastMA _ _ _ _ Hrev').
  rewrite (secondToLast_rev ChartDataPoint.slowMA _ _ _ _ Hrev').
  rewrite Hf, Hs, Hfast, Hslow, Hprices. split; reflexivity.
Qed.

(** The chart of a replay does not depend on its trades. *)
Lemma executeTick_charted (settings : TradingSettings.t)
  (data : list ChartDataPoint.t) (k : nat) (fetched : option Q) (now : Z)
  (e : TradingEngine) :
  charted settings data k e ->
  (k < length data)%nat ->
  charted settings data (S k) (after (executeTick fetched now e)).
Proof.
  intros (Hreplay & Hchart) Hlt. split.
  - apply (executeTick_replaying settings data k fetched now e Hreplay Hlt).
  - destruct Hreplay as (Hrun & Hs & Hd & Hk & _).
    unfold executeTick. rewrite Hrun, Hs, Hd, Hk. simpl negb. cbv iota.
    destruct data as [|first rest] eqn:Edata; [simpl in Hlt; lia|].
    rewrite <- Edata in *.
    replace (length data <=? k)%nat with false
      by (symmetry; apply Nat.leb_gt; exact Hlt).
    destruct (nth_error data k) as [point|] eqn:Hpoint;
      [|apply nth_error_None in Hpoint; lia].
    apply processPrice_after.
    + unfold withNewPoint.
      cbn [state onState chartData set_currentPrice set_chartData
           set_backtestIndex].
      rewrite Hchart. cbn [chartOf]. rewrite Hpoint. reflexivity.
    + intros f s pf ps e' H.
      destruct (sell_cases (ChartDataPoint.price point)
                  (ChartDataPoint.time point) f s pf ps e')
        as [-> | (settings' & acc & sale & _ & _ & _ & _ & ->)];
        exact H.
    + intros f s pf ps line e' H.
      destruct (buy_cases (ChartDataPoint.price point)
                  (ChartDataPoint.time point) f s pf ps line e')
        as [-> | (settings' & acc & _ & _ & _ & _ & _ & ->)];
        exact H.
    + intros v e' H. unfold trackAccountValue. simpl.
      repeat match goal with
             | |- context [if ?c then _ else _] => destruct c
             end; exact H.
    + intros e' H. exact H.
Qed.

Lemma replayTicks_charted (settings : TradingSettings.t)
  (data : list ChartDataPoint.t) (n : nat) :
  forall (k : nat) (e : TradingEngine),
    charted settings data k e ->
    (k + n <= length data)%nat ->
    charted settings data (k + n) (run (replayTicks n) e).
Proof.
  induction n as [|n IH]; intros k e H Hle.
  - rewrite Nat.add_0_r. exact H.
  - replace (k + S n)%nat with (S k + n)%nat by lia.
    change (run (replayTicks (S n)) e)
      with (run (replayTicks n) (after (executeTick None 0%Z e))).
    apply IH; [|lia]. apply executeTick_charted; [exact H | lia].
Qed.

Lemma replay_charted (settings : TradingSettings.t)
  (data : list ChartDataPoint.t) (n : nat) :
  data <> [] ->
  (n <= length data)%nat ->
  charted settings data n (run (Samples.replay settings data n) constructor).
Proof.
  intros Hdata Hn.
  change (run (Samples.replay settings data n) constructor)
    with (run (replayTicks n)
            (after (start settings (Some data) false None 0%Z constructor))).
  apply (replayTicks_charted settings data n 0%nat); [|exact Hn].
  destruct (start_replaying settings data false None 0%Z constructor
              eq_refl Hdata) as (Hreplay & _).
  split; [exact Hreplay|].
  destruct Hreplay as (_ & _ & _ & _ & _ & Hchart).
  cbn [firstn map] in Hchart.
  change (slice (-500) (@nil (Z * Q))) with (@nil (Z * Q)) in Hchart.
  apply map_eq_nil in Hchart. rewrite Hchart. reflexivity.
Qed.

(** The price history of the simulation, cut to its 550 points. *)
Lemma history_capped (history : list Q) (newPrice : Q) :
  (length history <= 550)%nat ->
  (if (riskPeriod + 500 <? Z.of_nat (length (push newPrice history)))%Z
   then shift (push newPrice history) else push newPrice history)
  = slice (-550) (history ++ [newPrice]).
Proof.
  intro Hlen. unfold push, shift.
  change (riskPeriod + 500)%Z with 550%Z.
  assert (Hslice : slice (-550) (history ++ [newPrice])
                   = skipn (length (history ++ [newPrice]) - Z.to_nat 550)
                       (history ++ [newPrice]))
    by exact (slice_neg_skipn 550 _ eq_refl).
  rewrite Hslice, length_app. simpl length.
  destruct (Z.ltb_spec 550 (Z.of_nat (length history + 1))) as [Hover|Hfits].
  - replace (length history + 1 - Z.to_nat 550)%nat with 1%nat by lia.
    destruct (history ++ [newPrice]); reflexivity.
  - replace (length history + 1 - Z.to_nat 550)%nat with 0%nat by lia.
    reflexivity.
Qed.

(** What a point records in the histories of the simulation. *)
Lemma step_histories (settings : TradingSettings.t) (l : Loop)
  (point : ChartDataPoint.t) :
  length (fastMAHistory l) = length (slowMAHistory l) ->
  let history :=
    if (riskPeriod + 500
        <? Z.of_nat (length (push (ChartDataPoint.price point)
                               (priceHistory l))))%Z
    then shift (push (ChartDataPoint.price point) (priceHistory l))
    else push (ChartDataPoint.price point) (priceHistory l) in
  let l' := step settings l point in
  priceHistory l' = history
  /\ length (fastMAHistory l') = length (slowMAHistory l')
  /\ lastOf (fastMAHistory l')
     = calculateSMA_default history (fastPeriod settings)
  /\ lastOf (slowMAHistory l')
     = calculateSMA_default history (slowPeriod settings).
Proof.
  intros Hlen history l'.
  set (fastMA := calculateSMA_default history (fastPeriod settings)).
  set (slowMA := calculateSMA_default history (slowPeriod settings)).
  set (shifted := (1 <? length (push fastMA (fastMAHistory l)))%nat).
  assert (Hrecorded :
            priceHistory l' = history
            /\ fastMAHistory l'
               = (if shifted then shift (push fastMA (fastMAHistory l))
                  else push fastMA (fastMAHistory l))
            /\ slowMAHistory l'
               = (if shifted then shift (push slowMA (slowMAHistory l))
                  else push slowMA (slowMAHistory l))).
  { subst l' shifted fastMA slowMA history. unfold step. cbv zeta.
    repeat match goal with
           | |- context [match ?x with _ => _ end] =>
               lazymatch x with
               | (_ <? _)%Z => fail
               | (_ <? _)%nat => fail
               | _ => destruct x
               end
           end; repeat split. }
  destruct Hrecorded as (Hp & Hf & Hs).
  split; [exact Hp|]. rewrite Hf, Hs.
  subst shifted. unfold push, shift in *.
  destruct (fastMAHistory l) as [|f fs];
    destruct (slowMAHistory l) as [|s ss]; try discriminate Hlen.
  - repeat split.
  - simpl in Hlen. injection Hlen as Hlen.
    replace (1 <? length ((f :: fs) ++ [fastMA]))%nat with true
      by (symmetry; apply Nat.ltb_lt; rewrite length_app; simpl; lia).
    cbn [tl app]. rewrite !length_app, Hlen.
    split; [reflexivity|]. split; apply last_last.
Qed.

(** The histories of the simulation after the first [n] points. *)
Lemma simulate_histories (settings : TradingSettings.t)
  (data : list ChartDataPoint.t) (n : nat) :
  periodsFit settings ->
  (n <= length data)%nat ->
  let l := simulate settings (firstn n data) in
  priceHistory l = slice (-550) (pricesUpTo data n)
  /\ length (fastMAHistory l) = length (slowMAHistory l)
  /\ ((1 <= n)%nat ->
      lastOf (fastMAHistory l)
      = calculateSMA_default (pricesUpTo data n) (fastPeriod settings)
      /\ lastOf (slowMAHistory l)
         = calculateSMA_default (pricesUpTo data n) (slowPeriod settings)).
Proof.
  intros (Hfast & Hslow). induction n as [|n IH]; intros Hn l; subst l.
  - split; [reflexivity|]. split; [reflexivity|]. intro H. lia.
  - destruct (nth_error data n) as [point|] eqn:Hpoint;
      [|apply nth_error_None in Hpoint; lia].
    destruct (IH ltac:(lia)) as (Hhistory & Hlen & _).
    assert (Hprices : pricesUpTo data (S n)
                      = pricesUpTo data n ++ [ChartDataPoint.price point]).
    { unfold pricesUpTo. now rewrite (firstn_S_nth_error _ _ _ Hpoint), map_app. }
    unfold simulate. rewrite (firstn_S_nth_error _ _ _ Hpoint), fold_left_app.
    fold (simulate settings (firstn n data)). cbn [fold_left].
    destruct (step_histories settings (simulate settings (firstn n data))
                point Hlen) as (Hp & Hl & Hf & Hs).
    assert (Hcapped :
              (if (riskPeriod + 500
                   <? Z.of_nat
                        (length
                           (push (ChartDataPoint.price point)
                              (priceHistory
                                 (simulate settings (firstn n data))))))%Z
               then shift (push (ChartDataPoint.price point)
                             (priceHistory (simulate settings (firstn n data))))
               else push (ChartDataPoint.price point)
                      (priceHistory (simulate settings (firstn n data))))
              = slice (-550) (pricesUpTo data (S n))).
    { rewrite history_capped.
      - rewrite Hhistory, Hprices. exact (slice_neg_snoc 550 _ _ eq_refl).
      - rewrite Hhistory.
        assert (H : slice (-550) (pricesUpTo data n)
                    = skipn (length (pricesUpTo data n) - Z.to_nat 550)
                        (pricesUpTo data n))
          by exact (slice_neg_skipn 550 _ eq_refl).
        rewrite H, length_skipn. lia. }
    rewrite Hcapped in Hp, Hf, Hs.
    split; [exact Hp|]. split; [exact Hl|]. intros _.
    rewrite Hf, Hs. unfold calculateSMA_default. split.
    + exact (calculateSMA_window 550 (fastPeriod settings)
               (fastPeriod settings) _ ltac:(lia) ltac:(lia)).
    + exact (calculateSMA_window 550 (slowPeriod settings)
               (slowPeriod settings) _ ltac:(lia) ltac:(lia)).
Qed.

(** X30. The averages the crossover tests compare with.  When both
    periods are at least one and at most 501, after [k + 1] points of a
    series the next tick of the engine takes as previous averages those
    of the first [k] prices, the averages of the tick before the last,
    while the next step of the simulation takes those of the first
    [k + 1] prices, the averages of the last point. *)
Theorem crossover_of_the_engine_looks_two_ticks_back
  (settings : TradingSettings.t) (data : list ChartDataPoint.t) (k : nat)
  (newPrice : Q) :
  periodsFit settings ->
  (1 <= k)%nat ->
  (S k <= length data)%nat ->
  let e := run (Samples.replay settings data (S k)) constructor in
  let ind := indicators settings (chartData (state e)) newPrice in
  let l := simulate settings (firstn (S k) data) in
  (i_prevFastMA ind
   = calculateSMA_default (pricesUpTo data k) (fastPeriod settings)
   /\ i_prevSlowMA ind
      = calculateSMA_default (pricesUpTo data k) (slowPeriod settings))
  /\ (lastOf (fastMAHistory l)
      = calculateSMA_default (pricesUpTo data (S k)) (fastPeriod settings)
      /\ lastOf (slowMAHistory l)
         = calculateSMA_default (pricesUpTo data (S k)) (slowPeriod settings)).
Proof.
  intros Hfit Hk Hlen e ind l. subst e ind l.
  assert (Hdata : data <> []) by (destruct data; [simpl in Hlen; lia | discriminate]).
  destruct (replay_charted settings data (S k) Hdata Hlen) as (_ & Hchart).
  rewrite Hchart. split.
  - exact (previous_chartOf settings data k newPrice Hfit Hk Hlen).
  - destruct (simulate_histories settings data (S k) Hfit Hlen) as (_ & _ & H).
    apply H. lia.
Qed.

Lemma crossover_of_the_engine_looks_two_ticks_back_witness :
  let settings := Samples.sampleSettings 5 5 2 in
  let data := Samples.risingSeries in
  periodsFit settings
  /\ (1 <= 16)%nat
  /\ (17 <= length data)%nat
  /\ i_prevFastMA
       (indicators settings
          (chartData (state (run (Samples.replay settings data 17) constructor)))
          112)
     = calculateSMA_default (pricesUpTo data 16) (fastPeriod settings)
  /\ lastOf (fastMAHistory (simulate settings (firstn 17 data)))
     = calculateSMA_default (pricesUpTo data 17) (fastPeriod settings).
Proof.
  intros settings data.
  assert (H1 : periodsFit settings)
    by (vm_compute; repeat split; discriminate).
  assert (H2 : (1 <= 16)%nat) by lia.
  assert (H3 : (17 <= length data)%nat) by (vm_compute; lia).
  split; [exact H1|]. split; [exact H2|]. split; [exact H3|].
  pose proof (crossover_of_the_engine_looks_two_ticks_back settings data 16
                112 H1 H2 H3) as H.
  cbv zeta in H. destruct H as ((Hengine & _) & (Hsimulation & _)).
  split; [exact Hengine | exact Hsimulation].
Defined.

End ChartFacts.
